(** * PlanoraAgent image service: the normalization pipeline

    A shallow embedding of [ImageProcess_Service/image_service]
    (config.py, models.py, metadata.py, storage.py, core.py, api.py) and the
    properties of its specification.

    Python values are modelled as follows.
    - [str] is [string], read as the bytes of the UTF-8 text; a byte that is
      part of no well-formed sequence stands for the lone surrogate (U+DC80
      to U+DCFF) that Python's file-system decoding gives it. The other lone
      surrogates, which no file name yields, have no counterpart.
    - [int] is [Z]; [float] is IEEE binary64, computed with the Standard
      Library's [SpecFloat] at precision 53.
    - exceptions are the constructors of [exn]; a call that may raise returns
      a [result].
    - the operating system and Pillow are reached through the record
      [backend] of the operations the code calls on them. *)

From Stdlib Require Import ZArith List String Ascii Bool Lia Btauto.
From Stdlib Require Import SpecFloat QArith Qround DecimalString.
Import ListNotations.
Local Open Scope string_scope.
Local Open Scope list_scope.
Local Open Scope Z_scope.

(** ** Exceptions *)

Inductive exn : Type :=
| ImageProcessingError (message : string) (file_path : option string)
| ValidationError (model : string) (errors : list (string * string * string))
| UnidentifiedImageError (message : string)
| ValueError (message : string)
| ZeroDivisionError
| OverflowError (message : string)
| AttributeError (message : string)
| UnicodeEncodeError (message : string)
| OSError (message : string)
| HTTPException (status_code : Z) (detail : string).

Inductive result (A : Type) : Type :=
| Ok (a : A)
| Raise (e : exn).
Arguments Ok {A} a.
Arguments Raise {A} e.

Definition bind {A B} (r : result A) (k : A -> result B) : result B :=
  match r with
  | Ok a => k a
  | Raise e => Raise e
  end.

(** [try: body  except Exception as e: handler(e)] *)
Definition try_except {A} (body : result A) (handler : exn -> result A) : result A :=
  match body with
  | Ok a => Ok a
  | Raise e => handler e
  end.

Definition is_ok {A} (r : result A) : bool :=
  match r with Ok _ => true | Raise _ => false end.

Declare Scope py_scope.
Delimit Scope py_scope with py.
Notation "x <- e ;; k" := (bind e (fun x => k))
  (at level 61, e at next level, right associativity) : py_scope.
Notation "e ;;; k" := (bind e (fun _ => k))
  (at level 61, right associativity) : py_scope.

(** [str(e)]; a pydantic [ValidationError] prints the number of errors, the
    model and, for each error, the field, the message and the type. *)
Definition newline : string := String "010" "".

Definition display_error (e : string * string * string) : string :=
  let '(loc, msg, type) := e in
  (loc ++ newline ++ "  " ++ msg ++ " (type=" ++ type ++ ")")%string.

Definition exn_str (e : exn) : string :=
  match e with
  | ImageProcessingError m _ => m
  | ValidationError m errors =>
      (NilZero.string_of_uint (Nat.to_uint (List.length errors))
       ++ " validation error" ++ (match errors with [_] => "" | _ => "s" end)
       ++ " for " ++ m ++ newline
       ++ String.concat newline (map display_error errors))%string
  | UnidentifiedImageError m => m
  | ValueError m => m
  | ZeroDivisionError => "division by zero"
  | OverflowError m => m
  | AttributeError m => m
  | UnicodeEncodeError m => m
  | OSError m => m
  | HTTPException _ d => d
  end.

(** ** Characters

    The tables of the Unicode Character Database that [str.lower],
    [str.upper] and [repr] read, in version 14.0 (the one of CPython 3.11);
    code points are integers. A rule [(first, last, step, delta)] maps every
    [step]-th code point from [first] to [last] to itself plus [delta]. *)

Module Unicode.

Definition lower_rules : list (Z * Z * Z * Z) :=
  [
    (0x41, 0x5a, 1, 32); (0xc0, 0xd6, 1, 32); (0xd8, 0xde, 1, 32);
    (0x100, 0x12e, 2, 1); (0x132, 0x136, 2, 1); (0x139, 0x147, 2, 1);
    (0x14a, 0x176, 2, 1); (0x178, 0x178, 1, (-121)); (0x179, 0x17d, 2, 1);
    (0x181, 0x181, 1, 210); (0x182, 0x184, 2, 1); (0x186, 0x186, 1, 206);
    (0x187, 0x187, 1, 1); (0x189, 0x18a, 1, 205); (0x18b, 0x18b, 1, 1);
    (0x18e, 0x18e, 1, 79); (0x18f, 0x18f, 1, 202); (0x190, 0x190, 1, 203);
    (0x191, 0x191, 1, 1); (0x193, 0x193, 1, 205); (0x194, 0x194, 1, 207);
    (0x196, 0x196, 1, 211); (0x197, 0x197, 1, 209); (0x198, 0x198, 1, 1);
    (0x19c, 0x19c, 1, 211); (0x19d, 0x19d, 1, 213); (0x19f, 0x19f, 1, 214);
    (0x1a0, 0x1a4, 2, 1); (0x1a6, 0x1a6, 1, 218); (0x1a7, 0x1a7, 1, 1);
    (0x1a9, 0x1a9, 1, 218); (0x1ac, 0x1ac, 1, 1); (0x1ae, 0x1ae, 1, 218);
    (0x1af, 0x1af, 1, 1); (0x1b1, 0x1b2, 1, 217); (0x1b3, 0x1b5, 2, 1);
    (0x1b7, 0x1b7, 1, 219); (0x1b8, 0x1b8, 1, 1); (0x1bc, 0x1bc, 1, 1);
    (0x1c4, 0x1c4, 1, 2); (0x1c5, 0x1c5, 1, 1); (0x1c7, 0x1c7, 1, 2);
    (0x1c8, 0x1c8, 1, 1); (0x1ca, 0x1ca, 1, 2); (0x1cb, 0x1db, 2, 1);
    (0x1de, 0x1ee, 2, 1); (0x1f1, 0x1f1, 1, 2); (0x1f2, 0x1f4, 2, 1);
    (0x1f6, 0x1f6, 1, (-97)); (0x1f7, 0x1f7, 1, (-56)); (0x1f8, 0x21e, 2, 1);
    (0x220, 0x220, 1, (-130)); (0x222, 0x232, 2, 1);
    (0x23a, 0x23a, 1, 10795); (0x23b, 0x23b, 1, 1);
    (0x23d, 0x23d, 1, (-163)); (0x23e, 0x23e, 1, 10792);
    (0x241, 0x241, 1, 1); (0x243, 0x243, 1, (-195)); (0x244, 0x244, 1, 69);
    (0x245, 0x245, 1, 71); (0x246, 0x24e, 2, 1); (0x370, 0x372, 2, 1);
    (0x376, 0x376, 1, 1); (0x37f, 0x37f, 1, 116); (0x386, 0x386, 1, 38);
    (0x388, 0x38a, 1, 37); (0x38c, 0x38c, 1, 64); (0x38e, 0x38f, 1, 63);
    (0x391, 0x3a1, 1, 32); (0x3a3, 0x3ab, 1, 32); (0x3cf, 0x3cf, 1, 8);
    (0x3d8, 0x3ee, 2, 1); (0x3f4, 0x3f4, 1, (-60)); (0x3f7, 0x3f7, 1, 1);
    (0x3f9, 0x3f9, 1, (-7)); (0x3fa, 0x3fa, 1, 1); (0x3fd, 0x3ff, 1, (-130));
    (0x400, 0x40f, 1, 80); (0x410, 0x42f, 1, 32); (0x460, 0x480, 2, 1);
    (0x48a, 0x4be, 2, 1); (0x4c0, 0x4c0, 1, 15); (0x4c1, 0x4cd, 2, 1);
    (0x4d0, 0x52e, 2, 1); (0x531, 0x556, 1, 48); (0x10a0, 0x10c5, 1, 7264);
    (0x10c7, 0x10c7, 1, 7264); (0x10cd, 0x10cd, 1, 7264);
    (0x13a0, 0x13ef, 1, 38864); (0x13f0, 0x13f5, 1, 8);
    (0x1c90, 0x1cba, 1, (-3008)); (0x1cbd, 0x1cbf, 1, (-3008));
    (0x1e00, 0x1e94, 2, 1); (0x1e9e, 0x1e9e, 1, (-7615));
    (0x1ea0, 0x1efe, 2, 1); (0x1f08, 0x1f0f, 1, (-8));
    (0x1f18, 0x1f1d, 1, (-8)); (0x1f28, 0x1f2f, 1, (-8));
    (0x1f38, 0x1f3f, 1, (-8)); (0x1f48, 0x1f4d, 1, (-8));
    (0x1f59, 0x1f5f, 2, (-8)); (0x1f68, 0x1f6f, 1, (-8));
    (0x1f88, 0x1f8f, 1, (-8)); (0x1f98, 0x1f9f, 1, (-8));
    (0x1fa8, 0x1faf, 1, (-8)); (0x1fb8, 0x1fb9, 1, (-8));
    (0x1fba, 0x1fbb, 1, (-74)); (0x1fbc, 0x1fbc, 1, (-9));
    (0x1fc8, 0x1fcb, 1, (-86)); (0x1fcc, 0x1fcc, 1, (-9));
    (0x1fd8, 0x1fd9, 1, (-8)); (0x1fda, 0x1fdb, 1, (-100));
    (0x1fe8, 0x1fe9, 1, (-8)); (0x1fea, 0x1feb, 1, (-112));
    (0x1fec, 0x1fec, 1, (-7)); (0x1ff8, 0x1ff9, 1, (-128));
    (0x1ffa, 0x1ffb, 1, (-126)); (0x1ffc, 0x1ffc, 1, (-9));
    (0x2126, 0x2126, 1, (-7517)); (0x212a, 0x212a, 1, (-8383));
    (0x212b, 0x212b, 1, (-8262)); (0x2132, 0x2132, 1, 28);
    (0x2160, 0x216f, 1, 16); (0x2183, 0x2183, 1, 1); (0x24b6, 0x24cf, 1, 26);
    (0x2c00, 0x2c2f, 1, 48); (0x2c60, 0x2c60, 1, 1);
    (0x2c62, 0x2c62, 1, (-10743)); (0x2c63, 0x2c63, 1, (-3814));
    (0x2c64, 0x2c64, 1, (-10727)); (0x2c67, 0x2c6b, 2, 1);
    (0x2c6d, 0x2c6d, 1, (-10780)); (0x2c6e, 0x2c6e, 1, (-10749));
    (0x2c6f, 0x2c6f, 1, (-10783)); (0x2c70, 0x2c70, 1, (-10782));
    (0x2c72, 0x2c72, 1, 1); (0x2c75, 0x2c75, 1, 1);
    (0x2c7e, 0x2c7f, 1, (-10815)); (0x2c80, 0x2ce2, 2, 1);
    (0x2ceb, 0x2ced, 2, 1); (0x2cf2, 0x2cf2, 1, 1); (0xa640, 0xa66c, 2, 1);
    (0xa680, 0xa69a, 2, 1); (0xa722, 0xa72e, 2, 1); (0xa732, 0xa76e, 2, 1);
    (0xa779, 0xa77b, 2, 1); (0xa77d, 0xa77d, 1, (-35332));
    (0xa77e, 0xa786, 2, 1); (0xa78b, 0xa78b, 1, 1);
    (0xa78d, 0xa78d, 1, (-42280)); (0xa790, 0xa792, 2, 1);
    (0xa796, 0xa7a8, 2, 1); (0xa7aa, 0xa7aa, 1, (-42308));
    (0xa7ab, 0xa7ab, 1, (-42319)); (0xa7ac, 0xa7ac, 1, (-42315));
    (0xa7ad, 0xa7ad, 1, (-42305)); (0xa7ae, 0xa7ae, 1, (-42308));
    (0xa7b0, 0xa7b0, 1, (-42258)); (0xa7b1, 0xa7b1, 1, (-42282));
    (0xa7b2, 0xa7b2, 1, (-42261)); (0xa7b3, 0xa7b3, 1, 928);
    (0xa7b4, 0xa7c2, 2, 1); (0xa7c4, 0xa7c4, 1, (-48));
    (0xa7c5, 0xa7c5, 1, (-42307)); (0xa7c6, 0xa7c6, 1, (-35384));
    (0xa7c7, 0xa7c9, 2, 1); (0xa7d0, 0xa7d0, 1, 1); (0xa7d6, 0xa7d8, 2, 1);
    (0xa7f5, 0xa7f5, 1, 1); (0xff21, 0xff3a, 1, 32);
    (0x10400, 0x10427, 1, 40); (0x104b0, 0x104d3, 1, 40);
    (0x10570, 0x1057a, 1, 39); (0x1057c, 0x1058a, 1, 39);
    (0x1058c, 0x10592, 1, 39); (0x10594, 0x10595, 1, 39);
    (0x10c80, 0x10cb2, 1, 64); (0x118a0, 0x118bf, 1, 32);
    (0x16e40, 0x16e5f, 1, 32); (0x1e900, 0x1e921, 1, 34) ].

Definition lower_special : list (Z * list Z) :=
  [
    (0x130, [0x69; 0x307]) ].

Definition upper_rules : list (Z * Z * Z * Z) :=
  [
    (0x61, 0x7a, 1, (-32)); (0xb5, 0xb5, 1, 743); (0xe0, 0xf6, 1, (-32));
    (0xf8, 0xfe, 1, (-32)); (0xff, 0xff, 1, 121); (0x101, 0x12f, 2, (-1));
    (0x131, 0x131, 1, (-232)); (0x133, 0x137, 2, (-1));
    (0x13a, 0x148, 2, (-1)); (0x14b, 0x177, 2, (-1));
    (0x17a, 0x17e, 2, (-1)); (0x17f, 0x17f, 1, (-300));
    (0x180, 0x180, 1, 195); (0x183, 0x185, 2, (-1)); (0x188, 0x188, 1, (-1));
    (0x18c, 0x18c, 1, (-1)); (0x192, 0x192, 1, (-1)); (0x195, 0x195, 1, 97);
    (0x199, 0x199, 1, (-1)); (0x19a, 0x19a, 1, 163); (0x19e, 0x19e, 1, 130);
    (0x1a1, 0x1a5, 2, (-1)); (0x1a8, 0x1a8, 1, (-1));
    (0x1ad, 0x1ad, 1, (-1)); (0x1b0, 0x1b0, 1, (-1));
    (0x1b4, 0x1b6, 2, (-1)); (0x1b9, 0x1b9, 1, (-1));
    (0x1bd, 0x1bd, 1, (-1)); (0x1bf, 0x1bf, 1, 56); (0x1c5, 0x1c5, 1, (-1));
    (0x1c6, 0x1c6, 1, (-2)); (0x1c8, 0x1c8, 1, (-1));
    (0x1c9, 0x1c9, 1, (-2)); (0x1cb, 0x1cb, 1, (-1));
    (0x1cc, 0x1cc, 1, (-2)); (0x1ce, 0x1dc, 2, (-1));
    (0x1dd, 0x1dd, 1, (-79)); (0x1df, 0x1ef, 2, (-1));
    (0x1f2, 0x1f2, 1, (-1)); (0x1f3, 0x1f3, 1, (-2));
    (0x1f5, 0x1f5, 1, (-1)); (0x1f9, 0x21f, 2, (-1));
    (0x223, 0x233, 2, (-1)); (0x23c, 0x23c, 1, (-1));
    (0x23f, 0x240, 1, 10815); (0x242, 0x242, 1, (-1));
    (0x247, 0x24f, 2, (-1)); (0x250, 0x250, 1, 10783);
    (0x251, 0x251, 1, 10780); (0x252, 0x252, 1, 10782);
    (0x253, 0x253, 1, (-210)); (0x254, 0x254, 1, (-206));
    (0x256, 0x257, 1, (-205)); (0x259, 0x259, 1, (-202));
    (0x25b, 0x25b, 1, (-203)); (0x25c, 0x25c, 1, 42319);
    (0x260, 0x260, 1, (-205)); (0x261, 0x261, 1, 42315);
    (0x263, 0x263, 1, (-207)); (0x265, 0x265, 1, 42280);
    (0x266, 0x266, 1, 42308); (0x268, 0x268, 1, (-209));
    (0x269, 0x269, 1, (-211)); (0x26a, 0x26a, 1, 42308);
    (0x26b, 0x26b, 1, 10743); (0x26c, 0x26c, 1, 42305);
    (0x26f, 0x26f, 1, (-211)); (0x271, 0x271, 1, 10749);
    (0x272, 0x272, 1, (-213)); (0x275, 0x275, 1, (-214));
    (0x27d, 0x27d, 1, 10727); (0x280, 0x280, 1, (-218));
    (0x282, 0x282, 1, 42307); (0x283, 0x283, 1, (-218));
    (0x287, 0x287, 1, 42282); (0x288, 0x288, 1, (-218));
    (0x289, 0x289, 1, (-69)); (0x28a, 0x28b, 1, (-217));
    (0x28c, 0x28c, 1, (-71)); (0x292, 0x292, 1, (-219));
    (0x29d, 0x29d, 1, 42261); (0x29e, 0x29e, 1, 42258);
    (0x345, 0x345, 1, 84); (0x371, 0x373, 2, (-1)); (0x377, 0x377, 1, (-1));
    (0x37b, 0x37d, 1, 130); (0x3ac, 0x3ac, 1, (-38));
    (0x3ad, 0x3af, 1, (-37)); (0x3b1, 0x3c1, 1, (-32));
    (0x3c2, 0x3c2, 1, (-31)); (0x3c3, 0x3cb, 1, (-32));
    (0x3cc, 0x3cc, 1, (-64)); (0x3cd, 0x3ce, 1, (-63));
    (0x3d0, 0x3d0, 1, (-62)); (0x3d1, 0x3d1, 1, (-57));
    (0x3d5, 0x3d5, 1, (-47)); (0x3d6, 0x3d6, 1, (-54));
    (0x3d7, 0x3d7, 1, (-8)); (0x3d9, 0x3ef, 2, (-1));
    (0x3f0, 0x3f0, 1, (-86)); (0x3f1, 0x3f1, 1, (-80)); (0x3f2, 0x3f2, 1, 7);
    (0x3f3, 0x3f3, 1, (-116)); (0x3f5, 0x3f5, 1, (-96));
    (0x3f8, 0x3f8, 1, (-1)); (0x3fb, 0x3fb, 1, (-1));
    (0x430, 0x44f, 1, (-32)); (0x450, 0x45f, 1, (-80));
    (0x461, 0x481, 2, (-1)); (0x48b, 0x4bf, 2, (-1));
    (0x4c2, 0x4ce, 2, (-1)); (0x4cf, 0x4cf, 1, (-15));
    (0x4d1, 0x52f, 2, (-1)); (0x561, 0x586, 1, (-48));
    (0x10d0, 0x10fa, 1, 3008); (0x10fd, 0x10ff, 1, 3008);
    (0x13f8, 0x13fd, 1, (-8)); (0x1c80, 0x1c80, 1, (-6254));
    (0x1c81, 0x1c81, 1, (-6253)); (0x1c82, 0x1c82, 1, (-6244));
    (0x1c83, 0x1c84, 1, (-6242)); (0x1c85, 0x1c85, 1, (-6243));
    (0x1c86, 0x1c86, 1, (-6236)); (0x1c87, 0x1c87, 1, (-6181));
    (0x1c88, 0x1c88, 1, 35266); (0x1d79, 0x1d79, 1, 35332);
    (0x1d7d, 0x1d7d, 1, 3814); (0x1d8e, 0x1d8e, 1, 35384);
    (0x1e01, 0x1e95, 2, (-1)); (0x1e9b, 0x1e9b, 1, (-59));
    (0x1ea1, 0x1eff, 2, (-1)); (0x1f00, 0x1f07, 1, 8);
    (0x1f10, 0x1f15, 1, 8); (0x1f20, 0x1f27, 1, 8); (0x1f30, 0x1f37, 1, 8);
    (0x1f40, 0x1f45, 1, 8); (0x1f51, 0x1f57, 2, 8); (0x1f60, 0x1f67, 1, 8);
    (0x1f70, 0x1f71, 1, 74); (0x1f72, 0x1f75, 1, 86);
    (0x1f76, 0x1f77, 1, 100); (0x1f78, 0x1f79, 1, 128);
    (0x1f7a, 0x1f7b, 1, 112); (0x1f7c, 0x1f7d, 1, 126);
    (0x1fb0, 0x1fb1, 1, 8); (0x1fbe, 0x1fbe, 1, (-7205));
    (0x1fd0, 0x1fd1, 1, 8); (0x1fe0, 0x1fe1, 1, 8); (0x1fe5, 0x1fe5, 1, 7);
    (0x214e, 0x214e, 1, (-28)); (0x2170, 0x217f, 1, (-16));
    (0x2184, 0x2184, 1, (-1)); (0x24d0, 0x24e9, 1, (-26));
    (0x2c30, 0x2c5f, 1, (-48)); (0x2c61, 0x2c61, 1, (-1));
    (0x2c65, 0x2c65, 1, (-10795)); (0x2c66, 0x2c66, 1, (-10792));
    (0x2c68, 0x2c6c, 2, (-1)); (0x2c73, 0x2c73, 1, (-1));
    (0x2c76, 0x2c76, 1, (-1)); (0x2c81, 0x2ce3, 2, (-1));
    (0x2cec, 0x2cee, 2, (-1)); (0x2cf3, 0x2cf3, 1, (-1));
    (0x2d00, 0x2d25, 1, (-7264)); (0x2d27, 0x2d27, 1, (-7264));
    (0x2d2d, 0x2d2d, 1, (-7264)); (0xa641, 0xa66d, 2, (-1));
    (0xa681, 0xa69b, 2, (-1)); (0xa723, 0xa72f, 2, (-1));
    (0xa733, 0xa76f, 2, (-1)); (0xa77a, 0xa77c, 2, (-1));
    (0xa77f, 0xa787, 2, (-1)); (0xa78c, 0xa78c, 1, (-1));
    (0xa791, 0xa793, 2, (-1)); (0xa794, 0xa794, 1, 48);
    (0xa797, 0xa7a9, 2, (-1)); (0xa7b5, 0xa7c3, 2, (-1));
    (0xa7c8, 0xa7ca, 2, (-1)); (0xa7d1, 0xa7d1, 1, (-1));
    (0xa7d7, 0xa7d9, 2, (-1)); (0xa7f6, 0xa7f6, 1, (-1));
    (0xab53, 0xab53, 1, (-928)); (0xab70, 0xabbf, 1, (-38864));
    (0xff41, 0xff5a, 1, (-32)); (0x10428, 0x1044f, 1, (-40));
    (0x104d8, 0x104fb, 1, (-40)); (0x10597, 0x105a1, 1, (-39));
    (0x105a3, 0x105b1, 1, (-39)); (0x105b3, 0x105b9, 1, (-39));
    (0x105bb, 0x105bc, 1, (-39)); (0x10cc0, 0x10cf2, 1, (-64));
    (0x118c0, 0x118df, 1, (-32)); (0x16e60, 0x16e7f, 1, (-32));
    (0x1e922, 0x1e943, 1, (-34)) ].

Definition upper_special : list (Z * list Z) :=
  [
    (0xdf, [0x53; 0x53]); (0x149, [0x2bc; 0x4e]); (0x1f0, [0x4a; 0x30c]);
    (0x390, [0x399; 0x308; 0x301]); (0x3b0, [0x3a5; 0x308; 0x301]);
    (0x587, [0x535; 0x552]); (0x1e96, [0x48; 0x331]);
    (0x1e97, [0x54; 0x308]); (0x1e98, [0x57; 0x30a]);
    (0x1e99, [0x59; 0x30a]); (0x1e9a, [0x41; 0x2be]);
    (0x1f50, [0x3a5; 0x313]); (0x1f52, [0x3a5; 0x313; 0x300]);
    (0x1f54, [0x3a5; 0x313; 0x301]); (0x1f56, [0x3a5; 0x313; 0x342]);
    (0x1f80, [0x1f08; 0x399]); (0x1f81, [0x1f09; 0x399]);
    (0x1f82, [0x1f0a; 0x399]); (0x1f83, [0x1f0b; 0x399]);
    (0x1f84, [0x1f0c; 0x399]); (0x1f85, [0x1f0d; 0x399]);
    (0x1f86, [0x1f0e; 0x399]); (0x1f87, [0x1f0f; 0x399]);
    (0x1f88, [0x1f08; 0x399]); (0x1f89, [0x1f09; 0x399]);
    (0x1f8a, [0x1f0a; 0x399]); (0x1f8b, [0x1f0b; 0x399]);
    (0x1f8c, [0x1f0c; 0x399]); (0x1f8d, [0x1f0d; 0x399]);
    (0x1f8e, [0x1f0e; 0x399]); (0x1f8f, [0x1f0f; 0x399]);
    (0x1f90, [0x1f28; 0x399]); (0x1f91, [0x1f29; 0x399]);
    (0x1f92, [0x1f2a; 0x399]); (0x1f93, [0x1f2b; 0x399]);
    (0x1f94, [0x1f2c; 0x399]); (0x1f95, [0x1f2d; 0x399]);
    (0x1f96, [0x1f2e; 0x399]); (0x1f97, [0x1f2f; 0x399]);
    (0x1f98, [0x1f28; 0x399]); (0x1f99, [0x1f29; 0x399]);
    (0x1f9a, [0x1f2a; 0x399]); (0x1f9b, [0x1f2b; 0x399]);
    (0x1f9c, [0x1f2c; 0x399]); (0x1f9d, [0x1f2d; 0x399]);
    (0x1f9e, [0x1f2e; 0x399]); (0x1f9f, [0x1f2f; 0x399]);
    (0x1fa0, [0x1f68; 0x399]); (0x1fa1, [0x1f69; 0x399]);
    (0x1fa2, [0x1f6a; 0x399]); (0x1fa3, [0x1f6b; 0x399]);
    (0x1fa4, [0x1f6c; 0x399]); (0x1fa5, [0x1f6d; 0x399]);
    (0x1fa6, [0x1f6e; 0x399]); (0x1fa7, [0x1f6f; 0x399]);
    (0x1fa8, [0x1f68; 0x399]); (0x1fa9, [0x1f69; 0x399]);
    (0x1faa, [0x1f6a; 0x399]); (0x1fab, [0x1f6b; 0x399]);
    (0x1fac, [0x1f6c; 0x399]); (0x1fad, [0x1f6d; 0x399]);
    (0x1fae, [0x1f6e; 0x399]); (0x1faf, [0x1f6f; 0x399]);
    (0x1fb2, [0x1fba; 0x399]); (0x1fb3, [0x391; 0x399]);
    (0x1fb4, [0x386; 0x399]); (0x1fb6, [0x391; 0x342]);
    (0x1fb7, [0x391; 0x342; 0x399]); (0x1fbc, [0x391; 0x399]);
    (0x1fc2, [0x1fca; 0x399]); (0x1fc3, [0x397; 0x399]);
    (0x1fc4, [0x389; 0x399]); (0x1fc6, [0x397; 0x342]);
    (0x1fc7, [0x397; 0x342; 0x399]); (0x1fcc, [0x397; 0x399]);
    (0x1fd2, [0x399; 0x308; 0x300]); (0x1fd3, [0x399; 0x308; 0x301]);
    (0x1fd6, [0x399; 0x342]); (0x1fd7, [0x399; 0x308; 0x342]);
    (0x1fe2, [0x3a5; 0x308; 0x300]); (0x1fe3, [0x3a5; 0x308; 0x301]);
    (0x1fe4, [0x3a1; 0x313]); (0x1fe6, [0x3a5; 0x342]);
    (0x1fe7, [0x3a5; 0x308; 0x342]); (0x1ff2, [0x1ffa; 0x399]);
    (0x1ff3, [0x3a9; 0x399]); (0x1ff4, [0x38f; 0x399]);
    (0x1ff6, [0x3a9; 0x342]); (0x1ff7, [0x3a9; 0x342; 0x399]);
    (0x1ffc, [0x3a9; 0x399]); (0xfb00, [0x46; 0x46]); (0xfb01, [0x46; 0x49]);
    (0xfb02, [0x46; 0x4c]); (0xfb03, [0x46; 0x46; 0x49]);
    (0xfb04, [0x46; 0x46; 0x4c]); (0xfb05, [0x53; 0x54]);
    (0xfb06, [0x53; 0x54]); (0xfb13, [0x544; 0x546]);
    (0xfb14, [0x544; 0x535]); (0xfb15, [0x544; 0x53b]);
    (0xfb16, [0x54e; 0x546]); (0xfb17, [0x544; 0x53d]) ].

Definition cased_ranges : list (Z * Z) :=
  [
    (0x41, 0x5a); (0x61, 0x7a); (0xaa, 0xaa); (0xb5, 0xb5); (0xba, 0xba);
    (0xc0, 0xd6); (0xd8, 0xf6); (0xf8, 0x1ba); (0x1bc, 0x1bf);
    (0x1c4, 0x293); (0x295, 0x2b8); (0x2c0, 0x2c1); (0x2e0, 0x2e4);
    (0x345, 0x345); (0x370, 0x373); (0x376, 0x377); (0x37a, 0x37d);
    (0x37f, 0x37f); (0x386, 0x386); (0x388, 0x38a); (0x38c, 0x38c);
    (0x38e, 0x3a1); (0x3a3, 0x3f5); (0x3f7, 0x481); (0x48a, 0x52f);
    (0x531, 0x556); (0x560, 0x588); (0x10a0, 0x10c5); (0x10c7, 0x10c7);
    (0x10cd, 0x10cd); (0x10d0, 0x10fa); (0x10fd, 0x10ff); (0x13a0, 0x13f5);
    (0x13f8, 0x13fd); (0x1c80, 0x1c88); (0x1c90, 0x1cba); (0x1cbd, 0x1cbf);
    (0x1d00, 0x1dbf); (0x1e00, 0x1f15); (0x1f18, 0x1f1d); (0x1f20, 0x1f45);
    (0x1f48, 0x1f4d); (0x1f50, 0x1f57); (0x1f59, 0x1f59); (0x1f5b, 0x1f5b);
    (0x1f5d, 0x1f5d); (0x1f5f, 0x1f7d); (0x1f80, 0x1fb4); (0x1fb6, 0x1fbc);
    (0x1fbe, 0x1fbe); (0x1fc2, 0x1fc4); (0x1fc6, 0x1fcc); (0x1fd0, 0x1fd3);
    (0x1fd6, 0x1fdb); (0x1fe0, 0x1fec); (0x1ff2, 0x1ff4); (0x1ff6, 0x1ffc);
    (0x2071, 0x2071); (0x207f, 0x207f); (0x2090, 0x209c); (0x2102, 0x2102);
    (0x2107, 0x2107); (0x210a, 0x2113); (0x2115, 0x2115); (0x2119, 0x211d);
    (0x2124, 0x2124); (0x2126, 0x2126); (0x2128, 0x2128); (0x212a, 0x212d);
    (0x212f, 0x2134); (0x2139, 0x2139); (0x213c, 0x213f); (0x2145, 0x2149);
    (0x214e, 0x214e); (0x2160, 0x217f); (0x2183, 0x2184); (0x24b6, 0x24e9);
    (0x2c00, 0x2ce4); (0x2ceb, 0x2cee); (0x2cf2, 0x2cf3); (0x2d00, 0x2d25);
    (0x2d27, 0x2d27); (0x2d2d, 0x2d2d); (0xa640, 0xa66d); (0xa680, 0xa69d);
    (0xa722, 0xa787); (0xa78b, 0xa78e); (0xa790, 0xa7ca); (0xa7d0, 0xa7d1);
    (0xa7d3, 0xa7d3); (0xa7d5, 0xa7d9); (0xa7f5, 0xa7f6); (0xa7f8, 0xa7fa);
    (0xab30, 0xab5a); (0xab5c, 0xab68); (0xab70, 0xabbf); (0xfb00, 0xfb06);
    (0xfb13, 0xfb17); (0xff21, 0xff3a); (0xff41, 0xff5a); (0x10400, 0x1044f);
    (0x104b0, 0x104d3); (0x104d8, 0x104fb); (0x10570, 0x1057a);
    (0x1057c, 0x1058a); (0x1058c, 0x10592); (0x10594, 0x10595);
    (0x10597, 0x105a1); (0x105a3, 0x105b1); (0x105b3, 0x105b9);
    (0x105bb, 0x105bc); (0x10780, 0x10780); (0x10783, 0x10785);
    (0x10787, 0x107b0); (0x107b2, 0x107ba); (0x10c80, 0x10cb2);
    (0x10cc0, 0x10cf2); (0x118a0, 0x118df); (0x16e40, 0x16e7f);
    (0x1d400, 0x1d454); (0x1d456, 0x1d49c); (0x1d49e, 0x1d49f);
    (0x1d4a2, 0x1d4a2); (0x1d4a5, 0x1d4a6); (0x1d4a9, 0x1d4ac);
    (0x1d4ae, 0x1d4b9); (0x1d4bb, 0x1d4bb); (0x1d4bd, 0x1d4c3);
    (0x1d4c5, 0x1d505); (0x1d507, 0x1d50a); (0x1d50d, 0x1d514);
    (0x1d516, 0x1d51c); (0x1d51e, 0x1d539); (0x1d53b, 0x1d53e);
    (0x1d540, 0x1d544); (0x1d546, 0x1d546); (0x1d54a, 0x1d550);
    (0x1d552, 0x1d6a5); (0x1d6a8, 0x1d6c0); (0x1d6c2, 0x1d6da);
    (0x1d6dc, 0x1d6fa); (0x1d6fc, 0x1d714); (0x1d716, 0x1d734);
    (0x1d736, 0x1d74e); (0x1d750, 0x1d76e); (0x1d770, 0x1d788);
    (0x1d78a, 0x1d7a8); (0x1d7aa, 0x1d7c2); (0x1d7c4, 0x1d7cb);
    (0x1df00, 0x1df09); (0x1df0b, 0x1df1e); (0x1e900, 0x1e943);
    (0x1f130, 0x1f149); (0x1f150, 0x1f169); (0x1f170, 0x1f189) ].

Definition case_ignorable_ranges : list (Z * Z) :=
  [
    (0x27, 0x27); (0x2e, 0x2e); (0x3a, 0x3a); (0x5e, 0x5e); (0x60, 0x60);
    (0xa8, 0xa8); (0xad, 0xad); (0xaf, 0xaf); (0xb4, 0xb4); (0xb7, 0xb8);
    (0x2b0, 0x36f); (0x374, 0x375); (0x37a, 0x37a); (0x384, 0x385);
    (0x387, 0x387); (0x483, 0x489); (0x559, 0x559); (0x55f, 0x55f);
    (0x591, 0x5bd); (0x5bf, 0x5bf); (0x5c1, 0x5c2); (0x5c4, 0x5c5);
    (0x5c7, 0x5c7); (0x5f4, 0x5f4); (0x600, 0x605); (0x610, 0x61a);
    (0x61c, 0x61c); (0x640, 0x640); (0x64b, 0x65f); (0x670, 0x670);
    (0x6d6, 0x6dd); (0x6df, 0x6e8); (0x6ea, 0x6ed); (0x70f, 0x70f);
    (0x711, 0x711); (0x730, 0x74a); (0x7a6, 0x7b0); (0x7eb, 0x7f5);
    (0x7fa, 0x7fa); (0x7fd, 0x7fd); (0x816, 0x82d); (0x859, 0x85b);
    (0x888, 0x888); (0x890, 0x891); (0x898, 0x89f); (0x8c9, 0x902);
    (0x93a, 0x93a); (0x93c, 0x93c); (0x941, 0x948); (0x94d, 0x94d);
    (0x951, 0x957); (0x962, 0x963); (0x971, 0x971); (0x981, 0x981);
    (0x9bc, 0x9bc); (0x9c1, 0x9c4); (0x9cd, 0x9cd); (0x9e2, 0x9e3);
    (0x9fe, 0x9fe); (0xa01, 0xa02); (0xa3c, 0xa3c); (0xa41, 0xa42);
    (0xa47, 0xa48); (0xa4b, 0xa4d); (0xa51, 0xa51); (0xa70, 0xa71);
    (0xa75, 0xa75); (0xa81, 0xa82); (0xabc, 0xabc); (0xac1, 0xac5);
    (0xac7, 0xac8); (0xacd, 0xacd); (0xae2, 0xae3); (0xafa, 0xaff);
    (0xb01, 0xb01); (0xb3c, 0xb3c); (0xb3f, 0xb3f); (0xb41, 0xb44);
    (0xb4d, 0xb4d); (0xb55, 0xb56); (0xb62, 0xb63); (0xb82, 0xb82);
    (0xbc0, 0xbc0); (0xbcd, 0xbcd); (0xc00, 0xc00); (0xc04, 0xc04);
    (0xc3c, 0xc3c); (0xc3e, 0xc40); (0xc46, 0xc48); (0xc4a, 0xc4d);
    (0xc55, 0xc56); (0xc62, 0xc63); (0xc81, 0xc81); (0xcbc, 0xcbc);
    (0xcbf, 0xcbf); (0xcc6, 0xcc6); (0xccc, 0xccd); (0xce2, 0xce3);
    (0xd00, 0xd01); (0xd3b, 0xd3c); (0xd41, 0xd44); (0xd4d, 0xd4d);
    (0xd62, 0xd63); (0xd81, 0xd81); (0xdca, 0xdca); (0xdd2, 0xdd4);
    (0xdd6, 0xdd6); (0xe31, 0xe31); (0xe34, 0xe3a); (0xe46, 0xe4e);
    (0xeb1, 0xeb1); (0xeb4, 0xebc); (0xec6, 0xec6); (0xec8, 0xecd);
    (0xf18, 0xf19); (0xf35, 0xf35); (0xf37, 0xf37); (0xf39, 0xf39);
    (0xf71, 0xf7e); (0xf80, 0xf84); (0xf86, 0xf87); (0xf8d, 0xf97);
    (0xf99, 0xfbc); (0xfc6, 0xfc6); (0x102d, 0x1030); (0x1032, 0x1037);
    (0x1039, 0x103a); (0x103d, 0x103e); (0x1058, 0x1059); (0x105e, 0x1060);
    (0x1071, 0x1074); (0x1082, 0x1082); (0x1085, 0x1086); (0x108d, 0x108d);
    (0x109d, 0x109d); (0x10fc, 0x10fc); (0x135d, 0x135f); (0x1712, 0x1714);
    (0x1732, 0x1733); (0x1752, 0x1753); (0x1772, 0x1773); (0x17b4, 0x17b5);
    (0x17b7, 0x17bd); (0x17c6, 0x17c6); (0x17c9, 0x17d3); (0x17d7, 0x17d7);
    (0x17dd, 0x17dd); (0x180b, 0x180f); (0x1843, 0x1843); (0x1885, 0x1886);
    (0x18a9, 0x18a9); (0x1920, 0x1922); (0x1927, 0x1928); (0x1932, 0x1932);
    (0x1939, 0x193b); (0x1a17, 0x1a18); (0x1a1b, 0x1a1b); (0x1a56, 0x1a56);
    (0x1a58, 0x1a5e); (0x1a60, 0x1a60); (0x1a62, 0x1a62); (0x1a65, 0x1a6c);
    (0x1a73, 0x1a7c); (0x1a7f, 0x1a7f); (0x1aa7, 0x1aa7); (0x1ab0, 0x1ace);
    (0x1b00, 0x1b03); (0x1b34, 0x1b34); (0x1b36, 0x1b3a); (0x1b3c, 0x1b3c);
    (0x1b42, 0x1b42); (0x1b6b, 0x1b73); (0x1b80, 0x1b81); (0x1ba2, 0x1ba5);
    (0x1ba8, 0x1ba9); (0x1bab, 0x1bad); (0x1be6, 0x1be6); (0x1be8, 0x1be9);
    (0x1bed, 0x1bed); (0x1bef, 0x1bf1); (0x1c2c, 0x1c33); (0x1c36, 0x1c37);
    (0x1c78, 0x1c7d); (0x1cd0, 0x1cd2); (0x1cd4, 0x1ce0); (0x1ce2, 0x1ce8);
    (0x1ced, 0x1ced); (0x1cf4, 0x1cf4); (0x1cf8, 0x1cf9); (0x1d2c, 0x1d6a);
    (0x1d78, 0x1d78); (0x1d9b, 0x1dff); (0x1fbd, 0x1fbd); (0x1fbf, 0x1fc1);
    (0x1fcd, 0x1fcf); (0x1fdd, 0x1fdf); (0x1fed, 0x1fef); (0x1ffd, 0x1ffe);
    (0x200b, 0x200f); (0x2018, 0x2019); (0x2024, 0x2024); (0x2027, 0x2027);
    (0x202a, 0x202e); (0x2060, 0x2064); (0x2066, 0x206f); (0x2071, 0x2071);
    (0x207f, 0x207f); (0x2090, 0x209c); (0x20d0, 0x20f0); (0x2c7c, 0x2c7d);
    (0x2cef, 0x2cf1); (0x2d6f, 0x2d6f); (0x2d7f, 0x2d7f); (0x2de0, 0x2dff);
    (0x2e2f, 0x2e2f); (0x3005, 0x3005); (0x302a, 0x302d); (0x3031, 0x3035);
    (0x303b, 0x303b); (0x3099, 0x309e); (0x30fc, 0x30fe); (0xa015, 0xa015);
    (0xa4f8, 0xa4fd); (0xa60c, 0xa60c); (0xa66f, 0xa672); (0xa674, 0xa67d);
    (0xa67f, 0xa67f); (0xa69c, 0xa69f); (0xa6f0, 0xa6f1); (0xa700, 0xa721);
    (0xa770, 0xa770); (0xa788, 0xa78a); (0xa7f2, 0xa7f4); (0xa7f8, 0xa7f9);
    (0xa802, 0xa802); (0xa806, 0xa806); (0xa80b, 0xa80b); (0xa825, 0xa826);
    (0xa82c, 0xa82c); (0xa8c4, 0xa8c5); (0xa8e0, 0xa8f1); (0xa8ff, 0xa8ff);
    (0xa926, 0xa92d); (0xa947, 0xa951); (0xa980, 0xa982); (0xa9b3, 0xa9b3);
    (0xa9b6, 0xa9b9); (0xa9bc, 0xa9bd); (0xa9cf, 0xa9cf); (0xa9e5, 0xa9e6);
    (0xaa29, 0xaa2e); (0xaa31, 0xaa32); (0xaa35, 0xaa36); (0xaa43, 0xaa43);
    (0xaa4c, 0xaa4c); (0xaa70, 0xaa70); (0xaa7c, 0xaa7c); (0xaab0, 0xaab0);
    (0xaab2, 0xaab4); (0xaab7, 0xaab8); (0xaabe, 0xaabf); (0xaac1, 0xaac1);
    (0xaadd, 0xaadd); (0xaaec, 0xaaed); (0xaaf3, 0xaaf4); (0xaaf6, 0xaaf6);
    (0xab5b, 0xab5f); (0xab69, 0xab6b); (0xabe5, 0xabe5); (0xabe8, 0xabe8);
    (0xabed, 0xabed); (0xfb1e, 0xfb1e); (0xfbb2, 0xfbc2); (0xfe00, 0xfe0f);
    (0xfe13, 0xfe13); (0xfe20, 0xfe2f); (0xfe52, 0xfe52); (0xfe55, 0xfe55);
    (0xfeff, 0xfeff); (0xff07, 0xff07); (0xff0e, 0xff0e); (0xff1a, 0xff1a);
    (0xff3e, 0xff3e); (0xff40, 0xff40); (0xff70, 0xff70); (0xff9e, 0xff9f);
    (0xffe3, 0xffe3); (0xfff9, 0xfffb); (0x101fd, 0x101fd);
    (0x102e0, 0x102e0); (0x10376, 0x1037a); (0x10780, 0x10785);
    (0x10787, 0x107b0); (0x107b2, 0x107ba); (0x10a01, 0x10a03);
    (0x10a05, 0x10a06); (0x10a0c, 0x10a0f); (0x10a38, 0x10a3a);
    (0x10a3f, 0x10a3f); (0x10ae5, 0x10ae6); (0x10d24, 0x10d27);
    (0x10eab, 0x10eac); (0x10f46, 0x10f50); (0x10f82, 0x10f85);
    (0x11001, 0x11001); (0x11038, 0x11046); (0x11070, 0x11070);
    (0x11073, 0x11074); (0x1107f, 0x11081); (0x110b3, 0x110b6);
    (0x110b9, 0x110ba); (0x110bd, 0x110bd); (0x110c2, 0x110c2);
    (0x110cd, 0x110cd); (0x11100, 0x11102); (0x11127, 0x1112b);
    (0x1112d, 0x11134); (0x11173, 0x11173); (0x11180, 0x11181);
    (0x111b6, 0x111be); (0x111c9, 0x111cc); (0x111cf, 0x111cf);
    (0x1122f, 0x11231); (0x11234, 0x11234); (0x11236, 0x11237);
    (0x1123e, 0x1123e); (0x112df, 0x112df); (0x112e3, 0x112ea);
    (0x11300, 0x11301); (0x1133b, 0x1133c); (0x11340, 0x11340);
    (0x11366, 0x1136c); (0x11370, 0x11374); (0x11438, 0x1143f);
    (0x11442, 0x11444); (0x11446, 0x11446); (0x1145e, 0x1145e);
    (0x114b3, 0x114b8); (0x114ba, 0x114ba); (0x114bf, 0x114c0);
    (0x114c2, 0x114c3); (0x115b2, 0x115b5); (0x115bc, 0x115bd);
    (0x115bf, 0x115c0); (0x115dc, 0x115dd); (0x11633, 0x1163a);
    (0x1163d, 0x1163d); (0x1163f, 0x11640); (0x116ab, 0x116ab);
    (0x116ad, 0x116ad); (0x116b0, 0x116b5); (0x116b7, 0x116b7);
    (0x1171d, 0x1171f); (0x11722, 0x11725); (0x11727, 0x1172b);
    (0x1182f, 0x11837); (0x11839, 0x1183a); (0x1193b, 0x1193c);
    (0x1193e, 0x1193e); (0x11943, 0x11943); (0x119d4, 0x119d7);
    (0x119da, 0x119db); (0x119e0, 0x119e0); (0x11a01, 0x11a0a);
    (0x11a33, 0x11a38); (0x11a3b, 0x11a3e); (0x11a47, 0x11a47);
    (0x11a51, 0x11a56); (0x11a59, 0x11a5b); (0x11a8a, 0x11a96);
    (0x11a98, 0x11a99); (0x11c30, 0x11c36); (0x11c38, 0x11c3d);
    (0x11c3f, 0x11c3f); (0x11c92, 0x11ca7); (0x11caa, 0x11cb0);
    (0x11cb2, 0x11cb3); (0x11cb5, 0x11cb6); (0x11d31, 0x11d36);
    (0x11d3a, 0x11d3a); (0x11d3c, 0x11d3d); (0x11d3f, 0x11d45);
    (0x11d47, 0x11d47); (0x11d90, 0x11d91); (0x11d95, 0x11d95);
    (0x11d97, 0x11d97); (0x11ef3, 0x11ef4); (0x13430, 0x13438);
    (0x16af0, 0x16af4); (0x16b30, 0x16b36); (0x16b40, 0x16b43);
    (0x16f4f, 0x16f4f); (0x16f8f, 0x16f9f); (0x16fe0, 0x16fe1);
    (0x16fe3, 0x16fe4); (0x1aff0, 0x1aff3); (0x1aff5, 0x1affb);
    (0x1affd, 0x1affe); (0x1bc9d, 0x1bc9e); (0x1bca0, 0x1bca3);
    (0x1cf00, 0x1cf2d); (0x1cf30, 0x1cf46); (0x1d167, 0x1d169);
    (0x1d173, 0x1d182); (0x1d185, 0x1d18b); (0x1d1aa, 0x1d1ad);
    (0x1d242, 0x1d244); (0x1da00, 0x1da36); (0x1da3b, 0x1da6c);
    (0x1da75, 0x1da75); (0x1da84, 0x1da84); (0x1da9b, 0x1da9f);
    (0x1daa1, 0x1daaf); (0x1e000, 0x1e006); (0x1e008, 0x1e018);
    (0x1e01b, 0x1e021); (0x1e023, 0x1e024); (0x1e026, 0x1e02a);
    (0x1e130, 0x1e13d); (0x1e2ae, 0x1e2ae); (0x1e2ec, 0x1e2ef);
    (0x1e8d0, 0x1e8d6); (0x1e944, 0x1e94b); (0x1f3fb, 0x1f3ff);
    (0xe0001, 0xe0001); (0xe0020, 0xe007f); (0xe0100, 0xe01ef) ].

Definition not_printable_ranges : list (Z * Z) :=
  [
    (0x0, 0x1f); (0x7f, 0xa0); (0xad, 0xad); (0x378, 0x379); (0x380, 0x383);
    (0x38b, 0x38b); (0x38d, 0x38d); (0x3a2, 0x3a2); (0x530, 0x530);
    (0x557, 0x558); (0x58b, 0x58c); (0x590, 0x590); (0x5c8, 0x5cf);
    (0x5eb, 0x5ee); (0x5f5, 0x605); (0x61c, 0x61c); (0x6dd, 0x6dd);
    (0x70e, 0x70f); (0x74b, 0x74c); (0x7b2, 0x7bf); (0x7fb, 0x7fc);
    (0x82e, 0x82f); (0x83f, 0x83f); (0x85c, 0x85d); (0x85f, 0x85f);
    (0x86b, 0x86f); (0x88f, 0x897); (0x8e2, 0x8e2); (0x984, 0x984);
    (0x98d, 0x98e); (0x991, 0x992); (0x9a9, 0x9a9); (0x9b1, 0x9b1);
    (0x9b3, 0x9b5); (0x9ba, 0x9bb); (0x9c5, 0x9c6); (0x9c9, 0x9ca);
    (0x9cf, 0x9d6); (0x9d8, 0x9db); (0x9de, 0x9de); (0x9e4, 0x9e5);
    (0x9ff, 0xa00); (0xa04, 0xa04); (0xa0b, 0xa0e); (0xa11, 0xa12);
    (0xa29, 0xa29); (0xa31, 0xa31); (0xa34, 0xa34); (0xa37, 0xa37);
    (0xa3a, 0xa3b); (0xa3d, 0xa3d); (0xa43, 0xa46); (0xa49, 0xa4a);
    (0xa4e, 0xa50); (0xa52, 0xa58); (0xa5d, 0xa5d); (0xa5f, 0xa65);
    (0xa77, 0xa80); (0xa84, 0xa84); (0xa8e, 0xa8e); (0xa92, 0xa92);
    (0xaa9, 0xaa9); (0xab1, 0xab1); (0xab4, 0xab4); (0xaba, 0xabb);
    (0xac6, 0xac6); (0xaca, 0xaca); (0xace, 0xacf); (0xad1, 0xadf);
    (0xae4, 0xae5); (0xaf2, 0xaf8); (0xb00, 0xb00); (0xb04, 0xb04);
    (0xb0d, 0xb0e); (0xb11, 0xb12); (0xb29, 0xb29); (0xb31, 0xb31);
    (0xb34, 0xb34); (0xb3a, 0xb3b); (0xb45, 0xb46); (0xb49, 0xb4a);
    (0xb4e, 0xb54); (0xb58, 0xb5b); (0xb5e, 0xb5e); (0xb64, 0xb65);
    (0xb78, 0xb81); (0xb84, 0xb84); (0xb8b, 0xb8d); (0xb91, 0xb91);
    (0xb96, 0xb98); (0xb9b, 0xb9b); (0xb9d, 0xb9d); (0xba0, 0xba2);
    (0xba5, 0xba7); (0xbab, 0xbad); (0xbba, 0xbbd); (0xbc3, 0xbc5);
    (0xbc9, 0xbc9); (0xbce, 0xbcf); (0xbd1, 0xbd6); (0xbd8, 0xbe5);
    (0xbfb, 0xbff); (0xc0d, 0xc0d); (0xc11, 0xc11); (0xc29, 0xc29);
    (0xc3a, 0xc3b); (0xc45, 0xc45); (0xc49, 0xc49); (0xc4e, 0xc54);
    (0xc57, 0xc57); (0xc5b, 0xc5c); (0xc5e, 0xc5f); (0xc64, 0xc65);
    (0xc70, 0xc76); (0xc8d, 0xc8d); (0xc91, 0xc91); (0xca9, 0xca9);
    (0xcb4, 0xcb4); (0xcba, 0xcbb); (0xcc5, 0xcc5); (0xcc9, 0xcc9);
    (0xcce, 0xcd4); (0xcd7, 0xcdc); (0xcdf, 0xcdf); (0xce4, 0xce5);
    (0xcf0, 0xcf0); (0xcf3, 0xcff); (0xd0d, 0xd0d); (0xd11, 0xd11);
    (0xd45, 0xd45); (0xd49, 0xd49); (0xd50, 0xd53); (0xd64, 0xd65);
    (0xd80, 0xd80); (0xd84, 0xd84); (0xd97, 0xd99); (0xdb2, 0xdb2);
    (0xdbc, 0xdbc); (0xdbe, 0xdbf); (0xdc7, 0xdc9); (0xdcb, 0xdce);
    (0xdd5, 0xdd5); (0xdd7, 0xdd7); (0xde0, 0xde5); (0xdf0, 0xdf1);
    (0xdf5, 0xe00); (0xe3b, 0xe3e); (0xe5c, 0xe80); (0xe83, 0xe83);
    (0xe85, 0xe85); (0xe8b, 0xe8b); (0xea4, 0xea4); (0xea6, 0xea6);
    (0xebe, 0xebf); (0xec5, 0xec5); (0xec7, 0xec7); (0xece, 0xecf);
    (0xeda, 0xedb); (0xee0, 0xeff); (0xf48, 0xf48); (0xf6d, 0xf70);
    (0xf98, 0xf98); (0xfbd, 0xfbd); (0xfcd, 0xfcd); (0xfdb, 0xfff);
    (0x10c6, 0x10c6); (0x10c8, 0x10cc); (0x10ce, 0x10cf); (0x1249, 0x1249);
    (0x124e, 0x124f); (0x1257, 0x1257); (0x1259, 0x1259); (0x125e, 0x125f);
    (0x1289, 0x1289); (0x128e, 0x128f); (0x12b1, 0x12b1); (0x12b6, 0x12b7);
    (0x12bf, 0x12bf); (0x12c1, 0x12c1); (0x12c6, 0x12c7); (0x12d7, 0x12d7);
    (0x1311, 0x1311); (0x1316, 0x1317); (0x135b, 0x135c); (0x137d, 0x137f);
    (0x139a, 0x139f); (0x13f6, 0x13f7); (0x13fe, 0x13ff); (0x1680, 0x1680);
    (0x169d, 0x169f); (0x16f9, 0x16ff); (0x1716, 0x171e); (0x1737, 0x173f);
    (0x1754, 0x175f); (0x176d, 0x176d); (0x1771, 0x1771); (0x1774, 0x177f);
    (0x17de, 0x17df); (0x17ea, 0x17ef); (0x17fa, 0x17ff); (0x180e, 0x180e);
    (0x181a, 0x181f); (0x1879, 0x187f); (0x18ab, 0x18af); (0x18f6, 0x18ff);
    (0x191f, 0x191f); (0x192c, 0x192f); (0x193c, 0x193f); (0x1941, 0x1943);
    (0x196e, 0x196f); (0x1975, 0x197f); (0x19ac, 0x19af); (0x19ca, 0x19cf);
    (0x19db, 0x19dd); (0x1a1c, 0x1a1d); (0x1a5f, 0x1a5f); (0x1a7d, 0x1a7e);
    (0x1a8a, 0x1a8f); (0x1a9a, 0x1a9f); (0x1aae, 0x1aaf); (0x1acf, 0x1aff);
    (0x1b4d, 0x1b4f); (0x1b7f, 0x1b7f); (0x1bf4, 0x1bfb); (0x1c38, 0x1c3a);
    (0x1c4a, 0x1c4c); (0x1c89, 0x1c8f); (0x1cbb, 0x1cbc); (0x1cc8, 0x1ccf);
    (0x1cfb, 0x1cff); (0x1f16, 0x1f17); (0x1f1e, 0x1f1f); (0x1f46, 0x1f47);
    (0x1f4e, 0x1f4f); (0x1f58, 0x1f58); (0x1f5a, 0x1f5a); (0x1f5c, 0x1f5c);
    (0x1f5e, 0x1f5e); (0x1f7e, 0x1f7f); (0x1fb5, 0x1fb5); (0x1fc5, 0x1fc5);
    (0x1fd4, 0x1fd5); (0x1fdc, 0x1fdc); (0x1ff0, 0x1ff1); (0x1ff5, 0x1ff5);
    (0x1fff, 0x200f); (0x2028, 0x202f); (0x205f, 0x206f); (0x2072, 0x2073);
    (0x208f, 0x208f); (0x209d, 0x209f); (0x20c1, 0x20cf); (0x20f1, 0x20ff);
    (0x218c, 0x218f); (0x2427, 0x243f); (0x244b, 0x245f); (0x2b74, 0x2b75);
    (0x2b96, 0x2b96); (0x2cf4, 0x2cf8); (0x2d26, 0x2d26); (0x2d28, 0x2d2c);
    (0x2d2e, 0x2d2f); (0x2d68, 0x2d6e); (0x2d71, 0x2d7e); (0x2d97, 0x2d9f);
    (0x2da7, 0x2da7); (0x2daf, 0x2daf); (0x2db7, 0x2db7); (0x2dbf, 0x2dbf);
    (0x2dc7, 0x2dc7); (0x2dcf, 0x2dcf); (0x2dd7, 0x2dd7); (0x2ddf, 0x2ddf);
    (0x2e5e, 0x2e7f); (0x2e9a, 0x2e9a); (0x2ef4, 0x2eff); (0x2fd6, 0x2fef);
    (0x2ffc, 0x3000); (0x3040, 0x3040); (0x3097, 0x3098); (0x3100, 0x3104);
    (0x3130, 0x3130); (0x318f, 0x318f); (0x31e4, 0x31ef); (0x321f, 0x321f);
    (0xa48d, 0xa48f); (0xa4c7, 0xa4cf); (0xa62c, 0xa63f); (0xa6f8, 0xa6ff);
    (0xa7cb, 0xa7cf); (0xa7d2, 0xa7d2); (0xa7d4, 0xa7d4); (0xa7da, 0xa7f1);
    (0xa82d, 0xa82f); (0xa83a, 0xa83f); (0xa878, 0xa87f); (0xa8c6, 0xa8cd);
    (0xa8da, 0xa8df); (0xa954, 0xa95e); (0xa97d, 0xa97f); (0xa9ce, 0xa9ce);
    (0xa9da, 0xa9dd); (0xa9ff, 0xa9ff); (0xaa37, 0xaa3f); (0xaa4e, 0xaa4f);
    (0xaa5a, 0xaa5b); (0xaac3, 0xaada); (0xaaf7, 0xab00); (0xab07, 0xab08);
    (0xab0f, 0xab10); (0xab17, 0xab1f); (0xab27, 0xab27); (0xab2f, 0xab2f);
    (0xab6c, 0xab6f); (0xabee, 0xabef); (0xabfa, 0xabff); (0xd7a4, 0xd7af);
    (0xd7c7, 0xd7ca); (0xd7fc, 0xf8ff); (0xfa6e, 0xfa6f); (0xfada, 0xfaff);
    (0xfb07, 0xfb12); (0xfb18, 0xfb1c); (0xfb37, 0xfb37); (0xfb3d, 0xfb3d);
    (0xfb3f, 0xfb3f); (0xfb42, 0xfb42); (0xfb45, 0xfb45); (0xfbc3, 0xfbd2);
    (0xfd90, 0xfd91); (0xfdc8, 0xfdce); (0xfdd0, 0xfdef); (0xfe1a, 0xfe1f);
    (0xfe53, 0xfe53); (0xfe67, 0xfe67); (0xfe6c, 0xfe6f); (0xfe75, 0xfe75);
    (0xfefd, 0xff00); (0xffbf, 0xffc1); (0xffc8, 0xffc9); (0xffd0, 0xffd1);
    (0xffd8, 0xffd9); (0xffdd, 0xffdf); (0xffe7, 0xffe7); (0xffef, 0xfffb);
    (0xfffe, 0xffff); (0x1000c, 0x1000c); (0x10027, 0x10027);
    (0x1003b, 0x1003b); (0x1003e, 0x1003e); (0x1004e, 0x1004f);
    (0x1005e, 0x1007f); (0x100fb, 0x100ff); (0x10103, 0x10106);
    (0x10134, 0x10136); (0x1018f, 0x1018f); (0x1019d, 0x1019f);
    (0x101a1, 0x101cf); (0x101fe, 0x1027f); (0x1029d, 0x1029f);
    (0x102d1, 0x102df); (0x102fc, 0x102ff); (0x10324, 0x1032c);
    (0x1034b, 0x1034f); (0x1037b, 0x1037f); (0x1039e, 0x1039e);
    (0x103c4, 0x103c7); (0x103d6, 0x103ff); (0x1049e, 0x1049f);
    (0x104aa, 0x104af); (0x104d4, 0x104d7); (0x104fc, 0x104ff);
    (0x10528, 0x1052f); (0x10564, 0x1056e); (0x1057b, 0x1057b);
    (0x1058b, 0x1058b); (0x10593, 0x10593); (0x10596, 0x10596);
    (0x105a2, 0x105a2); (0x105b2, 0x105b2); (0x105ba, 0x105ba);
    (0x105bd, 0x105ff); (0x10737, 0x1073f); (0x10756, 0x1075f);
    (0x10768, 0x1077f); (0x10786, 0x10786); (0x107b1, 0x107b1);
    (0x107bb, 0x107ff); (0x10806, 0x10807); (0x10809, 0x10809);
    (0x10836, 0x10836); (0x10839, 0x1083b); (0x1083d, 0x1083e);
    (0x10856, 0x10856); (0x1089f, 0x108a6); (0x108b0, 0x108df);
    (0x108f3, 0x108f3); (0x108f6, 0x108fa); (0x1091c, 0x1091e);
    (0x1093a, 0x1093e); (0x10940, 0x1097f); (0x109b8, 0x109bb);
    (0x109d0, 0x109d1); (0x10a04, 0x10a04); (0x10a07, 0x10a0b);
    (0x10a14, 0x10a14); (0x10a18, 0x10a18); (0x10a36, 0x10a37);
    (0x10a3b, 0x10a3e); (0x10a49, 0x10a4f); (0x10a59, 0x10a5f);
    (0x10aa0, 0x10abf); (0x10ae7, 0x10aea); (0x10af7, 0x10aff);
    (0x10b36, 0x10b38); (0x10b56, 0x10b57); (0x10b73, 0x10b77);
    (0x10b92, 0x10b98); (0x10b9d, 0x10ba8); (0x10bb0, 0x10bff);
    (0x10c49, 0x10c7f); (0x10cb3, 0x10cbf); (0x10cf3, 0x10cf9);
    (0x10d28, 0x10d2f); (0x10d3a, 0x10e5f); (0x10e7f, 0x10e7f);
    (0x10eaa, 0x10eaa); (0x10eae, 0x10eaf); (0x10eb2, 0x10eff);
    (0x10f28, 0x10f2f); (0x10f5a, 0x10f6f); (0x10f8a, 0x10faf);
    (0x10fcc, 0x10fdf); (0x10ff7, 0x10fff); (0x1104e, 0x11051);
    (0x11076, 0x1107e); (0x110bd, 0x110bd); (0x110c3, 0x110cf);
    (0x110e9, 0x110ef); (0x110fa, 0x110ff); (0x11135, 0x11135);
    (0x11148, 0x1114f); (0x11177, 0x1117f); (0x111e0, 0x111e0);
    (0x111f5, 0x111ff); (0x11212, 0x11212); (0x1123f, 0x1127f);
    (0x11287, 0x11287); (0x11289, 0x11289); (0x1128e, 0x1128e);
    (0x1129e, 0x1129e); (0x112aa, 0x112af); (0x112eb, 0x112ef);
    (0x112fa, 0x112ff); (0x11304, 0x11304); (0x1130d, 0x1130e);
    (0x11311, 0x11312); (0x11329, 0x11329); (0x11331, 0x11331);
    (0x11334, 0x11334); (0x1133a, 0x1133a); (0x11345, 0x11346);
    (0x11349, 0x1134a); (0x1134e, 0x1134f); (0x11351, 0x11356);
    (0x11358, 0x1135c); (0x11364, 0x11365); (0x1136d, 0x1136f);
    (0x11375, 0x113ff); (0x1145c, 0x1145c); (0x11462, 0x1147f);
    (0x114c8, 0x114cf); (0x114da, 0x1157f); (0x115b6, 0x115b7);
    (0x115de, 0x115ff); (0x11645, 0x1164f); (0x1165a, 0x1165f);
    (0x1166d, 0x1167f); (0x116ba, 0x116bf); (0x116ca, 0x116ff);
    (0x1171b, 0x1171c); (0x1172c, 0x1172f); (0x11747, 0x117ff);
    (0x1183c, 0x1189f); (0x118f3, 0x118fe); (0x11907, 0x11908);
    (0x1190a, 0x1190b); (0x11914, 0x11914); (0x11917, 0x11917);
    (0x11936, 0x11936); (0x11939, 0x1193a); (0x11947, 0x1194f);
    (0x1195a, 0x1199f); (0x119a8, 0x119a9); (0x119d8, 0x119d9);
    (0x119e5, 0x119ff); (0x11a48, 0x11a4f); (0x11aa3, 0x11aaf);
    (0x11af9, 0x11bff); (0x11c09, 0x11c09); (0x11c37, 0x11c37);
    (0x11c46, 0x11c4f); (0x11c6d, 0x11c6f); (0x11c90, 0x11c91);
    (0x11ca8, 0x11ca8); (0x11cb7, 0x11cff); (0x11d07, 0x11d07);
    (0x11d0a, 0x11d0a); (0x11d37, 0x11d39); (0x11d3b, 0x11d3b);
    (0x11d3e, 0x11d3e); (0x11d48, 0x11d4f); (0x11d5a, 0x11d5f);
    (0x11d66, 0x11d66); (0x11d69, 0x11d69); (0x11d8f, 0x11d8f);
    (0x11d92, 0x11d92); (0x11d99, 0x11d9f); (0x11daa, 0x11edf);
    (0x11ef9, 0x11faf); (0x11fb1, 0x11fbf); (0x11ff2, 0x11ffe);
    (0x1239a, 0x123ff); (0x1246f, 0x1246f); (0x12475, 0x1247f);
    (0x12544, 0x12f8f); (0x12ff3, 0x12fff); (0x1342f, 0x143ff);
    (0x14647, 0x167ff); (0x16a39, 0x16a3f); (0x16a5f, 0x16a5f);
    (0x16a6a, 0x16a6d); (0x16abf, 0x16abf); (0x16aca, 0x16acf);
    (0x16aee, 0x16aef); (0x16af6, 0x16aff); (0x16b46, 0x16b4f);
    (0x16b5a, 0x16b5a); (0x16b62, 0x16b62); (0x16b78, 0x16b7c);
    (0x16b90, 0x16e3f); (0x16e9b, 0x16eff); (0x16f4b, 0x16f4e);
    (0x16f88, 0x16f8e); (0x16fa0, 0x16fdf); (0x16fe5, 0x16fef);
    (0x16ff2, 0x16fff); (0x187f8, 0x187ff); (0x18cd6, 0x18cff);
    (0x18d09, 0x1afef); (0x1aff4, 0x1aff4); (0x1affc, 0x1affc);
    (0x1afff, 0x1afff); (0x1b123, 0x1b14f); (0x1b153, 0x1b163);
    (0x1b168, 0x1b16f); (0x1b2fc, 0x1bbff); (0x1bc6b, 0x1bc6f);
    (0x1bc7d, 0x1bc7f); (0x1bc89, 0x1bc8f); (0x1bc9a, 0x1bc9b);
    (0x1bca0, 0x1ceff); (0x1cf2e, 0x1cf2f); (0x1cf47, 0x1cf4f);
    (0x1cfc4, 0x1cfff); (0x1d0f6, 0x1d0ff); (0x1d127, 0x1d128);
    (0x1d173, 0x1d17a); (0x1d1eb, 0x1d1ff); (0x1d246, 0x1d2df);
    (0x1d2f4, 0x1d2ff); (0x1d357, 0x1d35f); (0x1d379, 0x1d3ff);
    (0x1d455, 0x1d455); (0x1d49d, 0x1d49d); (0x1d4a0, 0x1d4a1);
    (0x1d4a3, 0x1d4a4); (0x1d4a7, 0x1d4a8); (0x1d4ad, 0x1d4ad);
    (0x1d4ba, 0x1d4ba); (0x1d4bc, 0x1d4bc); (0x1d4c4, 0x1d4c4);
    (0x1d506, 0x1d506); (0x1d50b, 0x1d50c); (0x1d515, 0x1d515);
    (0x1d51d, 0x1d51d); (0x1d53a, 0x1d53a); (0x1d53f, 0x1d53f);
    (0x1d545, 0x1d545); (0x1d547, 0x1d549); (0x1d551, 0x1d551);
    (0x1d6a6, 0x1d6a7); (0x1d7cc, 0x1d7cd); (0x1da8c, 0x1da9a);
    (0x1daa0, 0x1daa0); (0x1dab0, 0x1deff); (0x1df1f, 0x1dfff);
    (0x1e007, 0x1e007); (0x1e019, 0x1e01a); (0x1e022, 0x1e022);
    (0x1e025, 0x1e025); (0x1e02b, 0x1e0ff); (0x1e12d, 0x1e12f);
    (0x1e13e, 0x1e13f); (0x1e14a, 0x1e14d); (0x1e150, 0x1e28f);
    (0x1e2af, 0x1e2bf); (0x1e2fa, 0x1e2fe); (0x1e300, 0x1e7df);
    (0x1e7e7, 0x1e7e7); (0x1e7ec, 0x1e7ec); (0x1e7ef, 0x1e7ef);
    (0x1e7ff, 0x1e7ff); (0x1e8c5, 0x1e8c6); (0x1e8d7, 0x1e8ff);
    (0x1e94c, 0x1e94f); (0x1e95a, 0x1e95d); (0x1e960, 0x1ec70);
    (0x1ecb5, 0x1ed00); (0x1ed3e, 0x1edff); (0x1ee04, 0x1ee04);
    (0x1ee20, 0x1ee20); (0x1ee23, 0x1ee23); (0x1ee25, 0x1ee26);
    (0x1ee28, 0x1ee28); (0x1ee33, 0x1ee33); (0x1ee38, 0x1ee38);
    (0x1ee3a, 0x1ee3a); (0x1ee3c, 0x1ee41); (0x1ee43, 0x1ee46);
    (0x1ee48, 0x1ee48); (0x1ee4a, 0x1ee4a); (0x1ee4c, 0x1ee4c);
    (0x1ee50, 0x1ee50); (0x1ee53, 0x1ee53); (0x1ee55, 0x1ee56);
    (0x1ee58, 0x1ee58); (0x1ee5a, 0x1ee5a); (0x1ee5c, 0x1ee5c);
    (0x1ee5e, 0x1ee5e); (0x1ee60, 0x1ee60); (0x1ee63, 0x1ee63);
    (0x1ee65, 0x1ee66); (0x1ee6b, 0x1ee6b); (0x1ee73, 0x1ee73);
    (0x1ee78, 0x1ee78); (0x1ee7d, 0x1ee7d); (0x1ee7f, 0x1ee7f);
    (0x1ee8a, 0x1ee8a); (0x1ee9c, 0x1eea0); (0x1eea4, 0x1eea4);
    (0x1eeaa, 0x1eeaa); (0x1eebc, 0x1eeef); (0x1eef2, 0x1efff);
    (0x1f02c, 0x1f02f); (0x1f094, 0x1f09f); (0x1f0af, 0x1f0b0);
    (0x1f0c0, 0x1f0c0); (0x1f0d0, 0x1f0d0); (0x1f0f6, 0x1f0ff);
    (0x1f1ae, 0x1f1e5); (0x1f203, 0x1f20f); (0x1f23c, 0x1f23f);
    (0x1f249, 0x1f24f); (0x1f252, 0x1f25f); (0x1f266, 0x1f2ff);
    (0x1f6d8, 0x1f6dc); (0x1f6ed, 0x1f6ef); (0x1f6fd, 0x1f6ff);
    (0x1f774, 0x1f77f); (0x1f7d9, 0x1f7df); (0x1f7ec, 0x1f7ef);
    (0x1f7f1, 0x1f7ff); (0x1f80c, 0x1f80f); (0x1f848, 0x1f84f);
    (0x1f85a, 0x1f85f); (0x1f888, 0x1f88f); (0x1f8ae, 0x1f8af);
    (0x1f8b2, 0x1f8ff); (0x1fa54, 0x1fa5f); (0x1fa6e, 0x1fa6f);
    (0x1fa75, 0x1fa77); (0x1fa7d, 0x1fa7f); (0x1fa87, 0x1fa8f);
    (0x1faad, 0x1faaf); (0x1fabb, 0x1fabf); (0x1fac6, 0x1facf);
    (0x1fada, 0x1fadf); (0x1fae8, 0x1faef); (0x1faf7, 0x1faff);
    (0x1fb93, 0x1fb93); (0x1fbcb, 0x1fbef); (0x1fbfa, 0x1ffff);
    (0x2a6e0, 0x2a6ff); (0x2b739, 0x2b73f); (0x2b81e, 0x2b81f);
    (0x2cea2, 0x2ceaf); (0x2ebe1, 0x2f7ff); (0x2fa1e, 0x2ffff);
    (0x3134b, 0xe00ff); (0xe01f0, 0x10ffff) ].

Fixpoint in_ranges (c : Z) (l : list (Z * Z)) : bool :=
  match l with
  | [] => false
  | (a, b) :: r => if (a <=? c) && (c <=? b) then true else in_ranges c r
  end.

Definition is_cased (c : Z) : bool := in_ranges c cased_ranges.
Definition is_case_ignorable (c : Z) : bool := in_ranges c case_ignorable_ranges.
Definition is_printable (c : Z) : bool := negb (in_ranges c not_printable_ranges).

Fixpoint special (c : Z) (l : list (Z * list Z)) : option (list Z) :=
  match l with
  | [] => None
  | (k, v) :: r => if k =? c then Some v else special c r
  end.

Fixpoint ruled (c : Z) (l : list (Z * Z * Z * Z)) : option Z :=
  match l with
  | [] => None
  | (first, last, step, delta) :: r =>
      if (first <=? c) && (c <=? last) && ((c - first) mod step =? 0)
      then Some (c + delta) else ruled c r
  end.

Definition mapped (specials : list (Z * list Z)) (rules : list (Z * Z * Z * Z))
    (c : Z) : list Z :=
  match special c specials with
  | Some v => v
  | None => match ruled c rules with Some d => [d] | None => [c] end
  end.

Definition to_lower : Z -> list Z := mapped lower_special lower_rules.
Definition to_upper : Z -> list Z := mapped upper_special upper_rules.

Fixpoint skip_ignorable (l : list Z) : list Z :=
  match l with
  | c :: r => if is_case_ignorable c then skip_ignorable r else l
  | [] => []
  end.

(** A capital sigma is final when a cased letter comes before it and none
    comes after it, letters that case ignores set aside. [before] is read
    backwards. *)
Definition final_sigma (before after : list Z) : bool :=
  match skip_ignorable before with
  | c :: _ =>
      is_cased c
      && match skip_ignorable after with
         | [] => true
         | c' :: _ => negb (is_cased c')
         end
  | [] => false
  end.

Fixpoint lower_from (before l : list Z) : list Z :=
  match l with
  | [] => []
  | c :: r =>
      (if c =? 0x3a3 then [if final_sigma before r then 0x3c2 else 0x3c3]
       else to_lower c) ++ lower_from (c :: before) r
  end.

Definition lower (l : list Z) : list Z := lower_from [] l.
Definition upper (l : list Z) : list Z := flat_map to_upper l.

End Unicode.

(** ** Python strings *)

Module PyStr.

Definition code (c : ascii) : Z := Z.of_N (N_of_ascii c).

(** The bytes that hold a text. *)
Definition utf8 (s : string) : list Z := map code (list_ascii_of_string s).

(** Well-formed UTF-8 sequences of two, three and four bytes (no overlong
    form, no surrogate, nothing above U+10FFFF). *)
Definition is_cont (n : Z) : bool := (128 <=? n) && (n <=? 191).

Definition seq2 (n0 n1 : Z) : bool :=
  (194 <=? n0) && (n0 <=? 223) && is_cont n1.

Definition seq3 (n0 n1 n2 : Z) : bool :=
  (224 <=? n0) && (n0 <=? 239) && is_cont n1 && is_cont n2
  && negb ((n0 =? 224) && (n1 <? 160)) && negb ((n0 =? 237) && (159 <? n1)).

Definition seq4 (n0 n1 n2 n3 : Z) : bool :=
  (240 <=? n0) && (n0 <=? 244) && is_cont n1 && is_cont n2 && is_cont n3
  && negb ((n0 =? 240) && (n1 <? 144)) && negb ((n0 =? 244) && (143 <? n1)).

(** The characters of a text, as code points. A byte that starts no
    well-formed sequence is the lone surrogate U+DC00 + byte: this is how
    Python holds a file name that is not UTF-8 ([os.fsdecode]). *)
Fixpoint codepoints (s : string) : list Z :=
  match s with
  | EmptyString => []
  | String b0 r0 =>
      let n0 := code b0 in
      if n0 <? 128 then n0 :: codepoints r0
      else
        match r0 with
        | EmptyString => [56320 + n0]
        | String b1 r1 =>
            let n1 := code b1 in
            if seq2 n0 n1 then ((n0 - 192) * 64 + (n1 - 128)) :: codepoints r1
            else
              match r1 with
              | EmptyString => (56320 + n0) :: codepoints r0
              | String b2 r2 =>
                  let n2 := code b2 in
                  if seq3 n0 n1 n2
                  then ((n0 - 224) * 4096 + (n1 - 128) * 64 + (n2 - 128))
                       :: codepoints r2
                  else
                    match r2 with
                    | EmptyString => (56320 + n0) :: codepoints r0
                    | String b3 r3 =>
                        let n3 := code b3 in
                        if seq4 n0 n1 n2 n3
                        then ((n0 - 240) * 262144 + (n1 - 128) * 4096
                              + (n2 - 128) * 64 + (n3 - 128)) :: codepoints r3
                        else (56320 + n0) :: codepoints r0
                    end
              end
        end
  end.

(** [len(s)] *)
Definition len (s : string) : nat := List.length (codepoints s).

Definition is_surrogate (c : Z) : bool := (55296 <=? c) && (c <=? 57343).

(** The first surrogate of a text: its position, the character, and how many
    surrogates follow one another there. *)
Fixpoint surrogate_run (l : list Z) : Z :=
  match l with
  | c :: r => if is_surrogate c then 1 + surrogate_run r else 0
  | [] => 0
  end.

Fixpoint find_surrogate (i : Z) (l : list Z) : option (Z * Z * Z) :=
  match l with
  | [] => None
  | c :: r =>
      if is_surrogate c then Some (i, c, surrogate_run l)
      else find_surrogate (i + 1) r
  end.

(** A text that [s.encode()] accepts: it holds no surrogate. *)
Definition encodable (s : string) : bool :=
  match find_surrogate 0 (codepoints s) with None => true | Some _ => false end.

Definition hex_char (n : Z) : ascii :=
  ascii_of_N (Z.to_N (if n <? 10 then 48 + n else 87 + n)).

(** ['%0kx' % n] *)
Fixpoint hex (k : nat) (n : Z) : string :=
  match k with
  | O => ""
  | S j => hex j (n / 16) ++ String (hex_char (n mod 16)) ""
  end.

Definition hex4 (n : Z) : string := hex 4 n.

(** The bytes that hold a character; the lone surrogates that stand for a
    byte go back to that byte. *)
Definition char_bytes (c : Z) : list Z :=
  if c <? 128 then [c]
  else if (56448 <=? c) && (c <=? 56575) then [c - 56320]
  else if c <? 2048 then [192 + c / 64; 128 + c mod 64]
  else if c <? 65536
  then [224 + c / 4096; 128 + (c / 64) mod 64; 128 + c mod 64]
  else [240 + c / 262144; 128 + (c / 4096) mod 64; 128 + (c / 64) mod 64;
        128 + c mod 64].

Definition of_codepoints (l : list Z) : string :=
  string_of_list_ascii
    (map (fun b => ascii_of_N (Z.to_N b)) (flat_map char_bytes l)).

(** [s[:n]]: the first [n] characters. *)
Definition take (n : nat) (s : string) : string :=
  of_codepoints (firstn n (codepoints s)).

(** [s.lower()] and [s.upper()] *)
Definition lower (s : string) : string :=
  of_codepoints (Unicode.lower (codepoints s)).

Definition upper (s : string) : string :=
  of_codepoints (Unicode.upper (codepoints s)).

(** [repr(s)] *)
Definition repr_char (quote : Z) (c : Z) : string :=
  if (c =? quote) || (c =? 92) then String "\" (of_codepoints [c])
  else if c =? 9 then "\t"
  else if c =? 10 then "\n"
  else if c =? 13 then "\r"
  else if (c <? 32) || (c =? 127) then "\x" ++ hex 2 c
  else if c <? 127 then of_codepoints [c]
  else if Unicode.is_printable c then of_codepoints [c]
  else if c <=? 255 then "\x" ++ hex 2 c
  else if c <=? 65535 then "\u" ++ hex 4 c
  else "\U" ++ hex 8 c.

Definition repr (s : string) : string :=
  let cps := codepoints s in
  let quote := if existsb (Z.eqb 39) cps && negb (existsb (Z.eqb 34) cps)
               then 34 else 39 in
  of_codepoints [quote] ++ String.concat "" (map (repr_char quote) cps)
  ++ of_codepoints [quote].

(** [repr(l)] of a list of texts *)
Definition repr_list (l : list string) : string :=
  "[" ++ String.concat ", " (map repr l) ++ "]".

(** White space as [str.strip] sees it. One byte: space, tab to carriage
    return, and the separators 28 to 31. *)
Definition is_space (c : ascii) : bool :=
  let n := N_of_ascii c in
  (n =? 32)%N || ((9 <=? n)%N && (n <=? 13)%N) || ((28 <=? n)%N && (n <=? 31)%N).

(** Two bytes: U+0085 and U+00A0. *)
Definition is_space2 (c1 c2 : ascii) : bool :=
  let n2 := N_of_ascii c2 in
  ((n2 =? 133)%N || (n2 =? 160)%N) && (N_of_ascii c1 =? 194)%N.

(** Three bytes: U+1680, U+2000 to U+200A, U+2028, U+2029, U+202F, U+205F
    and U+3000. *)
Definition is_space3 (c1 c2 c3 : ascii) : bool :=
  let n1 := N_of_ascii c1 in
  let n2 := N_of_ascii c2 in
  let n3 := N_of_ascii c3 in
  (128 <=? n3)%N &&
  (((n1 =? 225)%N && (n2 =? 154)%N && (n3 =? 128)%N)
   || ((n1 =? 226)%N && (n2 =? 128)%N
       && ((n3 <=? 138)%N || (n3 =? 168)%N || (n3 =? 169)%N || (n3 =? 175)%N))
   || ((n1 =? 226)%N && (n2 =? 129)%N && (n3 =? 159)%N)
   || ((n1 =? 227)%N && (n2 =? 128)%N && (n3 =? 128)%N)).

(** [bool(s.strip())]: some character of [s] is not white space. *)
Fixpoint has_non_space (s : string) : bool :=
  match s with
  | EmptyString => false
  | String c1 r1 =>
      if is_space c1 then has_non_space r1
      else
        match r1 with
        | EmptyString => true
        | String c2 r2 =>
            if is_space2 c1 c2 then has_non_space r2
            else
              match r2 with
              | EmptyString => true
              | String c3 r3 =>
                  if is_space3 c1 c2 c3 then has_non_space r3 else true
              end
        end
  end.

(** Truth value of a string: [bool(s)]. *)
Definition truthy (s : string) : bool :=
  match s with EmptyString => false | _ => true end.

Fixpoint starts_with (p s : string) : bool :=
  match p, s with
  | EmptyString, _ => true
  | String a p', String b s' => Ascii.eqb a b && starts_with p' s'
  | _, _ => false
  end.

(** [str(n)] for an [int]. *)
Definition of_int (n : Z) : string := NilZero.string_of_int (Z.to_int n).

(** [s.encode()]: the UTF-8 bytes; a surrogate cannot be encoded. *)
Definition encode (s : string) : result (list Z) :=
  match find_surrogate 0 (codepoints s) with
  | None => Ok (utf8 s)
  | Some (start, c, n) =>
      Raise (UnicodeEncodeError
               (if n =? 1
                then "'utf-8' codec can't encode character '\u" ++ hex4 c
                     ++ "' in position " ++ of_int start
                     ++ ": surrogates not allowed"
                else "'utf-8' codec can't encode characters in position "
                     ++ of_int start ++ "-" ++ of_int (start + n - 1)
                     ++ ": surrogates not allowed"))
  end.

Definition mem (s : string) (l : list string) : bool :=
  existsb (String.eqb s) l.

Definition is_hex_digit (c : ascii) : bool :=
  let n := N_of_ascii c in
  ((48 <=? n)%N && (n <=? 57)%N) || ((97 <=? n)%N && (n <=? 102)%N).

Fixpoint all_hex (s : string) : bool :=
  match s with
  | EmptyString => true
  | String c r => is_hex_digit c && all_hex r
  end.

End PyStr.

(** ** MD5 (RFC 1321), as [hashlib.md5] computes it *)

Module MD5.

Definition w32 (x : Z) : Z := x mod 2 ^ 32.

Definition rotl (x n : Z) : Z :=
  w32 (Z.lor (Z.shiftl x n) (Z.shiftr x (32 - n))).

Definition not32 (x : Z) : Z := Z.lxor x 0xffffffff.

Definition K : list Z :=
  [ 0xd76aa478; 0xe8c7b756; 0x242070db; 0xc1bdceee;
    0xf57c0faf; 0x4787c62a; 0xa8304613; 0xfd469501;
    0x698098d8; 0x8b44f7af; 0xffff5bb1; 0x895cd7be;
    0x6b901122; 0xfd987193; 0xa679438e; 0x49b40821;
    0xf61e2562; 0xc040b340; 0x265e5a51; 0xe9b6c7aa;
    0xd62f105d; 0x02441453; 0xd8a1e681; 0xe7d3fbc8;
    0x21e1cde6; 0xc33707d6; 0xf4d50d87; 0x455a14ed;
    0xa9e3e905; 0xfcefa3f8; 0x676f02d9; 0x8d2a4c8a;
    0xfffa3942; 0x8771f681; 0x6d9d6122; 0xfde5380c;
    0xa4beea44; 0x4bdecfa9; 0xf6bb4b60; 0xbebfbc70;
    0x289b7ec6; 0xeaa127fa; 0xd4ef3085; 0x04881d05;
    0xd9d4d039; 0xe6db99e5; 0x1fa27cf8; 0xc4ac5665;
    0xf4292244; 0x432aff97; 0xab9423a7; 0xfc93a039;
    0x655b59c3; 0x8f0ccc92; 0xffeff47d; 0x85845dd1;
    0x6fa87e4f; 0xfe2ce6e0; 0xa3014314; 0x4e0811a1;
    0xf7537e82; 0xbd3af235; 0x2ad7d2bb; 0xeb86d391 ].

Definition shifts : list Z :=
  [ 7; 12; 17; 22; 7; 12; 17; 22; 7; 12; 17; 22; 7; 12; 17; 22;
    5; 9; 14; 20; 5; 9; 14; 20; 5; 9; 14; 20; 5; 9; 14; 20;
    4; 11; 16; 23; 4; 11; 16; 23; 4; 11; 16; 23; 4; 11; 16; 23;
    6; 10; 15; 21; 6; 10; 15; 21; 6; 10; 15; 21; 6; 10; 15; 21 ].

Record state := St { sa : Z; sb : Z; sc : Z; sd : Z }.

Definition init : state :=
  St 0x67452301 0xefcdab89 0x98badcfe 0x10325476.

(** The message word and the mixing function of step [i]. *)
Definition mix (i b c d : Z) : Z * Z :=
  if i <? 16 then (Z.lor (Z.land b c) (Z.land (not32 b) d), i)
  else if i <? 32 then (Z.lor (Z.land d b) (Z.land (not32 d) c), (5 * i + 1) mod 16)
  else if i <? 48 then (Z.lxor (Z.lxor b c) d, (3 * i + 5) mod 16)
  else (Z.lxor c (Z.lor b (not32 d)), (7 * i) mod 16).

Definition step (m : list Z) (s : state) (i : nat) : state :=
  let '(St a b c d) := s in
  let '(f, g) := mix (Z.of_nat i) b c d in
  let f' := w32 (f + a + nth i K 0 + nth (Z.to_nat g) m 0) in
  St d (w32 (b + rotl f' (nth i shifts 0))) b c.

Definition compress (s : state) (m : list Z) : state :=
  let '(St a b c d) := fold_left (step m) (seq 0 64) s in
  St (w32 (sa s + a)) (w32 (sb s + b)) (w32 (sc s + c)) (w32 (sd s + d)).

(** Little-endian bytes of a word, and back. *)
Fixpoint le_bytes (n : nat) (x : Z) : list Z :=
  match n with
  | O => []
  | S k => (x mod 256) :: le_bytes k (x / 256)
  end.

Fixpoint le_word (bs : list Z) : Z :=
  match bs with
  | [] => 0
  | b :: r => b + 256 * le_word r
  end.

Definition pad (msg : list Z) : list Z :=
  let len := Z.of_nat (List.length msg) in
  let zeros := Z.to_nat ((55 - len) mod 64) in
  msg ++ [128] ++ repeat 0 zeros ++ le_bytes 8 ((8 * len) mod 2 ^ 64).

(** The sixteen words of each 64-byte block; [fuel] counts the blocks. *)
Fixpoint words (n : nat) (bs : list Z) : list Z :=
  match n with
  | O => []
  | S k => le_word (firstn 4 bs) :: words k (skipn 4 bs)
  end.

Fixpoint blocks (fuel : nat) (bs : list Z) (s : state) : state :=
  match fuel with
  | O => s
  | S k => blocks k (skipn 64 bs) (compress s (words 16 bs))
  end.

(** [hashlib.md5(msg).digest()] *)
Definition digest (msg : list Z) : list Z :=
  let p := pad msg in
  let '(St a b c d) := blocks (List.length p / 64) p init in
  le_bytes 4 a ++ le_bytes 4 b ++ le_bytes 4 c ++ le_bytes 4 d.

Definition hex_digit (n : Z) : ascii :=
  ascii_of_N (Z.to_N (if n <? 10 then 48 + n else 87 + n)).

Fixpoint hex (bs : list Z) : string :=
  match bs with
  | [] => EmptyString
  | b :: r => String (hex_digit (b / 16)) (String (hex_digit (b mod 16)) (hex r))
  end.

(** [hashlib.md5(msg).hexdigest()] *)
Definition hexdigest (msg : list Z) : string := hex (digest msg).

End MD5.

(** ** Paths ([pathlib], POSIX flavour) *)

Module PyPath.

(** [s.split('/')] *)
Fixpoint split (s : string) : list string :=
  match s with
  | EmptyString => [""]
  | String c r =>
      if Ascii.eqb c "/" then "" :: split r
      else match split r with
           | x :: l => String c x :: l
           | [] => [String c ""]
           end
  end.

(** [part.lstrip('/')] *)
Fixpoint lstrip (s : string) : string :=
  match s with
  | String c r => if Ascii.eqb c "/" then lstrip r else s
  | EmptyString => ""
  end.

(** A parsed path: its root ('', '/' or '//') and the components after
    it. *)
Record t : Type := mk { root : string; parts : list string }.

(** The root is '//' for exactly two leading slashes. *)
Definition splitroot (part : string) : string * string :=
  if PyStr.starts_with "/" part then
    let stripped_part := lstrip part in
    if (String.length part - String.length stripped_part =? 2)%nat
    then ("//", stripped_part) else ("/", stripped_part)
  else ("", part).

(** A component that is kept: not empty and not '.'. *)
Definition kept (x : string) : bool :=
  PyStr.truthy x && negb (String.eqb x ".").

(** [Path(s)] *)
Definition parse (s : string) : t :=
  let '(root, rel) := splitroot s in
  mk root (filter kept (split rel)).

(** ['/'.join(l)] *)
Fixpoint sep_join (l : list string) : string :=
  match l with
  | [] => ""
  | x :: r => match r with [] => x | _ => x ++ "/" ++ sep_join r end
  end.

(** [str(p)] *)
Definition to_str (p : t) : string :=
  let s := (root p ++ sep_join (parts p))%string in
  if PyStr.truthy s then s else ".".

(** [p / q]: a [q] that has a root replaces [p]. *)
Definition div (p q : t) : t :=
  if PyStr.truthy (root q) then q else mk (root p) (parts p ++ parts q).

(** [str(Path(s))] *)
Definition str (s : string) : string := to_str (parse s).

(** [Path(p).name]: the last component, if there is one. *)
Definition name (p : string) : string := last (parts (parse p)) "".

(** [name.rfind('.')] *)
Fixpoint rfind_dot (s : string) : option nat :=
  match s with
  | EmptyString => None
  | String c r =>
      match rfind_dot r with
      | Some i => Some (S i)
      | None => if Ascii.eqb c "." then Some O else None
      end
  end.

(** [Path(p).suffix] *)
Definition suffix (p : string) : string :=
  let n := name p in
  match rfind_dot n with
  | Some i =>
      if (0 <? i)%nat && (i <? String.length n - 1)%nat
      then substring i (String.length n - i) n
      else ""
  | None => ""
  end.

(** [Path(p).stem] *)
Definition stem (p : string) : string :=
  let n := name p in
  match rfind_dot n with
  | Some i =>
      if (0 <? i)%nat && (i <? String.length n - 1)%nat
      then substring 0 i n
      else n
  | None => n
  end.

(** [str(Path(a) / b)] *)
Definition join (a b : string) : string := to_str (div (parse a) (parse b)).

End PyPath.

(** ** Python floats: IEEE binary64 *)

Module PyFloat.

Definition prec : Z := 53.
Definition emax : Z := 1024.

Definition float : Type := spec_float.

Definition is_finite (x : float) : bool :=
  match x with
  | S754_zero _ | S754_finite _ _ _ => true
  | _ => false
  end.

(** [float(n)]: the nearest double, ties to even. *)
Definition of_int (n : Z) : result float :=
  let x := binary_normalize prec emax n 0 false in
  if is_finite x then Ok x
  else Raise (OverflowError "int too large to convert to float").

(** [a / b] on two [int]s: the exact quotient rounded once. *)
Definition true_div (a b : Z) : result float :=
  if b =? 0 then Raise ZeroDivisionError
  else if a =? 0 then Ok (S754_zero (b <? 0))
  else
    let '(mz, ez, lz) := SFdiv_core_binary prec emax (Z.abs a) 0 (Z.abs b) 0 in
    let q := binary_round_aux prec emax (xorb (a <? 0) (b <? 0)) mz ez lz in
    if is_finite q then Ok q
    else Raise (OverflowError "integer division result too large for a float").

(** [n * x] with [n] an [int] and [x] a [float]. *)
Definition int_mul (n : Z) (x : float) : result float :=
  bind (of_int n) (fun fn => Ok (SFmul prec emax fn x)).

(** [min(a, b)]: the first of the two unless the second is smaller. *)
Definition min (a b : float) : float :=
  if SFltb b a then b else a.

(** [int(x)]: truncation toward zero. *)
Definition to_int (x : float) : result Z :=
  match x with
  | S754_zero _ => Ok 0
  | S754_finite s m e =>
      Ok (cond_Zopp s (if 0 <=? e then Zpos m * 2 ^ e
                       else Z.quot (Zpos m) (2 ^ (- e))))
  | S754_infinity _ => Raise (OverflowError "cannot convert float infinity to integer")
  | S754_nan => Raise (ValueError "cannot convert float NaN to integer")
  end.

(** The rational a finite float stands for. *)
Definition to_Q (x : float) : Q :=
  match x with
  | S754_finite s m e =>
      let v := if 0 <=? e then inject_Z (Zpos m * 2 ^ e)
               else Qmake (Zpos m) (Z.to_pos (2 ^ (- e))) in
      if s then Qopp v else v
  | _ => 0%Q
  end.

End PyFloat.

(** ** Pillow images *)

Module PIL.

Inductive Resampling : Type :=
| NEAREST | BOX | BILINEAR | HAMMING | BICUBIC | LANCZOS.

(** A pixel as [convert('RGBA')] renders it: the colour the mode and the
    palette give it, and its opacity (255 where the mode has no alpha and no
    transparency key applies). *)
Record rgba : Type := Px { red : Z; green : Z; blue : Z; alpha : Z }.

Definition white : rgba := Px 255 255 255 255.

(** A value of the EXIF table: text, bytes, an integer, or a value of another
    type (a rational, a tuple), given by what it prints. *)
Inductive exif_value : Type :=
| ExifStr (s : string)
| ExifBytes (b : string)
| ExifInt (n : Z)
| ExifOther (printed : string).

Record Image : Type := mkImage {
  mode : string;
  width : Z;
  height : Z;
  format : option string;
  info_transparency : bool;          (* 'transparency' in image.info *)
  (** The entries of [getexif()], read from [image.info], in order: each tag
      under the name [TAGS] gives it ([None] for a tag without a name, whose
      key stays a number) and its value. *)
  exif : list (option string * exif_value);
  pixels : list rgba                 (* row by row *)
}.

Definition size (im : Image) : Z * Z := (width im, height im).

(** [Image.new(mode, size, color)] *)
Definition new (m : string) (sz : Z * Z) (color : rgba) : Image :=
  mkImage m (fst sz) (snd sz) None false []
          (repeat color (Z.to_nat (fst sz * snd sz))).

(** [image.split()[-1]] of an image with an alpha band. *)
Definition alpha_band (im : Image) : list Z := map alpha (pixels im).

(** [image.convert(m)]: the same picture in another mode; a mode without
    alpha forgets the opacity. *)
Definition has_alpha_band (m : string) : bool :=
  PyStr.mem m ["RGBA"; "LA"; "PA"; "RGBa"; "La"].

Definition opaque (p : rgba) : rgba := Px (red p) (green p) (blue p) 255.

Definition convert (im : Image) (m : string) : Image :=
  mkImage m (width im) (height im) None (info_transparency im) (exif im)
          (if has_alpha_band m then pixels im else map opaque (pixels im)).

(** Pillow's 8-bit blend of [i] over [o] under the matte value [m]
    (Paste.c: BLEND, DIV255). *)
Definition div255 (a : Z) : Z :=
  let t := a + 128 in Z.shiftr (Z.shiftr t 8 + t) 8.

Definition blend (m o i : Z) : Z := div255 (o * (255 - m) + i * m).

Definition blend_px (m : Z) (o i : rgba) : rgba :=
  Px (blend m (red o) (red i)) (blend m (green o) (green i))
     (blend m (blue o) (blue i)) 255.

(** The pixels of [dst.paste(src)] and of [dst.paste(src, mask=mask)], for an
    RGB [dst] and a [src] of the same size: without a mask the source colour
    replaces what was there. *)
Fixpoint paste_plain (dst src : list rgba) : list rgba :=
  match dst, src with
  | _ :: dst', s :: src' => opaque s :: paste_plain dst' src'
  | _, _ => dst
  end.

Fixpoint paste_masked (dst src : list rgba) (mask : list Z) : list rgba :=
  match dst, src, mask with
  | d :: dst', s :: src', m :: mask' =>
      blend_px m d s :: paste_masked dst' src' mask'
  | _, _, _ => dst
  end.

Definition paste (dst src : Image) (mask : option (list Z)) : Image :=
  mkImage (mode dst) (width dst) (height dst) (format dst)
          (info_transparency dst) (exif dst)
          (match mask with
           | Some m => paste_masked (pixels dst) (pixels src) m
           | None => paste_plain (pixels dst) (pixels src)
           end).

(** [image.copy()] *)
Definition copy (im : Image) : Image :=
  mkImage (mode im) (width im) (height im) None (info_transparency im)
          (exif im) (pixels im).

End PIL.

(** ** The operating system and the library calls behind the pipeline *)

Record stat_result : Type := mkStat {
  st_is_file : bool;
  st_size : Z;
  st_mtime : string     (* the text Python prints for the float, e.g. "1700000000.0" *)
}.

(** A call into the operating system: its result, or the text of the
    [OSError] it raises. *)
Inductive io (A : Type) : Type :=
| Done (a : A)
| Failed (message : string).
Arguments Done {A} a.
Arguments Failed {A} message.

Definition of_io {A} (r : io A) : result A :=
  match r with
  | Done a => Ok a
  | Failed m => Raise (OSError m)
  end.

Record backend : Type := mkBackend {
  (** [os.stat]: [None] when the path does not exist. *)
  os_stat : string -> option stat_result;
  (** [Path.mkdir(parents=True, exist_ok=True)] *)
  mkdir : string -> result unit;
  (** [Image.open(path)] followed by [load()]. *)
  Image_open : string -> result PIL.Image;
  (** The pixels Pillow's resampler computes for [resize(size, filter)]. *)
  resample : PIL.Image -> Z * Z -> PIL.Resampling -> list PIL.rgba;
  (** [copy.thumbnail(box, filter)] *)
  Image_thumbnail : PIL.Image -> Z * Z -> PIL.Resampling -> result PIL.Image;
  (** [image.save(path, format, **kwargs)] followed by
      [Path(path).stat().st_size]: the bytes written. *)
  Image_save : PIL.Image -> string -> string -> list (string * Z) -> result Z;
  (** [int(time.time())] and [time.strftime("%Y-%m-%dT%H:%M:%S")] *)
  time_time : Z;
  time_strftime : string;
  (** [uuid.uuid4().hex] *)
  uuid4_hex : string;
  (** [tempfile.NamedTemporaryFile(delete=False, suffix=..., prefix="upload_")]:
      the name of the file created. *)
  NamedTemporaryFile : string -> io string;
  (** [temp_file.write(content)], [flush()] and the [close()] that ends the
      [with] block. *)
  file_write : string -> list Z -> io unit;
  (** What [Image.open] and [load()] make of a file that holds these bytes. *)
  Image_decode : list Z -> result PIL.Image;
  (** The modification time of a file written now, as [os.path.getmtime]
      prints it. *)
  now_mtime : string
}.

(** The machine once a file holding [content] is at [path]: the file is
    found under that name and under pathlib's spelling of it. *)
Definition names_file (path p : string) : bool :=
  String.eqb p path || String.eqb p (PyPath.str path).

Definition with_file (be : backend) (path : string) (content : list Z) : backend :=
  mkBackend
    (fun p => if names_file path p
              then Some (mkStat true (Z.of_nat (List.length content)) (now_mtime be))
              else os_stat be p)
    (mkdir be)
    (fun p => if names_file path p then Image_decode be content else Image_open be p)
    (resample be) (Image_thumbnail be) (Image_save be)
    (time_time be) (time_strftime be) (uuid4_hex be)
    (NamedTemporaryFile be) (file_write be) (Image_decode be) (now_mtime be).

(** [image.resize((w, h), filter)]: Pillow refuses an empty target. *)
Definition Image_resize (be : backend) (im : PIL.Image) (sz : Z * Z)
    (flt : PIL.Resampling) : result PIL.Image :=
  if (fst sz <? 1) || (snd sz <? 1)
  then Raise (ValueError "height and width must be > 0")
  else Ok (PIL.mkImage (PIL.mode im) (fst sz) (snd sz) None
                       (PIL.info_transparency im) (PIL.exif im)
                       (resample be im sz flt)).

Definition os_path_exists (be : backend) (p : string) : bool :=
  match os_stat be p with Some _ => true | None => false end.

(** [os.path.getmtime(p)], printed. *)
Definition os_path_getmtime (be : backend) (p : string) : result string :=
  match os_stat be p with
  | Some s => Ok (st_mtime s)
  | None => Raise (OSError "No such file or directory")
  end.

Definition os_path_getsize (be : backend) (p : string) : result Z :=
  match os_stat be p with
  | Some s => Ok (st_size s)
  | None => Raise (OSError "No such file or directory")
  end.

(** ** config.py *)

Record ImageServiceConfig : Type := mkConfig {
  max_width : Z;
  max_height : Z;
  jpeg_quality : Z;
  webp_quality : Z;
  thumbnail_size : Z;
  supported_extensions : list string;
  workspace_base : string;
  image_store_folder : string;
  thumbnail_folder : string;
  enable_thumbnails : bool;
  enable_exif_extraction : bool;
  default_output_format : string
}.

Definition default_config : ImageServiceConfig :=
  mkConfig 2048 2048 85 80 200
    [".jpg"; ".jpeg"; ".png"; ".webp"; ".bmp"; ".tiff"; ".tif"]
    "workspace_X" "PlanoraAgent/image_store" "thumbnails"
    true true "webp".

Definition pdf_max_image_size (cfg : ImageServiceConfig) : Z * Z :=
  (max_width cfg, max_height cfg).

Definition get_workspace_path (cfg : ImageServiceConfig) (workspace : option string) : string :=
  match workspace with
  | Some w => if PyStr.truthy w then PyPath.str w else PyPath.str (workspace_base cfg)
  | None => PyPath.str (workspace_base cfg)
  end.

Definition get_image_store_path (cfg : ImageServiceConfig) (workspace : option string) : string :=
  PyPath.join (get_workspace_path cfg workspace) (image_store_folder cfg).

Definition get_thumbnail_path (cfg : ImageServiceConfig) (workspace : option string) : string :=
  PyPath.join (get_image_store_path cfg workspace) (thumbnail_folder cfg).

Definition ensure_directories (be : backend) (cfg : ImageServiceConfig)
    (workspace : option string) : result unit :=
  bind (mkdir be (get_image_store_path cfg workspace)) (fun _ =>
  mkdir be (get_thumbnail_path cfg workspace)).

Definition is_supported_format (cfg : ImageServiceConfig) (file_path : string) : bool :=
  PyStr.mem (PyStr.lower (PyPath.suffix file_path)) (supported_extensions cfg).

(** ** models.py *)

Inductive DocumentStatus : Type := PENDING | PROCESSING | COMPLETED | FAILED.

(** A pydantic model raises one [ValidationError] that lists, for each field
    whose validation failed, the field, the message and the type of the
    error. *)
Definition validated {A} (model : string) (errors : list (string * string * string))
    (v : A) : result A :=
  match errors with
  | [] => Ok v
  | _ => Raise (ValidationError model errors)
  end.

Definition field_error {A} (field : string) (r : result A)
  : list (string * string * string) :=
  match r with
  | Ok _ => []
  | Raise e => [(field, exn_str e, "value_error")]
  end.

Module ImageMetadata.

Record t : Type := mk {
  width : Z;
  height : Z;
  mode : string;
  format : string;
  file_size : Z;
  has_transparency : bool;
  exif : option (list (string * PIL.exif_value))
}.

(** [@validator('width', 'height', 'file_size')] *)
Definition validate_positive (v : Z) : result Z :=
  if v <=? 0 then Raise (ValueError "Giá trị phải lớn hơn 0") else Ok v.

(** [ImageMetadata(width=..., ...)]; [format] is a required [str], so [None]
    is not a value of it. *)
Definition new (width height : Z) (mode : string) (format : option string)
    (file_size : Z) (has_transparency : bool)
    (exif : option (list (string * PIL.exif_value))) : result t :=
  validated "ImageMetadata"
    (field_error "width" (validate_positive width)
     ++ field_error "height" (validate_positive height)
     ++ match format with
        | Some _ => []
        | None => [("format", "none is not an allowed value",
                    "type_error.none.not_allowed")]
        end
     ++ field_error "file_size" (validate_positive file_size))
    (mk width height mode
        (match format with Some f => f | None => "" end)
        file_size has_transparency exif).

(** [metadata.file_size = v]: assignment is not validated. *)
Definition set_file_size (m : t) (v : Z) : t :=
  mk (width m) (height m) (mode m) (format m) v (has_transparency m) (exif m).

End ImageMetadata.

Module Page.

Record t : Type := mk {
  page_number : Z;
  text_content : option string;
  image_path : string;
  thumbnail_path : option string;
  metadata : ImageMetadata.t;
  document_name : option string;
  document_id : option string
}.

Definition validate_page_number (v : Z) : result Z :=
  if v <=? 0 then Raise (ValueError "Page number phải lớn hơn 0") else Ok v.

Definition validate_image_path (v : string) : result string :=
  if negb (PyStr.truthy v) || negb (PyStr.has_non_space v)
  then Raise (ValueError "Image path không được rỗng")
  else Ok v.

Definition new (page_number : Z) (text_content : option string)
    (image_path : string) (thumbnail_path : option string)
    (metadata : ImageMetadata.t) : result t :=
  validated "Page"
    (field_error "page_number" (validate_page_number page_number)
     ++ field_error "image_path" (validate_image_path image_path))
    (mk page_number text_content image_path thumbnail_path metadata None None).

End Page.

Module Document.

Record t : Type := mk {
  id : string;
  title : string;
  file_path : string;
  num_pages : Z;
  pages : list Page.t;
  status : DocumentStatus;
  metadata : list (string * string);
  created_at : string
}.

(** The [default_factory] of [id]. *)
Definition default_id (be : backend) : string :=
  ("doc_" ++ PyStr.take 8 (uuid4_hex be))%string.

Definition validate_title (v : string) : result string :=
  if negb (PyStr.truthy v) || negb (PyStr.has_non_space v)
  then Raise (ValueError "Title không được rỗng")
  else Ok v.

Definition validate_num_pages (v : Z) : result Z :=
  if v <=? 0 then Raise (ValueError "Số pages phải lớn hơn 0") else Ok v.

(** [validate_pages_count(v, values)]: [values] holds [num_pages] only when
    that field passed its own validators. *)
Definition validate_pages_count (v : list Page.t) (values_num_pages : option Z)
  : result (list Page.t) :=
  match values_num_pages with
  | Some n =>
      if negb (Z.of_nat (List.length v) =? n)
      then Raise (ValueError "Số lượng pages không khớp với num_pages")
      else Ok v
  | None => Ok v
  end.

Definition new (be : backend) (id : option string) (title file_path : string)
    (num_pages : Z) (pages : list Page.t) (status : DocumentStatus)
    (metadata : list (string * string)) : result t :=
  let values_num_pages :=
    match validate_num_pages num_pages with Ok n => Some n | Raise _ => None end in
  validated "Document"
    (field_error "title" (validate_title title)
     ++ field_error "num_pages" (validate_num_pages num_pages)
     ++ field_error "pages" (validate_pages_count pages values_num_pages))
    (mk (match id with Some i => i | None => default_id be end)
        title file_path num_pages pages status metadata (time_strftime be)).

(** [get_page] *)
Definition get_page (d : t) (page_number : Z) : option Page.t :=
  find (fun p => Page.page_number p =? page_number) (pages d).

(** [update_page_references]: every page is labelled with the document's
    title and id. *)
Definition update_page_references (d : t) : t :=
  mk (id d) (title d) (file_path d) (num_pages d)
     (map (fun p => Page.mk (Page.page_number p) (Page.text_content p)
                            (Page.image_path p) (Page.thumbnail_path p)
                            (Page.metadata p) (Some (title d)) (Some (id d)))
          (pages d))
     (status d) (metadata d) (created_at d).

End Document.

(** ** metadata.py *)

Module MetadataExtractor.

(** The dictionary [extract_basic_metadata] returns, by key (the two derived
    entries [aspect_ratio] and [total_pixels] are read by no caller). *)
Record basic : Type := mkBasic {
  b_width : Z;
  b_height : Z;
  b_mode : string;
  b_format : string;
  b_file_size : Z;
  b_has_transparency : bool
}.

Definition _check_transparency (image : PIL.Image) : bool :=
  if PyStr.mem (PIL.mode image) ["RGBA"; "LA"] then true
  else if String.eqb (PIL.mode image) "P" then PIL.info_transparency image
  else if PIL.info_transparency image then true
  else false.

Definition extract_basic_metadata (be : backend) (image : PIL.Image)
    (file_path : string) : basic :=
  let body : result basic :=
    let '(width, height) := PIL.size image in
    let mode := PIL.mode image in
    let format_name :=
      match PIL.format image with
      | Some f => if PyStr.truthy f then f else "Unknown"
      | None => "Unknown"
      end in
    bind (if os_path_exists be file_path
          then os_path_getsize be file_path else Ok 0) (fun file_size =>
    let has_transparency := _check_transparency image in
    Ok (mkBasic width height mode format_name file_size has_transparency)) in
  match body with
  | Ok m => m
  | Raise _ => mkBasic 0 0 "Unknown" "Unknown" 0 false
  end.

Definition useful_fields : list string :=
  [ "Make"; "Model"; "DateTime"; "DateTimeOriginal";
    "ExifImageWidth"; "ExifImageHeight"; "Orientation";
    "XResolution"; "YResolution"; "ResolutionUnit";
    "Software"; "ColorSpace"; "WhiteBalance" ].

(** ['%02x' % n] *)
Definition hex2 (n : Z) : string :=
  String (PyStr.hex_char (n / 16 mod 16)) (String (PyStr.hex_char (n mod 16)) "").

(** [str(value)] of a [bytes] value: its literal, [b'...']. *)
Fixpoint bytes_repr_body (quote : ascii) (b : string) : string :=
  match b with
  | EmptyString => ""
  | String c r =>
      let n := PyStr.code c in
      let shown : string :=
        if Ascii.eqb c quote || Ascii.eqb c "\" then String "\" (String c "")
        else if n =? 9 then "\t"
        else if n =? 10 then "\n"
        else if n =? 13 then "\r"
        else if (n <? 32) || (127 <=? n) then String.append "\x" (hex2 n)
        else String c "" in
      String.append shown (bytes_repr_body quote r)
  end.

Fixpoint has_byte (c : ascii) (b : string) : bool :=
  match b with
  | EmptyString => false
  | String d r => Ascii.eqb d c || has_byte c r
  end.

Definition bytes_repr (b : string) : string :=
  let quote : ascii :=
    if has_byte "'"%char b && negb (has_byte "034"%char b)
    then "034"%char else "'"%char in
  ("b" ++ String quote (bytes_repr_body quote b ++ String quote ""))%string.

(** Lines 99-104: a [bytes] value becomes text, decoded as UTF-8 when it is
    UTF-8 and printed as a literal otherwise. *)
Definition exif_text (value : PIL.exif_value) : PIL.exif_value :=
  match value with
  | PIL.ExifBytes b =>
      if PyStr.encodable b then PIL.ExifStr b else PIL.ExifStr (bytes_repr b)
  | _ => value
  end.

(** Lines 106-108: a text of more than 200 characters is skipped. *)
Definition exif_skipped (value : PIL.exif_value) : bool :=
  match value with
  | PIL.ExifStr s => (200 <? PyStr.len s)%nat
  | _ => false
  end.

(** The value a dictionary built by successive assignments holds for a key. *)
Fixpoint dict_get {K V : Type} (eqb : K -> K -> bool) (k : K) (d : list (K * V))
  : option V :=
  match d with
  | [] => None
  | (k', v) :: r =>
      match dict_get eqb k r with
      | Some v' => Some v'
      | None => if eqb k k' then Some v else None
      end
  end.

Definition tag_eqb (a b : option string) : bool :=
  match a, b with
  | Some x, Some y => String.eqb x y
  | None, None => true
  | _, _ => false
  end.

Definition extract_exif_data (cfg : ImageServiceConfig) (image : PIL.Image)
  : option (list (string * PIL.exif_value)) :=
  if negb (enable_exif_extraction cfg) then None
  else
    match PIL.exif image with
    | [] => None
    | exif_dict =>
        let exif_data :=
          flat_map (fun kv =>
                      let '(tag_name, value) := kv in
                      let value := exif_text value in
                      if exif_skipped value then [] else [(tag_name, value)])
                   exif_dict in
        let useful_exif :=
          flat_map (fun field =>
                      match dict_get tag_eqb (Some field) exif_data with
                      | Some v => [(field, v)]
                      | None => []
                      end) useful_fields in
        match useful_exif with
        | [] => None
        | _ => Some useful_exif
        end
    end.

(** The body of the [try] of [create_image_metadata]. *)
Definition create_image_metadata_try (be : backend) (cfg : ImageServiceConfig)
    (image : PIL.Image) (file_path : string)
    (processed_size : option (Z * Z)) : result ImageMetadata.t :=
  let basic_meta := extract_basic_metadata be image file_path in
  let exif_data := extract_exif_data cfg image in
  let '(width, height) :=
    match processed_size with
    | Some sz => sz
    | None => (b_width basic_meta, b_height basic_meta)
    end in
  ImageMetadata.new width height (b_mode basic_meta)
    (Some (b_format basic_meta)) (b_file_size basic_meta)
    (b_has_transparency basic_meta) exif_data.

(** Its [except] branch: "Return minimal metadata". *)
Definition minimal_metadata (image : PIL.Image) : result ImageMetadata.t :=
  ImageMetadata.new (PIL.width image) (PIL.height image) (PIL.mode image)
    (PIL.format image) 0 false None.

Definition create_image_metadata (be : backend) (cfg : ImageServiceConfig)
    (image : PIL.Image) (file_path : string)
    (processed_size : option (Z * Z)) : result ImageMetadata.t :=
  try_except
    (create_image_metadata_try be cfg image file_path processed_size)
    (fun _ => minimal_metadata image).

End MetadataExtractor.

(** ** Name patterns ([fnmatch], as [Path.glob] applies it to the names of a
    directory), for patterns without a bracket *)

Module Glob.

Fixpoint fnmatch (pattern : string) (name : string) : bool :=
  match pattern with
  | EmptyString => match name with EmptyString => true | _ => false end
  | String c rest =>
      if Ascii.eqb c "*" then
        (fix star (t : string) : bool :=
           fnmatch rest t
           || match t with
              | EmptyString => false
              | String _ t' => star t'
              end) name
      else
        match name with
        | EmptyString => false
        | String d name' => (Ascii.eqb c "?" || Ascii.eqb c d) && fnmatch rest name'
        end
  end.

(** [len(list(directory.glob(pattern)))], from the names in the directory. *)
Definition count (pattern : string) (names : list string) : Z :=
  Z.of_nat (List.length (filter (fnmatch pattern) names)).

End Glob.

(** ** storage.py *)

Module ImageStorage.

(** [generate_filename(original_path, format)] *)
Definition generate_filename (be : backend) (original_path : string)
    (format : string) : result string :=
  bind (if os_path_exists be original_path
        then os_path_getmtime be original_path
        else Ok "") (fun mtime =>
  let hash_input := (original_path ++ "_" ++ mtime)%string in
  bind (PyStr.encode hash_input) (fun encoded =>
  let file_hash := PyStr.take 12 (MD5.hexdigest encoded) in
  let extension :=
    if String.eqb (PyStr.lower format) "jpeg" then "jpg" else PyStr.lower format in
  Ok ("img_" ++ file_hash ++ "." ++ extension)%string)).

Definition generate_thumbnail_filename (image_filename : string) : string :=
  let stem := PyPath.stem image_filename in
  ("thumb_" ++ stem ++ ".jpg")%string.

(** [save_image]: the saved path and the size of the file written. *)
Definition save_image (be : backend) (cfg : ImageServiceConfig)
    (image : PIL.Image) (original_path : string) (workspace : option string)
    (format : string) : result (string * Z) :=
  bind (ensure_directories be cfg workspace) (fun _ =>
  bind (generate_filename be original_path format) (fun filename =>
  let image_store_path := get_image_store_path cfg workspace in
  let save_path := PyPath.join image_store_path filename in
  let save_kwargs := [("optimize", 1)] in
  let '(save_kwargs, save_format) :=
    if PyStr.mem (PyStr.lower format) ["jpeg"; "jpg"]
    then (save_kwargs ++ [("quality", jpeg_quality cfg)], "JPEG")
    else if String.eqb (PyStr.lower format) "webp"
    then (save_kwargs ++ [("quality", webp_quality cfg)], "WEBP")
    else (save_kwargs, PyStr.upper format) in
  try_except
    (bind (Image_save be image save_path save_format save_kwargs) (fun file_size =>
     Ok (save_path, file_size)))
    (fun e => Raise e))).

(** The flattening of a thumbnail that still has transparency. *)
Definition thumbnail_to_rgb (thumbnail : PIL.Image) : PIL.Image :=
  if PyStr.mem (PIL.mode thumbnail) ["RGBA"; "LA"; "P"] then
    let rgb_thumbnail := PIL.new "RGB" (PIL.size thumbnail) PIL.white in
    if String.eqb (PIL.mode thumbnail) "RGBA"
    then PIL.paste rgb_thumbnail thumbnail (Some (PIL.alpha_band thumbnail))
    else PIL.paste rgb_thumbnail thumbnail None
  else thumbnail.

(** The body of the [try] of [create_thumbnail]. *)
Definition create_thumbnail_try (be : backend) (cfg : ImageServiceConfig)
    (image : PIL.Image) (original_filename : string)
    (workspace : option string) : result (option string) :=
  let thumbnail_path := get_thumbnail_path cfg workspace in
  bind (mkdir be thumbnail_path) (fun _ =>
  bind (Image_thumbnail be (PIL.copy image)
          (thumbnail_size cfg, thumbnail_size cfg) PIL.LANCZOS) (fun thumbnail =>
  let thumbnail := thumbnail_to_rgb thumbnail in
  let thumb_filename := generate_thumbnail_filename original_filename in
  let thumb_save_path := PyPath.join thumbnail_path thumb_filename in
  bind (Image_save be thumbnail thumb_save_path "JPEG"
          [("quality", 85); ("optimize", 1)]) (fun _ =>
  Ok (Some thumb_save_path)))).

(** [create_thumbnail]: the thumbnail's path, or [None]. *)
Definition create_thumbnail (be : backend) (cfg : ImageServiceConfig)
    (image : PIL.Image) (original_filename : string)
    (workspace : option string) : result (option string) :=
  if negb (enable_thumbnails cfg) then Ok None
  else
    try_except
      (create_thumbnail_try be cfg image original_filename workspace)
      (fun _ => Ok None).

(** [copy_original_file]: the path of the copy, or [None]; [copy2] is
    [shutil.copy2]. *)
Definition copy_original_file (be : backend)
    (copy2 : string -> string -> result unit) (cfg : ImageServiceConfig)
    (source_path : string) (workspace : option string) : result (option string) :=
  try_except
    (bind (ensure_directories be cfg workspace) (fun _ =>
     let source := PyPath.str source_path in
     if negb (os_path_exists be source) then Ok None
     else
       let image_store_path := get_image_store_path cfg workspace in
       let dest_filename := ("original_" ++ PyPath.name source_path)%string in
       let dest_path := PyPath.join image_store_path dest_filename in
       bind (copy2 source_path dest_path) (fun _ =>
       Ok (Some dest_path))))
    (fun _ => Ok None).

(** The dictionary [get_storage_info] returns, by key; the two counts are
    set only when their directory exists. [listdir] gives the names in a
    directory. *)
Record storage_info : Type := mkInfo {
  info_image_store_path : string;
  info_thumbnail_path : string;
  image_store_exists : bool;
  thumbnail_path_exists : bool;
  image_count : option Z;
  thumbnail_count : option Z
}.

Definition get_storage_info (be : backend) (listdir : string -> list string)
    (cfg : ImageServiceConfig) (workspace : option string) : storage_info :=
  let image_store_path := get_image_store_path cfg workspace in
  let thumbnail_path := get_thumbnail_path cfg workspace in
  mkInfo image_store_path thumbnail_path
    (os_path_exists be image_store_path)
    (os_path_exists be thumbnail_path)
    (if os_path_exists be image_store_path
     then Some (Glob.count "img_*.{webp,jpg,jpeg,png}" (listdir image_store_path))
     else None)
    (if os_path_exists be thumbnail_path
     then Some (Glob.count "thumb_*.jpg" (listdir thumbnail_path))
     else None).

End ImageStorage.

(** ** core.py *)

Module ImageProcessor.

Definition validate_file (be : backend) (cfg : ImageServiceConfig)
    (file_path : string) : result unit :=
  if negb (PyStr.truthy file_path)
  then Raise (ImageProcessingError "File path is required" None)
  else
    let path := PyPath.str file_path in
    match os_stat be path with
    | None =>
        Raise (ImageProcessingError ("File not found: " ++ file_path) (Some file_path))
    | Some st =>
        if negb (st_is_file st)
        then Raise (ImageProcessingError ("Path is not a file: " ++ file_path)
                                         (Some file_path))
        else if st_size st =? 0
        then Raise (ImageProcessingError ("File is empty: " ++ file_path)
                                         (Some file_path))
        else if negb (is_supported_format cfg file_path)
        then Raise (ImageProcessingError
                      ("Unsupported format: " ++ PyPath.suffix file_path
                       ++ ". Supported: "
                       ++ PyStr.repr_list (supported_extensions cfg))
                      (Some file_path))
        else Ok tt
    end.

Definition load_image (be : backend) (file_path : string) : result PIL.Image :=
  match Image_open be file_path with
  | Ok img => Ok (PIL.copy img)
  | Raise (UnidentifiedImageError m) =>
      Raise (ImageProcessingError ("Unrecognized image format: " ++ m) (Some file_path))
  | Raise e =>
      Raise (ImageProcessingError ("Failed to load image: " ++ exn_str e) (Some file_path))
  end.

(** Lines 114-128: the image brought to mode RGB. *)
Definition to_rgb (image : PIL.Image) : PIL.Image :=
  if PyStr.mem (PIL.mode image) ["RGBA"; "LA"; "P"] then
    let rgb_img := PIL.new "RGB" (PIL.size image) PIL.white in
    if String.eqb (PIL.mode image) "RGBA"
    then PIL.paste rgb_img image (Some (PIL.alpha_band image))
    else if String.eqb (PIL.mode image) "P" && PIL.info_transparency image
    then
      let image := PIL.convert image "RGBA" in
      PIL.paste rgb_img image (Some (PIL.alpha_band image))
    else PIL.paste rgb_img image None
  else if negb (String.eqb (PIL.mode image) "RGB")
  then PIL.convert image "RGB"
  else image.

(** Lines 134-136: the size of the scaled image. *)
Definition scaled_size (max_width max_height width height : Z) : result (Z * Z) :=
  bind (PyFloat.true_div max_width width) (fun rw =>
  bind (PyFloat.true_div max_height height) (fun rh =>
  let ratio := PyFloat.min rw rh in
  bind (bind (PyFloat.int_mul width ratio) PyFloat.to_int) (fun new_width =>
  bind (bind (PyFloat.int_mul height ratio) PyFloat.to_int) (fun new_height =>
  Ok (new_width, new_height))))).

Definition optimize_image (be : backend) (cfg : ImageServiceConfig)
    (image : PIL.Image) : result PIL.Image :=
  try_except
    (let image := to_rgb image in
     let '(max_width, max_height) := pdf_max_image_size cfg in
     if (PIL.width image >? max_width) || (PIL.height image >? max_height)
     then
       bind (scaled_size max_width max_height (PIL.width image) (PIL.height image))
            (fun new_size => Image_resize be image new_size PIL.LANCZOS)
     else Ok image)
    (fun e => Raise (ImageProcessingError
                       ("Failed to optimize image: " ++ exn_str e) None)).

End ImageProcessor.

(** ** metadata.py: [get_processing_recommendations] *)

Module MetadataAdvice.

(** The dictionary it returns, by key; a key that is not set is [None]. *)
Record recommendations : Type := mkAdvice {
  needs_resize : bool;
  needs_mode_conversion : bool;
  recommended_format : option string;
  estimated_output_size : option Z;
  new_width : option Z;
  new_height : option Z;
  target_mode : option string
}.

Definition get_processing_recommendations (cfg : ImageServiceConfig)
    (image : PIL.Image) : recommendations :=
  let body : result recommendations :=
    let '(width, height) := PIL.size image in
    (* Check if resize needed *)
    bind (if (width >? max_width cfg) || (height >? max_height cfg)
          then bind (ImageProcessor.scaled_size (max_width cfg) (max_height cfg)
                       width height) (fun sz =>
               Ok (true, Some (fst sz), Some (snd sz)))
          else Ok (false, None, None)) (fun resize =>
    let '(needs_resize, new_width, new_height) := resize in
    (* Check mode conversion *)
    let '(needs_mode_conversion, target_mode) :=
      if PyStr.mem (PIL.mode image) ["RGBA"; "LA"; "P"]
      then (true, Some "RGB") else (false, None) in
    (* Recommend format based on content *)
    let recommended_format :=
      if MetadataExtractor._check_transparency image then "webp"
      else if String.eqb (PIL.mode image) "L" then "jpeg"
      else default_output_format cfg in
    Ok (mkAdvice needs_resize needs_mode_conversion (Some recommended_format)
          (Some 0) new_width new_height target_mode)) in
  match body with
  | Ok r => r
  | Raise _ => mkAdvice false false None None None None None
  end.

End MetadataAdvice.

(** ** The pipeline, with the steps it runs

    A run of the orchestrator yields the list of the steps it entered, in
    order, and what it returned or raised. *)

Inductive step : Type :=
| Validate (file_path : string)
| EnsureDirectories
| Decode (file_path : string)
| Normalize
| PersistMain (format : string)
| PersistThumbnail
| ExtractMetadata
| AssemblePage
| AssembleDocument
| CreateUpload (suffix : string)
| ReadUpload
| WriteUpload (temp_path : string)
| RemoveUpload (temp_path : string).

Definition run (A : Type) : Type := list step * result A.

Definition ret {A} (a : A) : run A := ([], Ok a).

Definition raise {A} (e : exn) : run A := ([], Raise e).

(** The call of one step. *)
Definition call {A} (s : step) (r : result A) : run A := ([s], r).

Definition bindR {A B} (m : run A) (k : A -> run B) : run B :=
  match m with
  | (t, Ok a) => let '(t', r) := k a in (t ++ t', r)
  | (t, Raise e) => (t, Raise e)
  end.

Definition catchR {A} (m : run A) (handler : exn -> run A) : run A :=
  match m with
  | (t, Ok a) => (t, Ok a)
  | (t, Raise e) => let '(t', r) := handler e in (t ++ t', r)
  end.

(** [try: ... finally: cleanup] *)
Definition finallyR {A} (m : run A) (cleanup : list step) : run A :=
  (fst m ++ cleanup, snd m).

Definition steps {A} (m : run A) : list step := fst m.
Definition outcome {A} (m : run A) : result A := snd m.

Notation "x <-- e ;; k" := (bindR e (fun x => k))
  (at level 61, e at next level, right associativity) : py_scope.

(** [a or b] on an optional string. *)
Definition str_or (a : option string) (b : string) : string :=
  match a with
  | Some s => if PyStr.truthy s then s else b
  | None => b
  end.

Module Pipeline.
Import ImageProcessor.
Local Open Scope py_scope.

Definition process_image_sync (be : backend) (cfg : ImageServiceConfig)
    (file_path : string) (workspace : option string)
    (output_format : option string)
  : run (Page.t * string * option string) :=
  let output_format := str_or output_format (default_output_format cfg) in
  catchR
    (original_image <-- call (Decode file_path) (load_image be file_path) ;;
     optimized_image <-- call Normalize (optimize_image be cfg original_image) ;;
     let final_size := PIL.size optimized_image in
     saved <-- call (PersistMain output_format)
                 (ImageStorage.save_image be cfg optimized_image file_path
                    workspace output_format) ;;
     let '(saved_path, file_size) := saved in
     thumbnail_path <--
       (if enable_thumbnails cfg
        then call PersistThumbnail
               (ImageStorage.create_thumbnail be cfg optimized_image
                  (PyPath.name saved_path) workspace)
        else ret None) ;;
     metadata <-- call ExtractMetadata
                    (MetadataExtractor.create_image_metadata be cfg
                       original_image file_path (Some final_size)) ;;
     let metadata := ImageMetadata.set_file_size metadata file_size in
     page <-- call AssemblePage
                (Page.new 1 None saved_path thumbnail_path metadata) ;;
     ret (page, saved_path, thumbnail_path))
    (fun e => raise (ImageProcessingError
                       ("Image processing failed: " ++ exn_str e)
                       (Some file_path))).

(** The same work handed to the worker pool and awaited. *)
Definition process_image_async := process_image_sync.

Definition create_document (be : backend) (page : Page.t)
    (original_file_path : string) (document_id : option string)
  : result Document.t :=
  try_except
    (let title := PyPath.name original_file_path in
     let metadata :=
       [ ("original_file", original_file_path);
         ("processor", "ImageProcessor");
         ("created_at", time_strftime be);
         ("file_size", PyStr.of_int (ImageMetadata.file_size (Page.metadata page)));
         ("image_format", ImageMetadata.format (Page.metadata page));
         ("dimensions",
          (PyStr.of_int (ImageMetadata.width (Page.metadata page)) ++ "x"
           ++ PyStr.of_int (ImageMetadata.height (Page.metadata page)))%string) ] in
     bind (Document.new be
             (Some (str_or document_id
                      ("doc_img_" ++ PyStr.of_int (time_time be))%string))
             title (Page.image_path page) 1 [page] COMPLETED metadata)
          (fun document => Ok (Document.update_page_references document)))
    (fun e => Raise (ImageProcessingError
                       ("Document creation failed: " ++ exn_str e) None)).

(** [except ImageProcessingError: raise / except Exception: wrap] *)
Definition reraise_or_wrap {A} (file_path : string) (e : exn) : run A :=
  match e with
  | ImageProcessingError _ _ => raise e
  | _ => raise (ImageProcessingError ("Processing failed: " ++ exn_str e)
                                     (Some file_path))
  end.

Definition process_with
    (process_image : backend -> ImageServiceConfig -> string -> option string ->
                     option string -> run (Page.t * string * option string))
    (be : backend) (cfg : ImageServiceConfig) (file_path : string)
    (workspace output_format document_id : option string) : run Document.t :=
  catchR
    (_ <-- call (Validate file_path) (validate_file be cfg file_path) ;;
     _ <-- call EnsureDirectories (ensure_directories be cfg workspace) ;;
     r <-- process_image be cfg file_path workspace output_format ;;
     let '(page, saved_path, thumbnail_path) := r in
     document <-- call AssembleDocument
                    (create_document be page file_path document_id) ;;
     ret document)
    (reraise_or_wrap file_path).

(** [process] (awaits the worker pool) and [process_sync]. *)
Definition process := process_with process_image_async.
Definition process_sync := process_with process_image_sync.

End Pipeline.

(** ** api.py: [POST /process_image/] *)

Module Api.
Local Open Scope py_scope.

Record UploadFile : Type := mkUpload {
  filename : option string;
  size : option Z;
  (** [await file.read()] *)
  read : io (list Z)
}.

Record ProcessImageResponse : Type := mkResponse {
  success : bool;
  document : option Document.t;
  error : option string
}.

(** [config.max_file_size]: [ImageServiceConfig] declares no such field. *)
Definition config_max_file_size : result Z :=
  Raise (AttributeError "'ImageServiceConfig' object has no attribute 'max_file_size'").

Definition supported_output : list string := ["webp"; "jpeg"].

(** The handlers of the endpoint's [try]. *)
Definition to_http {A} (e : exn) : run A :=
  match e with
  | ImageProcessingError _ _ => raise (HTTPException 422 (exn_str e))
  | HTTPException _ _ => raise e
  | _ => raise (HTTPException 500 ("Internal server error: " ++ exn_str e))
  end.

(** Lines 117-142: the checks made before anything is written; they give
    the name of the file. *)
Definition checks (file : UploadFile) (output_format : option string) : run string :=
  (* Validate file *)
  name <-- (match filename file with
            | Some n => if PyStr.truthy n then ret n
                        else raise (HTTPException 400 "No file provided")
            | None => raise (HTTPException 400 "No file provided")
            end) ;;
  (* Check file size *)
  _ <-- (match size file with
         | Some n =>
             if n =? 0 then ret tt
             else
               limit <-- ([], config_max_file_size) ;;
               if n >? limit
               then raise (HTTPException 413 "File too large")
               else ret tt
         | None => ret tt
         end) ;;
  (* Validate output format *)
  _ <-- (match output_format with
         | Some f =>
             if PyStr.mem f supported_output then ret tt
             else raise (HTTPException 400
                           "Invalid output format. Supported: webp, jpeg")
         | None => raise (HTTPException 400
                            "Invalid output format. Supported: webp, jpeg")
         end) ;;
  ret name.

Definition file_extension (name : string) : string :=
  PyStr.lower (PyPath.suffix name).

(** The variable [temp_file_path] as the [finally] clause finds it: set once
    the temporary file is created. *)
Definition temp_file_path (be : backend) (file : UploadFile)
    (output_format : option string) : option string :=
  match outcome (checks file output_format) with
  | Ok name =>
      match NamedTemporaryFile be (file_extension name) with
      | Done p => Some p
      | Failed _ => None
      end
  | Raise _ => None
  end.

Definition process_image (be : backend) (cfg : ImageServiceConfig)
    (file : UploadFile) (workspace output_format document_id : option string)
  : run ProcessImageResponse :=
  finallyR
    (catchR
       (name <-- checks file output_format ;;
        (* Create temporary file *)
        temp <-- call (CreateUpload (file_extension name))
                   (of_io (NamedTemporaryFile be (file_extension name))) ;;
        (* Save uploaded file *)
        content <-- call ReadUpload (of_io (read file)) ;;
        _ <-- call (WriteUpload temp) (of_io (file_write be temp content)) ;;
        (* Process image *)
        document <-- Pipeline.process (with_file be temp content) cfg temp
                       workspace output_format document_id ;;
        ret (mkResponse true (Some document) None))
       to_http)
    (* Cleanup temporary file; a failure of os.unlink is logged and dropped.
       The file is there from its creation on, whatever was written to it. *)
    (match temp_file_path be file output_format with
     | Some p =>
         if PyStr.truthy p && os_path_exists (with_file be p []) p
         then [RemoveUpload p] else []
     | None => []
     end).

End Api.

(** ** Inputs the properties are tried on *)

Module Fixtures.

Definition upload : string := "/data/in/photo.png".

(** A 2 x 2 picture with one transparent pixel. *)
Definition photo (m : string) : PIL.Image :=
  PIL.mkImage m 2 2 (Some "PNG") false []
    [ PIL.Px 10 20 30 255; PIL.Px 200 100 50 128;
      PIL.Px 0 0 0 0; PIL.Px 255 255 255 255 ].

(** A 7 x 5 opaque picture. *)
Definition wide : PIL.Image :=
  PIL.mkImage "RGB" 7 5 (Some "JPEG") false [] (repeat (PIL.Px 9 9 9 255) 35).

(** One pixel, fully transparent, black underneath. *)
Definition clear_pixel (m : string) : PIL.Image :=
  PIL.mkImage m 1 1 (Some "PNG") false [] [PIL.Px 0 0 0 0].

Definition disk (p : string) : option stat_result :=
  if String.eqb p upload then Some (mkStat true 4096 "1700000000.0") else None.

(** A machine on which every call succeeds; the resampler is a stand-in that
    returns a blank raster of the requested size. *)
Definition be : backend :=
  mkBackend disk
    (fun _ => Ok tt)
    (fun p => if String.eqb p upload then Ok (photo "RGBA")
              else Raise (OSError "No such file or directory"))
    (fun _ sz _ => repeat PIL.white (Z.to_nat (fst sz * snd sz)))
    (fun im _ _ => Ok im)
    (fun _ _ _ _ => Ok 1234)
    1700000000 "2023-11-14T22:13:20"
    "9f1c2ab47d3e4c0fa5b6c7d8e9f00112"
    (fun sfx => Done ("/tmp/upload_k3j2" ++ sfx)%string)
    (fun _ _ => Done tt)
    (fun _ => Ok (photo "RGBA"))
    "1700000000.25".

(** The same machine, where writing a thumbnail fails. *)
Definition be_no_thumbnail : backend :=
  mkBackend disk (mkdir be) (Image_open be) (resample be) (Image_thumbnail be)
    (fun im path fmt kw =>
       if PyStr.starts_with "thumb_" (PyPath.name path)
       then Raise (OSError "No space left on device")
       else Image_save be im path fmt kw)
    (time_time be) (time_strftime be) (uuid4_hex be)
    (NamedTemporaryFile be) (file_write be) (Image_decode be) (now_mtime be).

(** A machine whose disk holds the given files. *)
Definition with_files (files : list (string * stat_result)) : backend :=
  mkBackend
    (fun p => option_map snd (find (fun f => String.eqb (fst f) p) files))
    (mkdir be) (Image_open be) (resample be) (Image_thumbnail be)
    (Image_save be) (time_time be) (time_strftime be) (uuid4_hex be)
    (NamedTemporaryFile be) (file_write be) (Image_decode be) (now_mtime be).

Definition scan_a : string := "/data/uploads/scan_02359738.png".
Definition scan_b : string := "/data/uploads/scan_02869892.png".
Definition scan : string := "/data/uploads/scan.png".

(** Two files written in the same second. *)
Definition two_scans : backend :=
  with_files [ (scan_a, mkStat true 4096 "1700000000.0");
               (scan_b, mkStat true 4096 "1700000000.0") ].

(** One file, before and after it is rewritten. *)
Definition scan_before : backend :=
  with_files [ (scan, mkStat true 4096 "1712122834.0") ].
Definition scan_after : backend :=
  with_files [ (scan, mkStat true 5120 "1730410848.0") ].

(** A file whose name is Latin-1 ('caf' and the byte 233), not UTF-8. *)
Definition latin1_name : string := "/data/in/caf" ++ String "233" ".png".
Definition latin1_disk : backend :=
  with_files [ (latin1_name, mkStat true 4096 "1700000000.0") ].

Fixpoint times (n : nat) (s : string) : string :=
  match n with
  | O => ""
  | S k => s ++ times k s
  end.

(** 150 times the letter e with an acute accent: 150 characters, 300
    bytes. *)
Definition long_make : string := times 150 (String "195" (String "169" "")).

(** A picture with an EXIF table, and the mapping extracted from it. *)
Definition tagged : PIL.Image :=
  PIL.mkImage "RGB" 1 1 (Some "JPEG") false
    [ (Some "Orientation", PIL.ExifInt 1);
      (None, PIL.ExifBytes "x");
      (Some "MakerNote", PIL.ExifBytes (String "255" ""));
      (Some "Make", PIL.ExifStr "Canon");
      (Some "Make", PIL.ExifStr long_make);
      (Some "Software", PIL.ExifBytes (String "255" "A"));
      (Some "Model", PIL.ExifStr (times 201 "a"));
      (Some "DateTime", PIL.ExifBytes "2023:11:14 22:13:20");
      (Some "XResolution", PIL.ExifOther "72.0") ]
    [PIL.white].

Definition tagged_exif : list (string * PIL.exif_value) :=
  [ ("Make", PIL.ExifStr long_make);
    ("DateTime", PIL.ExifStr "2023:11:14 22:13:20");
    ("Orientation", PIL.ExifInt 1);
    ("XResolution", PIL.ExifOther "72.0");
    ("Software", PIL.ExifStr "b'\xffA'") ].

(** A page as the pipeline assembles it. *)
Definition page : Page.t :=
  Page.mk 1 None "workspace_X/PlanoraAgent/image_store/img_a58703425487.webp" None
    (ImageMetadata.mk 2 2 "RGBA" "Unknown" 1234 true None) None None.

Definition small_config : ImageServiceConfig :=
  mkConfig 5 5 85 80 200
    [".jpg"; ".jpeg"; ".png"; ".webp"; ".bmp"; ".tiff"; ".tif"]
    "workspace_X" "PlanoraAgent/image_store" "thumbnails"
    true true "webp".

End Fixtures.

(** ** Vocabulary of the properties *)

(** The integer part of a rational, toward zero. *)
Definition Qtrunc (q : Q) : Z := Z.quot (Qnum q) (Zpos (Qden q)).

(** The scaled size as the specification words it: the exact ratio, each
    dimension rounded to the nearest integer. *)
Definition nearest_int (q : Q) : Z := Qfloor (q + (1 # 2)).

Definition spec_scaled_size (max_width max_height width height : Z) : Z * Z :=
  let rw := (inject_Z max_width / inject_Z width)%Q in
  let rh := (inject_Z max_height / inject_Z height)%Q in
  let ratio := if Qle_bool rw rh then rw else rh in
  (nearest_int (inject_Z width * ratio), nearest_int (inject_Z height * ratio)).

(** The first character of a text that is not empty, and the text after
    it. *)
Definition head_cp (b0 : ascii) (r0 : string) : Z * string :=
  let n0 := PyStr.code b0 in
  if n0 <? 128 then (n0, r0)
  else
    match r0 with
    | EmptyString => (56320 + n0, r0)
    | String b1 r1 =>
        let n1 := PyStr.code b1 in
        if PyStr.seq2 n0 n1 then ((n0 - 192) * 64 + (n1 - 128), r1)
        else
          match r1 with
          | EmptyString => (56320 + n0, r0)
          | String b2 r2 =>
              let n2 := PyStr.code b2 in
              if PyStr.seq3 n0 n1 n2
              then ((n0 - 224) * 4096 + (n1 - 128) * 64 + (n2 - 128), r2)
              else
                match r2 with
                | EmptyString => (56320 + n0, r0)
                | String b3 r3 =>
                    let n3 := PyStr.code b3 in
                    if PyStr.seq4 n0 n1 n2 n3
                    then ((n0 - 240) * 262144 + (n1 - 128) * 4096
                          + (n2 - 128) * 64 + (n3 - 128), r3)
                    else (56320 + n0, r0)
                end
          end
    end.

(** The first [n] bytes of a text. *)
Fixpoint prefix (n : nat) (s : string) : string :=
  match n, s with
  | S k, String c r => String c (prefix k r)
  | _, _ => EmptyString
  end.

(** The parts of a generated name. *)
Definition mtime_text (be : backend) (p : string) : string :=
  match os_stat be p with Some s => st_mtime s | None => "" end.

Definition file_hash (p mtime : string) : string :=
  PyStr.take 12 (MD5.hexdigest (PyStr.utf8 (p ++ "_" ++ mtime))).

Fixpoint has_underscore (s : string) : bool :=
  match s with
  | EmptyString => false
  | String c r => Ascii.eqb c "_" || has_underscore r
  end.

(** The text before and after the last underscore. *)
Fixpoint rsplit_underscore (s : string) : option (string * string) :=
  match s with
  | EmptyString => None
  | String c r =>
      match rsplit_underscore r with
      | Some (a, b) => Some (String c a, b)
      | None => if Ascii.eqb c "_" then Some (EmptyString, r) else None
      end
  end.

(** An id as the specification words it: ["doc_"] and a token of
    hexadecimal characters. *)
Definition is_doc_hex_token (s : string) : bool :=
  PyStr.starts_with "doc_" s
  && PyStr.all_hex (substring 4 (String.length s - 4) s)
  && (4 <? String.length s)%nat.

(** Whether a character occurs in a text. *)
Fixpoint has_char (c : ascii) (s : string) : bool :=
  match s with
  | EmptyString => false
  | String d r => Ascii.eqb d c || has_char c r
  end.

(** The steps of a complete run of the pipeline, in order. *)
Definition pipeline_order (cfg : ImageServiceConfig) (file_path : string)
    (output_format : option string) : list step :=
  [ Validate file_path; EnsureDirectories; Decode file_path; Normalize;
    PersistMain (str_or output_format (default_output_format cfg)) ]
  ++ (if enable_thumbnails cfg then [PersistThumbnail] else [])
  ++ [ ExtractMetadata; AssemblePage; AssembleDocument ].

(** A page with the labels of its document. *)
Definition relabel (title id : string) (p : Page.t) : Page.t :=
  Page.mk (Page.page_number p) (Page.text_content p) (Page.image_path p)
    (Page.thumbnail_path p) (Page.metadata p) (Some title) (Some id).

(** The last character of a text. *)
Fixpoint last_char (s : string) : option ascii :=
  match s with
  | EmptyString => None
  | String c r => match r with EmptyString => Some c | _ => last_char r end
  end.

(** * Properties *)

(** ** The model agrees with Python on known values *)

Example md5_empty :
  MD5.hexdigest (PyStr.utf8 "") = "d41d8cd98f00b204e9800998ecf8427e".
Proof. vm_compute. reflexivity. Qed.

Example md5_abc :
  MD5.hexdigest (PyStr.utf8 "abc") = "900150983cd24fb0d6963f7d28e17f72".
Proof. vm_compute. reflexivity. Qed.

Example md5_two_blocks :
  MD5.hexdigest (PyStr.utf8
    "12345678901234567890123456789012345678901234567890123456789012345678901234567890")
  = "57edf4a22be3c955ac49da2e2107b67a".
Proof. vm_compute. reflexivity. Qed.

Example name_of_upload : PyPath.name "/tmp/upload_ab12.png" = "upload_ab12.png".
Proof. reflexivity. Qed.

Example suffix_of_upload : PyPath.suffix "/tmp/upload_ab12.tar.PNG" = ".PNG".
Proof. reflexivity. Qed.

Example stem_of_artifact : PyPath.stem "img_0123456789ab.webp" = "img_0123456789ab".
Proof. reflexivity. Qed.

Example suffix_of_dotfile : PyPath.suffix "/home/u/.bashrc" = "".
Proof. reflexivity. Qed.

Example float_ratio_4000 :
  PyFloat.true_div 2048 4000 = Ok (S754_finite false 4611686018427388 (-53)).
Proof. vm_compute. reflexivity. Qed.

Example float_49 :
  bind (PyFloat.true_div 1 49) (fun r =>
  bind (PyFloat.int_mul 49 r) PyFloat.to_int) = Ok 0.
Proof. vm_compute. reflexivity. Qed.

Example float_big_quotient :
  PyFloat.true_div (10 ^ 30) 7 = Ok (S754_finite false 8120488408686859 44).
Proof. vm_compute. reflexivity. Qed.

Example float_of_big_int :
  PyFloat.of_int (2 ^ 53 + 3) = Ok (S754_finite false 4503599627370498 1).
Proof. vm_compute. reflexivity. Qed.

Example strip_no_break_space :
  PyStr.has_non_space (String (ascii_of_N 194) (String (ascii_of_N 160) " ")) = false.
Proof. reflexivity. Qed.

Example strip_zero_width_space :
  PyStr.has_non_space
    (String (ascii_of_N 226) (String (ascii_of_N 128) (String (ascii_of_N 139) "")))
  = true.
Proof. reflexivity. Qed.

Example path_spelling :
  PyPath.str "ws1//.." = "ws1/.." /\ PyPath.str "" = "." /\
  PyPath.str "//a" = "//a" /\ PyPath.str "///a/./b/" = "/a/b" /\
  PyPath.join "a/./b/" "c//d" = "a/b/c/d" /\ PyPath.join "a" "/etc/x" = "/etc/x" /\
  PyPath.name "a/." = "a" /\ PyPath.name "." = "" /\ PyPath.name "/" = "" /\
  PyPath.name ".." = "..".
Proof. repeat split; vm_compute; reflexivity. Qed.

Example lower_and_upper :
  PyStr.lower "JPEG" = "jpeg" /\ PyStr.lower ".PnG" = ".png" /\
  PyStr.lower "ÉCOLE.PNG" = "école.png" /\ PyStr.lower "ΌΣΟΣ" = "όσος" /\
  PyStr.lower "İ" = "i̇" /\ PyStr.lower "K" = "k" /\
  PyStr.lower (String "255" "AB") = String "255" "ab" /\
  PyStr.upper "webp" = "WEBP" /\ PyStr.upper "straße" = "STRASSE" /\
  PyStr.upper "ǅ ŉ ﬁ" = "Ǆ ʼN FI".
Proof. repeat split; vm_compute; reflexivity. Qed.

Example text_length_and_encoding :
  PyStr.len "école" = 5%nat /\ String.length "école" = 6%nat /\
  PyStr.encode "école" = Ok [195; 169; 99; 111; 108; 101] /\
  PyStr.encode ("ab" ++ String "255" (String "254" ""))
  = Raise (UnicodeEncodeError
      "'utf-8' codec can't encode characters in position 2-3: surrogates not allowed").
Proof. repeat split; vm_compute; reflexivity. Qed.

Example unsupported_format_message :
  ImageProcessor.validate_file
    (Fixtures.with_files [("/data/in/notes.txt", mkStat true 12 "1700000000.0")])
    default_config "/data/in//notes.txt"
  = Raise (ImageProcessingError
      "Unsupported format: .txt. Supported: ['.jpg', '.jpeg', '.png', '.webp', '.bmp', '.tiff', '.tif']"
      (Some "/data/in//notes.txt")).
Proof. vm_compute. reflexivity. Qed.

Example validation_error_text :
  exn_str (ValidationError "ImageMetadata"
             [("file_size", "Giá trị phải lớn hơn 0", "value_error")])
  = ("1 validation error for ImageMetadata" ++ newline ++ "file_size" ++ newline
     ++ "  Giá trị phải lớn hơn 0 (type=value_error)")%string.
Proof. reflexivity. Qed.

Example name_with_trailing_slash : PyPath.name "a/b/" = "b".
Proof. reflexivity. Qed.

Example float_3136 :
  ImageProcessor.scaled_size 2048 2048 3136 3136 = Ok (2047, 2047).
Proof. vm_compute. reflexivity. Qed.

(** ** Normalization: [optimize_image] *)

Section Normalization.
Import ImageProcessor.

Lemma to_rgb_width image : PIL.width (to_rgb image) = PIL.width image.
Proof.
  unfold to_rgb.
  repeat match goal with |- context [if ?c then _ else _] => destruct c end;
    reflexivity.
Qed.

Lemma to_rgb_height image : PIL.height (to_rgb image) = PIL.height image.
Proof.
  unfold to_rgb.
  repeat match goal with |- context [if ?c then _ else _] => destruct c end;
    reflexivity.
Qed.

Lemma to_rgb_size image : PIL.size (to_rgb image) = PIL.size image.
Proof.
  unfold PIL.size. now rewrite to_rgb_width, to_rgb_height.
Qed.

(** Whatever the input mode, the normalized image is in mode RGB. *)
Lemma to_rgb_mode image : PIL.mode (to_rgb image) = "RGB".
Proof.
  unfold to_rgb.
  destruct (PyStr.mem (PIL.mode image) ["RGBA"; "LA"; "P"]).
  - repeat match goal with |- context [if ?c then _ else _] => destruct c end;
      reflexivity.
  - destruct (String.eqb (PIL.mode image) "RGB") eqn:E; simpl.
    + now apply String.eqb_eq in E.
    + reflexivity.
Qed.

(** The branch [optimize_image] takes is decided by the input's own size. *)
Lemma optimize_image_unfold be cfg image :
  optimize_image be cfg image =
  try_except
    (if (PIL.width image >? max_width cfg) || (PIL.height image >? max_height cfg)
     then bind (scaled_size (max_width cfg) (max_height cfg)
                            (PIL.width image) (PIL.height image))
               (fun new_size => Image_resize be (to_rgb image) new_size PIL.LANCZOS)
     else Ok (to_rgb image))
    (fun e => Raise (ImageProcessingError
                       ("Failed to optimize image: " ++ exn_str e) None)).
Proof.
  unfold optimize_image, pdf_max_image_size.
  now rewrite to_rgb_width, to_rgb_height.
Qed.

End Normalization.

(** *** Arithmetic of the scaled size *)

(** [int(x)] is the integer part of the number [x] stands for. *)
Lemma to_int_truncates x n :
  PyFloat.to_int x = Ok n -> n = Qtrunc (PyFloat.to_Q x).
Proof.
  destruct x as [s | s | | s m e]; simpl; try discriminate.
  - intros H. injection H as <-. reflexivity.
  - intros H. injection H as <-.
    unfold Qtrunc.
    destruct (0 <=? e) eqn:He.
    + destruct s; simpl; rewrite Z.quot_1_r; reflexivity.
    + apply Z.leb_gt in He.
      assert (Hd : 0 < 2 ^ (- e)) by (apply Z.pow_pos_nonneg; lia).
      destruct s; simpl Qnum; simpl Qden; rewrite Z2Pos.id by exact Hd.
      * simpl cond_Zopp. change (Z.neg m) with (- Z.pos m).
        rewrite Z.quot_opp_l by lia. reflexivity.
      * reflexivity.
Qed.

Section Scaling.
Import ImageProcessor.

(** What [scaled_size] returns, when it returns: both quotients are taken,
    the smaller is the ratio, and each dimension is the integer part of its
    product with the ratio. *)
Lemma scaled_size_inv mw mh w h nw nh :
  scaled_size mw mh w h = Ok (nw, nh) ->
  exists rw rh pw ph,
    PyFloat.true_div mw w = Ok rw /\
    PyFloat.true_div mh h = Ok rh /\
    PyFloat.int_mul w (PyFloat.min rw rh) = Ok pw /\
    PyFloat.int_mul h (PyFloat.min rw rh) = Ok ph /\
    nw = Qtrunc (PyFloat.to_Q pw) /\
    nh = Qtrunc (PyFloat.to_Q ph).
Proof.
  unfold scaled_size.
  destruct (PyFloat.true_div mw w) as [rw|] eqn:E1; simpl; try discriminate.
  destruct (PyFloat.true_div mh h) as [rh|] eqn:E2; simpl; try discriminate.
  destruct (PyFloat.int_mul w (PyFloat.min rw rh)) as [pw|] eqn:E3;
    simpl; try discriminate.
  destruct (PyFloat.to_int pw) as [a|] eqn:E4; simpl; try discriminate.
  destruct (PyFloat.int_mul h (PyFloat.min rw rh)) as [ph|] eqn:E5;
    simpl; try discriminate.
  destruct (PyFloat.to_int ph) as [b|] eqn:E6; simpl; try discriminate.
  intros H. injection H as <- <-.
  exists rw, rh, pw, ph.
  repeat split; auto using to_int_truncates.
Qed.

End Scaling.

Section NormalizationClaims.
Import ImageProcessor.

(** C7. No upscaling: an image within the configured bounds is normalized
    without any change of its width and height, and the call returns. *)
Theorem no_upscaling be cfg image :
  PIL.width image <= max_width cfg ->
  PIL.height image <= max_height cfg ->
  exists out,
    optimize_image be cfg image = Ok out /\
    PIL.width out = PIL.width image /\
    PIL.height out = PIL.height image.
Proof.
  intros Hw Hh.
  exists (to_rgb image).
  rewrite optimize_image_unfold.
  replace (PIL.width image >? max_width cfg) with false
    by (symmetry; rewrite Z.gtb_ltb; apply Z.ltb_ge; lia).
  replace (PIL.height image >? max_height cfg) with false
    by (symmetry; rewrite Z.gtb_ltb; apply Z.ltb_ge; lia).
  simpl. auto using to_rgb_width, to_rgb_height.
Qed.

Lemma no_upscaling_witness :
  exists out,
    optimize_image Fixtures.be default_config (Fixtures.photo "RGBA") = Ok out /\
    PIL.width out = 2 /\ PIL.height out = 2.
Proof.
  apply (no_upscaling Fixtures.be default_config (Fixtures.photo "RGBA"));
    simpl; lia.
Defined.

(** C2 (amended). An image wider or taller than the configured bounds is
    scaled by ratio = min(max_width / width, max_height / height), both
    quotients in double precision; each new dimension is the product of the
    old one with the ratio, cut to its integer part (truncated, not rounded
    to nearest); the RGB image is resampled to that size with the Lanczos
    filter, and the call raises when the division fails or a new dimension
    is below 1. *)
Theorem optimize_image_scales_down be cfg image :
  PIL.width image > max_width cfg \/ PIL.height image > max_height cfg ->
  optimize_image be cfg image =
    match scaled_size (max_width cfg) (max_height cfg)
                      (PIL.width image) (PIL.height image) with
    | Ok (nw, nh) =>
        if (nw <? 1) || (nh <? 1)
        then Raise (ImageProcessingError
                      "Failed to optimize image: height and width must be > 0" None)
        else Ok (PIL.mkImage "RGB" nw nh None
                   (PIL.info_transparency (to_rgb image)) (PIL.exif (to_rgb image))
                   (resample be (to_rgb image) (nw, nh) PIL.LANCZOS))
    | Raise e =>
        Raise (ImageProcessingError ("Failed to optimize image: " ++ exn_str e) None)
    end
  /\ forall nw nh,
      scaled_size (max_width cfg) (max_height cfg)
                  (PIL.width image) (PIL.height image) = Ok (nw, nh) ->
      exists rw rh pw ph,
        PyFloat.true_div (max_width cfg) (PIL.width image) = Ok rw /\
        PyFloat.true_div (max_height cfg) (PIL.height image) = Ok rh /\
        PyFloat.int_mul (PIL.width image) (PyFloat.min rw rh) = Ok pw /\
        PyFloat.int_mul (PIL.height image) (PyFloat.min rw rh) = Ok ph /\
        nw = Qtrunc (PyFloat.to_Q pw) /\
        nh = Qtrunc (PyFloat.to_Q ph).
Proof.
  intros Hbig. split.
  - rewrite optimize_image_unfold.
    replace ((PIL.width image >? max_width cfg)
             || (PIL.height image >? max_height cfg)) with true.
    + destruct (scaled_size _ _ _ _) as [[nw nh]|e]; simpl; [|reflexivity].
      unfold Image_resize. simpl.
      destruct ((nw <? 1) || (nh <? 1)); simpl; [reflexivity|].
      now rewrite to_rgb_mode.
    + symmetry. apply orb_true_iff.
      destruct Hbig; [left | right]; rewrite Z.gtb_ltb; apply Z.ltb_lt; lia.
  - intros nw nh. apply scaled_size_inv.
Qed.

Lemma optimize_image_scales_down_witness :
  exists out,
    optimize_image Fixtures.be Fixtures.small_config Fixtures.wide = Ok out /\
    PIL.size out = (5, 3).
Proof.
  destruct (optimize_image_scales_down Fixtures.be Fixtures.small_config
              Fixtures.wide (or_introl eq_refl)) as [H _].
  rewrite H. vm_compute. eexists. split; reflexivity.
Defined.

(** C2, as stated, fails: a 7 x 5 image under a 5 x 5 bound comes out
    5 x 3, and 3000 x 1000 under 2048 x 2048 comes out 2048 x 682, where
    rounding to the nearest integer gives 5 x 4 and 2048 x 683. *)
Lemma scaling_truncates_instead_of_rounding :
  (exists out,
      optimize_image Fixtures.be Fixtures.small_config Fixtures.wide = Ok out /\
      PIL.size out = (5, 3)) /\
  spec_scaled_size 5 5 7 5 = (5, 4) /\
  scaled_size 2048 2048 3000 1000 = Ok (2048, 682) /\
  spec_scaled_size 2048 2048 3000 1000 = (2048, 683).
Proof.
  split; [|split; [|split]].
  - vm_compute. eexists. split; reflexivity.
  - vm_compute. reflexivity.
  - vm_compute. reflexivity.
  - vm_compute. reflexivity.
Qed.

End NormalizationClaims.

(** *** Flattening of transparency *)

Section Flattening.
Import ImageProcessor.

Lemma blend_transparent_white i : PIL.blend 0 255 i = 255.
Proof.
  unfold PIL.blend. rewrite Z.mul_0_r. reflexivity.
Qed.

(** Under a matte of 0 the white background stays. *)
Lemma blend_px_transparent p : PIL.blend_px 0 PIL.white p = PIL.white.
Proof.
  unfold PIL.blend_px, PIL.white. simpl.
  now rewrite !blend_transparent_white.
Qed.

Lemma paste_masked_white n src :
  List.length src = n ->
  PIL.paste_masked (repeat PIL.white n) src (map PIL.alpha src)
  = map (fun p => PIL.blend_px (PIL.alpha p) PIL.white p) src.
Proof.
  revert n. induction src as [|p src IH]; intros n Hn.
  - simpl in Hn. subst n. reflexivity.
  - destruct n as [|n]; [discriminate|].
    simpl. f_equal. apply IH. now injection Hn.
Qed.

Lemma paste_plain_white n src :
  List.length src = n ->
  PIL.paste_plain (repeat PIL.white n) src = map PIL.opaque src.
Proof.
  revert n. induction src as [|p src IH]; intros n Hn.
  - simpl in Hn. subst n. reflexivity.
  - destruct n as [|n]; [discriminate|].
    simpl. f_equal. apply IH. now injection Hn.
Qed.

(** An RGBA image is composited on white through its alpha band. *)
Lemma to_rgb_rgba image :
  PIL.mode image = "RGBA" ->
  List.length (PIL.pixels image) = Z.to_nat (PIL.width image * PIL.height image) ->
  PIL.pixels (to_rgb image)
  = map (fun p => PIL.blend_px (PIL.alpha p) PIL.white p) (PIL.pixels image).
Proof.
  intros Hm Hlen. unfold to_rgb. rewrite Hm. simpl.
  unfold PIL.alpha_band. now apply paste_masked_white.
Qed.

(** So does a palette image that has a transparency key. *)
Lemma to_rgb_palette_key image :
  PIL.mode image = "P" ->
  PIL.info_transparency image = true ->
  List.length (PIL.pixels image) = Z.to_nat (PIL.width image * PIL.height image) ->
  PIL.pixels (to_rgb image)
  = map (fun p => PIL.blend_px (PIL.alpha p) PIL.white p) (PIL.pixels image).
Proof.
  intros Hm Hk Hlen. unfold to_rgb. rewrite Hm, Hk. simpl.
  unfold PIL.alpha_band. simpl. now apply paste_masked_white.
Qed.

(** Where an RGBA image is fully transparent the output is white. *)
Lemma to_rgb_rgba_outside_mask image k p :
  PIL.mode image = "RGBA" ->
  List.length (PIL.pixels image) = Z.to_nat (PIL.width image * PIL.height image) ->
  nth_error (PIL.pixels image) k = Some p ->
  PIL.alpha p = 0 ->
  nth_error (PIL.pixels (to_rgb image)) k = Some PIL.white.
Proof.
  intros Hm Hlen Hk Ha.
  rewrite to_rgb_rgba by assumption.
  rewrite nth_error_map, Hk. simpl.
  now rewrite Ha, blend_px_transparent.
Qed.

(** An LA image is pasted without a mask: its alpha band plays no part. *)
Lemma to_rgb_la image :
  PIL.mode image = "LA" ->
  List.length (PIL.pixels image) = Z.to_nat (PIL.width image * PIL.height image) ->
  PIL.pixels (to_rgb image) = map PIL.opaque (PIL.pixels image).
Proof.
  intros Hm Hlen. unfold to_rgb. rewrite Hm. simpl.
  now apply paste_plain_white.
Qed.

(** C3. The flattening at a one-pixel, fully transparent image: in mode
    RGBA the output pixel is the white background; in mode LA the same pixel
    comes out black, because the paste of an LA image is given no mask. The
    output is in mode RGB either way. *)
Theorem la_alpha_is_not_composited :
  optimize_image Fixtures.be default_config (Fixtures.clear_pixel "RGBA")
    = Ok (PIL.mkImage "RGB" 1 1 None false [] [PIL.Px 255 255 255 255]) /\
  optimize_image Fixtures.be default_config (Fixtures.clear_pixel "LA")
    = Ok (PIL.mkImage "RGB" 1 1 None false [] [PIL.Px 0 0 0 255]).
Proof.
  split; vm_compute; reflexivity.
Qed.

End Flattening.

(** ** Paths *)

Section Paths.

Lemma append_empty_r s : (s ++ "")%string = s.
Proof.
  induction s as [|c s IH]; simpl; [reflexivity | now rewrite IH].
Qed.

Lemma append_assoc a b c : ((a ++ b) ++ c)%string = (a ++ (b ++ c))%string.
Proof.
  induction a as [|x a IH]; simpl; [reflexivity | now rewrite IH].
Qed.

Lemma truthy_append_r a b : PyStr.truthy b = true -> PyStr.truthy (a ++ b) = true.
Proof.
  destruct a; simpl; auto.
Qed.

Lemma length_append a b :
  String.length (a ++ b) = (String.length a + String.length b)%nat.
Proof.
  induction a as [|c a IH]; simpl; [reflexivity | now rewrite IH].
Qed.

Lemma has_char_append c a b :
  has_char c (a ++ b) = has_char c a || has_char c b.
Proof.
  induction a as [|d a IH]; simpl; [reflexivity|].
  now rewrite IH, orb_assoc.
Qed.

Lemma split_not_nil s : PyPath.split s <> [].
Proof.
  destruct s as [|c r]; simpl; [discriminate|].
  destruct (Ascii.eqb c "/"); [discriminate|].
  destruct (PyPath.split r); discriminate.
Qed.

Lemma split_plain s : has_char "/" s = false -> PyPath.split s = [s].
Proof.
  induction s as [|c s IH]; simpl; [reflexivity|].
  intros H. apply orb_false_iff in H as [Hc Hs].
  now rewrite Hc, IH.
Qed.

Lemma split_append a b :
  has_char "/" a = false ->
  PyPath.split (a ++ String "/" b) = a :: PyPath.split b.
Proof.
  induction a as [|c a IH]; simpl; [reflexivity|].
  intros H. apply orb_false_iff in H as [Hc Ha].
  now rewrite Hc, IH.
Qed.

Lemma split_no_slash s : Forall (fun x => has_char "/" x = false) (PyPath.split s).
Proof.
  induction s as [|c s IH]; simpl.
  - constructor; [reflexivity | constructor].
  - destruct (Ascii.eqb c "/") eqn:Ec.
    + constructor; [reflexivity | assumption].
    + destruct (PyPath.split s) as [|x l]; constructor;
        try (simpl; rewrite Ec; simpl).
      * reflexivity.
      * constructor.
      * now inversion IH.
      * now inversion IH.
Qed.

Lemma sep_join_cons x y l :
  PyPath.sep_join (x :: y :: l) = (x ++ "/" ++ PyPath.sep_join (y :: l))%string.
Proof. reflexivity. Qed.

Lemma split_sep_join l :
  l <> [] ->
  Forall (fun x => has_char "/" x = false) l ->
  PyPath.split (PyPath.sep_join l) = l.
Proof.
  induction l as [|x l IH]; [congruence|].
  intros _ H. inversion H as [|? ? Hx Hl]; subst.
  destruct l as [|y l]; [now apply split_plain|].
  rewrite sep_join_cons.
  change (x ++ "/" ++ PyPath.sep_join (y :: l))%string
    with (x ++ String "/" (PyPath.sep_join (y :: l)))%string.
  rewrite split_append by assumption.
  rewrite IH; [reflexivity | discriminate | assumption].
Qed.

(** The last component of a joined text is at its end. *)
Lemma sep_join_snoc l x :
  exists prefix, PyPath.sep_join (l ++ [x]) = (prefix ++ x)%string.
Proof.
  induction l as [|y l [p IH]].
  - exists "". reflexivity.
  - destruct l as [|z l].
    + exists (y ++ "/")%string. cbn [app]. rewrite sep_join_cons.
      cbn [PyPath.sep_join]. now rewrite append_assoc.
    + exists (y ++ "/" ++ p)%string.
      change ((y :: z :: l) ++ [x]) with (y :: z :: (l ++ [x])).
      rewrite sep_join_cons. change (z :: l ++ [x]) with ((z :: l) ++ [x]).
      rewrite IH. now rewrite !append_assoc.
Qed.

(** What [Path] keeps of a text: one of three roots, and components that
    are not empty, hold no slash and are not '.'. *)
Lemma parse_root s :
  PyPath.root (PyPath.parse s) = "" \/ PyPath.root (PyPath.parse s) = "/"
  \/ PyPath.root (PyPath.parse s) = "//".
Proof.
  unfold PyPath.parse, PyPath.splitroot.
  destruct (PyStr.starts_with "/" s); [|now left].
  destruct (_ =? 2)%nat; simpl; auto.
Qed.

Lemma parse_parts s :
  Forall (fun x => has_char "/" x = false /\ PyPath.kept x = true)
         (PyPath.parts (PyPath.parse s)).
Proof.
  unfold PyPath.parse.
  destruct (PyPath.splitroot s) as [r rel]. cbn [PyPath.parts].
  apply Forall_forall. intros x Hin. apply filter_In in Hin as [Hin Hk].
  split; [|assumption].
  pose proof (split_no_slash rel) as F. rewrite Forall_forall in F. now apply F.
Qed.

Lemma filter_kept l :
  Forall (fun x => has_char "/" x = false /\ PyPath.kept x = true) l ->
  filter PyPath.kept l = l.
Proof.
  induction 1 as [|x l [_ Hk] _ IH]; simpl; [reflexivity|].
  now rewrite Hk, IH.
Qed.

Lemma kept_first x :
  PyPath.kept x = true -> has_char "/" x = false ->
  exists c r, x = String c r /\ Ascii.eqb c "/" = false.
Proof.
  destruct x as [|c r]; [discriminate|]. intros _ H. simpl in H.
  apply orb_false_iff in H as [Hc _]. now exists c, r.
Qed.

(** A text made of kept components reads back as these components. *)
Lemma parts_sep_join l :
  Forall (fun x => has_char "/" x = false /\ PyPath.kept x = true) l ->
  l <> [] ->
  filter PyPath.kept (PyPath.split (PyPath.sep_join l)) = l.
Proof.
  intros F Hl.
  rewrite split_sep_join; [now apply filter_kept | assumption |].
  eapply Forall_impl; [|exact F]. now intros a [H _].
Qed.

Lemma sep_join_first l :
  Forall (fun x => has_char "/" x = false /\ PyPath.kept x = true) l ->
  PyStr.starts_with "/" (PyPath.sep_join l) = false  \/ l = [].
Proof.
  intros F. destruct l as [|x l]; [now right | left].
  inversion F as [|? ? [Hs Hk] Fl]; subst.
  destruct (kept_first x Hk Hs) as (c & r & -> & Hc).
  destruct l; cbn [PyPath.sep_join String.append PyStr.starts_with];
    rewrite Ascii.eqb_sym, Hc; reflexivity.
Qed.

Lemma lstrip_first s : PyStr.starts_with "/" s = false -> PyPath.lstrip s = s.
Proof.
  destruct s as [|c r]; [reflexivity|]. cbn [PyStr.starts_with PyPath.lstrip].
  rewrite Ascii.eqb_sym. destruct (Ascii.eqb c "/"); [discriminate | reflexivity].
Qed.

Lemma parse_sep_join l :
  Forall (fun x => has_char "/" x = false /\ PyPath.kept x = true) l ->
  l <> [] ->
  PyPath.parse (PyPath.sep_join l) = PyPath.mk "" l.
Proof.
  intros F Hl. unfold PyPath.parse, PyPath.splitroot.
  destruct (sep_join_first l F) as [-> | ->]; [|congruence].
  now rewrite parts_sep_join.
Qed.

Lemma parse_to_str r l :
  r = "" \/ r = "/" \/ r = "//" ->
  Forall (fun x => has_char "/" x = false /\ PyPath.kept x = true) l ->
  PyPath.parse (PyPath.to_str (PyPath.mk r l)) = PyPath.mk r l.
Proof.
  intros Hr F. unfold PyPath.to_str. cbn [PyPath.root PyPath.parts].
  destruct l as [|x0 l0] eqn:El.
  { destruct Hr as [-> | [-> | ->]]; reflexivity. }
  rewrite <- El in *.
  assert (Hl : l <> []) by (rewrite El; discriminate).
  destruct (sep_join_first l F) as [E | E]; [|congruence].
  pose proof (lstrip_first _ E) as L.
  assert (T : PyStr.truthy (PyPath.sep_join l) = true).
  { destruct l as [|x l]; [congruence|].
    inversion F as [|? ? [Hs Hk] Fl]; subst.
    destruct (kept_first x Hk Hs) as (c & t & -> & _). now destruct l. }
  destruct Hr as [-> | [-> | ->]].
  - cbn [String.append]. rewrite T. now apply parse_sep_join.
  - unfold PyPath.parse, PyPath.splitroot.
    cbn [String.append PyStr.truthy PyStr.starts_with PyPath.lstrip
           Ascii.eqb Bool.eqb andb]. cbv iota.
    rewrite L.
    replace (String.length (String "/" (PyPath.sep_join l))
             - String.length (PyPath.sep_join l) =? 2)%nat with false
      by (symmetry; apply Nat.eqb_neq; cbn [String.length]; lia).
    now rewrite parts_sep_join.
  - unfold PyPath.parse, PyPath.splitroot.
    cbn [String.append PyStr.truthy PyStr.starts_with PyPath.lstrip
           Ascii.eqb Bool.eqb andb]. cbv iota.
    rewrite L.
    replace (String.length (String "/" (String "/" (PyPath.sep_join l)))
             - String.length (PyPath.sep_join l) =? 2)%nat with true
      by (symmetry; apply Nat.eqb_eq; cbn [String.length]; lia).
    now rewrite parts_sep_join.
Qed.

Lemma parse_plain x :
  has_char "/" x = false -> PyPath.kept x = true ->
  PyPath.parse x = PyPath.mk "" [x].
Proof.
  intros Hs Hk. apply (parse_sep_join [x]); [|discriminate].
  constructor; [now split | constructor].
Qed.

Lemma kept_name file :
  PyStr.truthy file = true -> file <> "." -> PyPath.kept file = true.
Proof.
  intros Ht Hd. unfold PyPath.kept. rewrite Ht.
  destruct (String.eqb_spec file "."); [contradiction | reflexivity].
Qed.

(** [dir / file], for a file name without a slash. *)
Lemma join_plain dir file :
  has_char "/" file = false -> PyPath.kept file = true ->
  PyPath.join dir file
  = PyPath.to_str (PyPath.mk (PyPath.root (PyPath.parse dir))
                     (PyPath.parts (PyPath.parse dir) ++ [file])).
Proof.
  intros Hs Hk. unfold PyPath.join. now rewrite (parse_plain file Hs Hk).
Qed.

(** The name of [dir / file] is [file], for a file name without a slash. *)
Lemma name_join dir file :
  has_char "/" file = false ->
  PyStr.truthy file = true ->
  file <> "." ->
  PyPath.name (PyPath.join dir file) = file.
Proof.
  intros Hs Ht Hd. pose proof (kept_name file Ht Hd) as Hk.
  rewrite join_plain by assumption. unfold PyPath.name.
  rewrite parse_to_str.
  - cbn [PyPath.parts]. apply last_last.
  - apply parse_root.
  - apply Forall_app. split; [apply parse_parts|].
    constructor; [now split | constructor].
Qed.

Lemma name_plain s :
  has_char "/" s = false -> s <> "." -> PyPath.name s = s.
Proof.
  intros Hs Hd. destruct s as [|c r]; [reflexivity|].
  unfold PyPath.name. rewrite parse_plain; [reflexivity | assumption |].
  now apply kept_name.
Qed.

Lemma name_no_slash p : has_char "/" (PyPath.name p) = false.
Proof.
  unfold PyPath.name. pose proof (parse_parts p) as F.
  induction (PyPath.parts (PyPath.parse p)) as [|x l IH]; [reflexivity|].
  inversion F as [|? ? [Hx _] Fl]; subst.
  destruct l as [|y l]; [exact Hx | now apply IH].
Qed.

(** The text of [dir / file] ends with [file]. *)
Lemma join_ends dir file :
  has_char "/" file = false -> PyStr.truthy file = true -> file <> "." ->
  exists prefix, PyPath.join dir file = (prefix ++ file)%string.
Proof.
  intros Hs Ht Hd. pose proof (kept_name file Ht Hd) as Hk.
  rewrite join_plain by assumption. unfold PyPath.to_str.
  cbn [PyPath.root PyPath.parts].
  destruct (sep_join_snoc (PyPath.parts (PyPath.parse dir)) file) as [p ->].
  rewrite <- append_assoc.
  rewrite truthy_append_r by assumption.
  eexists. reflexivity.
Qed.

End Paths.

(** ** Texts and their characters *)

Section Text.

Lemma codepoints_cons b0 r0 :
  PyStr.codepoints (String b0 r0)
  = fst (head_cp b0 r0) :: PyStr.codepoints (snd (head_cp b0 r0)).
Proof.
  unfold head_cp. cbn [PyStr.codepoints].
  destruct (PyStr.code b0 <? 128); [reflexivity|].
  destruct r0 as [|b1 r1]; [reflexivity|].
  destruct (PyStr.seq2 _ _); [reflexivity|].
  destruct r1 as [|b2 r2]; [reflexivity|].
  destruct (PyStr.seq3 _ _ _); [reflexivity|].
  destruct r2 as [|b3 r3]; [reflexivity|].
  destruct (PyStr.seq4 _ _ _ _); reflexivity.
Qed.

Lemma codepoints_ascii c r :
  PyStr.code c < 128 ->
  PyStr.codepoints (String c r) = PyStr.code c :: PyStr.codepoints r.
Proof.
  intros H. cbn [PyStr.codepoints]. apply Z.ltb_lt in H. now rewrite H.
Qed.

Lemma head_cp_shorter b0 r0 :
  (String.length (snd (head_cp b0 r0)) <= String.length r0)%nat.
Proof.
  unfold head_cp.
  destruct (PyStr.code b0 <? 128); [simpl; lia|].
  destruct r0 as [|b1 r1]; [simpl; lia|].
  destruct (PyStr.seq2 _ _); [simpl; lia|].
  destruct r1 as [|b2 r2]; [simpl; lia|].
  destruct (PyStr.seq3 _ _ _); [simpl; lia|].
  destruct r2 as [|b3 r3]; [simpl; lia|].
  destruct (PyStr.seq4 _ _ _ _); simpl; lia.
Qed.

Lemma not_cont_ascii n : n < 128 -> PyStr.is_cont n = false.
Proof.
  intros H. unfold PyStr.is_cont. apply andb_false_iff. left. apply Z.leb_gt. lia.
Qed.

Lemma seq2_not_cont n0 n1 : PyStr.is_cont n1 = false -> PyStr.seq2 n0 n1 = false.
Proof. intros H. unfold PyStr.seq2. rewrite H. apply andb_false_r. Qed.

Lemma seq3_not_cont n0 n1 n2 :
  PyStr.is_cont n1 = false \/ PyStr.is_cont n2 = false -> PyStr.seq3 n0 n1 n2 = false.
Proof. intros [H | H]; unfold PyStr.seq3; rewrite H; btauto. Qed.

Lemma seq4_not_cont n0 n1 n2 n3 :
  PyStr.is_cont n1 = false \/ PyStr.is_cont n2 = false \/ PyStr.is_cont n3 = false ->
  PyStr.seq4 n0 n1 n2 n3 = false.
Proof. intros [H | [H | H]]; unfold PyStr.seq4; rewrite H; btauto. Qed.

(** What follows an ASCII character has no part in the first character. *)
Lemma head_cp_sep c b b0 r0 :
  PyStr.code c < 128 ->
  head_cp b0 (r0 ++ String c b)
  = (fst (head_cp b0 r0), (snd (head_cp b0 r0) ++ String c b)%string).
Proof.
  intros Hc. pose proof (not_cont_ascii _ Hc) as Hn.
  unfold head_cp.
  destruct (PyStr.code b0 <? 128); [reflexivity|].
  destruct r0 as [|b1 r1]; cbn [String.append fst snd].
  { rewrite seq2_not_cont by assumption.
    destruct b as [|b2 r2]; [reflexivity|].
    rewrite seq3_not_cont by auto.
    destruct r2 as [|b3 r3]; [reflexivity|].
    rewrite seq4_not_cont by auto. reflexivity. }
  destruct (PyStr.seq2 _ _); [reflexivity|].
  destruct r1 as [|b2 r2]; cbn [String.append fst snd].
  { rewrite seq3_not_cont by auto.
    destruct b as [|b3 r3]; [reflexivity|].
    rewrite seq4_not_cont by auto. reflexivity. }
  destruct (PyStr.seq3 _ _ _); [reflexivity|].
  destruct r2 as [|b3 r3]; cbn [String.append fst snd].
  { rewrite seq4_not_cont by auto. reflexivity. }
  destruct (PyStr.seq4 _ _ _ _); reflexivity.
Qed.

(** Reading a text up to an ASCII character does not depend on what follows
    that character. *)
Lemma codepoints_sep c b a :
  PyStr.code c < 128 ->
  PyStr.codepoints (a ++ String c b)
  = PyStr.codepoints a ++ PyStr.code c :: PyStr.codepoints b.
Proof.
  intros Hc.
  assert (G : forall n a, (String.length a <= n)%nat ->
              PyStr.codepoints (a ++ String c b)
              = PyStr.codepoints a ++ PyStr.code c :: PyStr.codepoints b).
  { assert (B : PyStr.codepoints (String c b) = PyStr.code c :: PyStr.codepoints b).
    { cbn [PyStr.codepoints]. apply Z.ltb_lt in Hc. now rewrite Hc. }
    induction n as [|n IH]; intros [|b0 r0] Hl; try exact B.
    - simpl in Hl. lia.
    - cbn [String.append]. rewrite !codepoints_cons, head_cp_sep by assumption.
      cbn [fst snd]. rewrite IH; [reflexivity|].
      pose proof (head_cp_shorter b0 r0). simpl in Hl. lia. }
  now apply (G (String.length a)).
Qed.

Lemma find_surrogate_app i l1 l2 :
  PyStr.find_surrogate i (l1 ++ l2) = None <->
  PyStr.find_surrogate i l1 = None /\ PyStr.find_surrogate (i + Z.of_nat (List.length l1)) l2 = None.
Proof.
  revert i. induction l1 as [|c l1 IH]; intros i.
  - cbn [app List.length PyStr.find_surrogate]. rewrite Z.add_0_r. tauto.
  - cbn [app PyStr.find_surrogate]. destruct (PyStr.is_surrogate c).
    + split; [discriminate | intros [H _]; discriminate].
    + rewrite IH. cbn [List.length]. 
      replace (i + 1 + Z.of_nat (List.length l1)) with (i + Z.of_nat (S (List.length l1))) by lia.
      tauto.
Qed.

Lemma find_surrogate_shift i j l :
  PyStr.find_surrogate i l = None <-> PyStr.find_surrogate j l = None.
Proof.
  revert i j. induction l as [|c l IH]; intros i j; cbn [PyStr.find_surrogate]; [tauto|].
  destruct (PyStr.is_surrogate c); [split; discriminate|]. apply IH.
Qed.

(** A text cut at an ASCII character can be encoded exactly when both parts
    can. *)
Lemma encodable_sep c a b :
  PyStr.code c < 128 ->
  PyStr.encodable (a ++ String c b) = PyStr.encodable a && PyStr.encodable b.
Proof.
  intros Hc. unfold PyStr.encodable. rewrite codepoints_sep by assumption.
  assert (Hs : PyStr.is_surrogate (PyStr.code c) = false).
  { unfold PyStr.is_surrogate. apply andb_false_iff. left. apply Z.leb_gt. lia. }
  pose proof (find_surrogate_app 0 (PyStr.codepoints a)
                (PyStr.code c :: PyStr.codepoints b)) as A.
  cbn [PyStr.find_surrogate] in A. rewrite Hs in A.
  pose proof (find_surrogate_shift
                (0 + Z.of_nat (List.length (PyStr.codepoints a)) + 1) 0
                (PyStr.codepoints b)) as S.
  destruct (PyStr.find_surrogate 0 (PyStr.codepoints a ++ _));
    destruct (PyStr.find_surrogate 0 (PyStr.codepoints a));
    destruct (PyStr.find_surrogate 0 (PyStr.codepoints b));
    destruct (PyStr.find_surrogate _ (PyStr.codepoints b));
    try reflexivity; exfalso;
    repeat match goal with
           | H : _ <-> _ |- _ => destruct H
           end;
    intuition discriminate.
Qed.

Lemma encode_encodable s :
  PyStr.encodable s = true -> PyStr.encode s = Ok (PyStr.utf8 s).
Proof.
  unfold PyStr.encodable, PyStr.encode.
  destruct (PyStr.find_surrogate _ _); [discriminate | reflexivity].
Qed.

Lemma encode_not_encodable s :
  PyStr.encodable s = false -> exists m, PyStr.encode s = Raise (UnicodeEncodeError m).
Proof.
  unfold PyStr.encodable, PyStr.encode.
  destruct (PyStr.find_surrogate _ _) as [[[i c] n]|]; [|discriminate].
  intros _. eexists. reflexivity.
Qed.

End Text.

(** ** Artifact names: [generate_filename] *)

Section Naming.
Import ImageStorage.

Lemma generate_filename_eq be p fmt :
  PyStr.encodable (p ++ "_" ++ mtime_text be p) = true ->
  generate_filename be p fmt
  = Ok ("img_" ++ file_hash p (mtime_text be p) ++ "."
        ++ (if String.eqb (PyStr.lower fmt) "jpeg" then "jpg" else PyStr.lower fmt))%string.
Proof.
  unfold generate_filename, os_path_exists, os_path_getmtime, mtime_text.
  destruct (os_stat be p); cbn [bind]; intros H;
    rewrite (encode_encodable _ H); reflexivity.
Qed.

Lemma generate_filename_unfold be p fmt :
  generate_filename be p fmt
  = bind (PyStr.encode (p ++ "_" ++ mtime_text be p)) (fun encoded =>
      Ok ("img_" ++ PyStr.take 12 (MD5.hexdigest encoded) ++ "."
          ++ (if String.eqb (PyStr.lower fmt) "jpeg" then "jpg"
              else PyStr.lower fmt))%string).
Proof.
  unfold generate_filename, os_path_exists, os_path_getmtime, mtime_text.
  destruct (os_stat be p); reflexivity.
Qed.

(** The only error of generate_filename: the text to hash holds a
    surrogate. *)
Lemma generate_filename_cases be p fmt :
  (PyStr.encodable (p ++ "_" ++ mtime_text be p) = true /\
   generate_filename be p fmt
   = Ok ("img_" ++ file_hash p (mtime_text be p) ++ "."
         ++ (if String.eqb (PyStr.lower fmt) "jpeg" then "jpg" else PyStr.lower fmt))%string)
  \/
  (PyStr.encodable (p ++ "_" ++ mtime_text be p) = false /\
   exists m, generate_filename be p fmt = Raise (UnicodeEncodeError m)).
Proof.
  destruct (PyStr.encodable (p ++ "_" ++ mtime_text be p)) eqn:E.
  - left. split; [reflexivity | now apply generate_filename_eq].
  - right. split; [reflexivity|].
    destruct (encode_not_encodable _ E) as [m Hm]. exists m.
    unfold generate_filename, os_path_exists, os_path_getmtime.
    unfold mtime_text in Hm.
    destruct (os_stat be p); cbn [bind]; now rewrite Hm.
Qed.

Lemma generate_filename_inv be p fmt name :
  generate_filename be p fmt = Ok name ->
  PyStr.encodable (p ++ "_" ++ mtime_text be p) = true /\
  name = ("img_" ++ file_hash p (mtime_text be p) ++ "."
          ++ (if String.eqb (PyStr.lower fmt) "jpeg" then "jpg" else PyStr.lower fmt))%string.
Proof.
  destruct (generate_filename_cases be p fmt) as [[E ->] | [_ [m ->]]];
    [|discriminate].
  intros H. injection H as <-. split; [assumption | reflexivity].
Qed.

(** *** The digest is 32 hexadecimal characters *)

Lemma hex_digit_is_hex n :
  0 <= n < 16 -> PyStr.is_hex_digit (MD5.hex_digit n) = true.
Proof.
  intros H.
  assert (All : forallb (fun k => PyStr.is_hex_digit (MD5.hex_digit (Z.of_nat k)))
                        (seq 0 16) = true) by reflexivity.
  rewrite forallb_forall in All.
  specialize (All (Z.to_nat n)).
  rewrite Z2Nat.id in All by lia.
  apply All, in_seq. lia.
Qed.

Lemma hex_all_hex bs :
  Forall (fun b => 0 <= b < 256) bs -> PyStr.all_hex (MD5.hex bs) = true.
Proof.
  induction 1 as [|b bs Hb _ IH]; [reflexivity|].
  cbn [MD5.hex PyStr.all_hex].
  rewrite IH, !hex_digit_is_hex; [reflexivity| |].
  - apply Z.mod_pos_bound. lia.
  - split; [apply Z.div_pos; lia | apply Z.div_lt_upper_bound; lia].
Qed.

Lemma hex_length bs : String.length (MD5.hex bs) = (2 * List.length bs)%nat.
Proof.
  induction bs as [|b bs IH]; [reflexivity|].
  cbn [MD5.hex String.length List.length]. rewrite IH. lia.
Qed.

Lemma le_bytes_length n x : List.length (MD5.le_bytes n x) = n.
Proof.
  revert x. induction n as [|n IH]; intros x; simpl; [reflexivity|].
  now rewrite IH.
Qed.

Lemma le_bytes_range n x : Forall (fun b => 0 <= b < 256) (MD5.le_bytes n x).
Proof.
  revert x. induction n as [|n IH]; intros x; simpl; constructor.
  - apply Z.mod_pos_bound. lia.
  - apply IH.
Qed.

Lemma digest_length msg : List.length (MD5.digest msg) = 16%nat.
Proof.
  unfold MD5.digest.
  destruct (MD5.blocks _ _ _) as [a b c d].
  now rewrite !length_app, !le_bytes_length.
Qed.

Lemma digest_range msg : Forall (fun b => 0 <= b < 256) (MD5.digest msg).
Proof.
  unfold MD5.digest.
  destruct (MD5.blocks _ _ _) as [a b c d].
  repeat (apply Forall_app; split); apply le_bytes_range.
Qed.

Lemma hex_digit_ascii c : PyStr.is_hex_digit c = true -> PyStr.code c < 128.
Proof.
  unfold PyStr.is_hex_digit, PyStr.code. cbv zeta. intros H.
  apply orb_true_iff in H as [H | H]; apply andb_true_iff in H as [_ H];
    apply N.leb_le in H; lia.
Qed.

Lemma of_codepoints_ascii c l :
  PyStr.code c < 128 ->
  PyStr.of_codepoints (PyStr.code c :: l) = String c (PyStr.of_codepoints l).
Proof.
  intros H. unfold PyStr.of_codepoints. cbn [flat_map].
  unfold PyStr.char_bytes at 1. apply Z.ltb_lt in H. rewrite H.
  cbn [app map string_of_list_ascii]. unfold PyStr.code.
  now rewrite N2Z.id, ascii_N_embedding.
Qed.

(** On hexadecimal digits the first characters are the first bytes. *)
Lemma take_hex n s :
  PyStr.all_hex s = true -> PyStr.take n s = prefix n s.
Proof.
  unfold PyStr.take. revert n. induction s as [|c s IH]; intros n H.
  - destruct n; reflexivity.
  - cbn [PyStr.all_hex] in H. apply andb_true_iff in H as [Hc Hs].
    pose proof (hex_digit_ascii c Hc) as Ha.
    rewrite codepoints_ascii by assumption.
    destruct n as [|n]; [reflexivity|].
    cbn [firstn prefix]. rewrite of_codepoints_ascii by assumption.
    now rewrite IH.
Qed.

Lemma prefix_length n s :
  (n <= String.length s)%nat -> String.length (prefix n s) = n.
Proof.
  revert s. induction n as [|n IH]; intros s H; [reflexivity|].
  destruct s as [|c s]; simpl in *; [lia|].
  rewrite IH; [reflexivity | lia].
Qed.

Lemma prefix_all_hex n s :
  PyStr.all_hex s = true -> PyStr.all_hex (prefix n s) = true.
Proof.
  revert s. induction n as [|n IH]; intros s H; [reflexivity|].
  destruct s as [|c s]; [reflexivity|].
  simpl in *. apply andb_true_iff in H as [Hc Hs].
  now rewrite Hc, IH.
Qed.

Lemma take_length n s :
  PyStr.all_hex s = true ->
  (n <= String.length s)%nat -> String.length (PyStr.take n s) = n.
Proof.
  intros H L. rewrite take_hex by assumption. now apply prefix_length.
Qed.

Lemma take_all_hex n s :
  PyStr.all_hex s = true -> PyStr.all_hex (PyStr.take n s) = true.
Proof.
  intros H. rewrite take_hex by assumption. now apply prefix_all_hex.
Qed.

(** The hash part of a name is 12 hexadecimal characters. *)
Lemma file_hash_length p m : String.length (file_hash p m) = 12%nat.
Proof.
  unfold file_hash, MD5.hexdigest.
  apply take_length; [apply hex_all_hex, digest_range|].
  rewrite hex_length, digest_length. lia.
Qed.

Lemma file_hash_hex p m : PyStr.all_hex (file_hash p m) = true.
Proof.
  unfold file_hash, MD5.hexdigest.
  apply take_all_hex, hex_all_hex, digest_range.
Qed.

(** *** The hashed text determines the path and the modification time *)

Lemma rsplit_without_underscore m :
  has_underscore m = false -> rsplit_underscore m = None.
Proof.
  induction m as [|c m IH]; simpl; [reflexivity|].
  intros H. apply orb_false_iff in H as [Hc Hm].
  now rewrite IH, Hc.
Qed.

Lemma rsplit_hash_input p m :
  has_underscore m = false ->
  rsplit_underscore (p ++ "_" ++ m) = Some (p, m).
Proof.
  intros Hm. induction p as [|c p IH]; simpl in *.
  - now rewrite rsplit_without_underscore.
  - now rewrite IH.
Qed.

(** A printed modification time holds no underscore, so the text that is
    hashed splits back into the path and the time in one way only. *)
Lemma hash_input_injective p m p' m' :
  has_underscore m = false ->
  has_underscore m' = false ->
  (p ++ "_" ++ m)%string = (p' ++ "_" ++ m')%string ->
  p = p' /\ m = m'.
Proof.
  intros Hm Hm' E.
  pose proof (rsplit_hash_input p m Hm) as R.
  rewrite E, rsplit_hash_input in R by assumption.
  injection R as -> ->. split; reflexivity.
Qed.

Lemma append_same_length_inj a b x y :
  String.length a = String.length b ->
  (a ++ x)%string = (b ++ y)%string -> a = b /\ x = y.
Proof.
  revert b. induction a as [|c a IH]; intros [|d b] L E; simpl in *;
    try discriminate.
  - split; [reflexivity | assumption].
  - injection E as -> E. injection L as L.
    destruct (IH b L E) as [-> ->]. split; reflexivity.
Qed.

(** Two names of one format are equal exactly when their hash parts are. *)
Lemma names_equal_iff_hashes p m p' m' ext :
  ("img_" ++ file_hash p m ++ "." ++ ext)%string
  = ("img_" ++ file_hash p' m' ++ "." ++ ext)%string
  <-> file_hash p m = file_hash p' m'.
Proof.
  split.
  - intros E. simpl in E. injection E as E.
    apply append_same_length_inj in E; [tauto|].
    now rewrite !file_hash_length.
  - now intros ->.
Qed.

End Naming.

Section NamingClaims.
Import ImageStorage.

(** C4 (amended). Artifact naming is deterministic and format-directed:
    for a path whose text can be encoded, generate_filename returns 'img_'
    followed by the first 12 hexadecimal characters of the MD5 digest of the
    original path, an underscore and the modification time, followed by
    '.jpg' when the requested format is 'jpeg' in any letter case and
    otherwise by '.' and the format lowercased. Calls that see the same path
    and modification time produce the same name. A change of path or
    modification time changes the hashed text, and the two names differ
    exactly when the 12-character prefixes of the two digests differ. *)
Theorem generate_filename_deterministic be p fmt :
  PyStr.encodable (p ++ "_" ++ mtime_text be p) = true ->
  generate_filename be p fmt
  = Ok ("img_" ++ file_hash p (mtime_text be p) ++ "."
        ++ (if String.eqb (PyStr.lower fmt) "jpeg" then "jpg" else PyStr.lower fmt))%string
  /\ String.length (file_hash p (mtime_text be p)) = 12%nat
  /\ PyStr.all_hex (file_hash p (mtime_text be p)) = true
  /\ (forall be',
        mtime_text be' p = mtime_text be p ->
        generate_filename be' p fmt = generate_filename be p fmt)
  /\ (forall be' p',
        has_underscore (mtime_text be p) = false ->
        has_underscore (mtime_text be' p') = false ->
        p' <> p \/ mtime_text be' p' <> mtime_text be p ->
        (p' ++ "_" ++ mtime_text be' p')%string <> (p ++ "_" ++ mtime_text be p)%string)
  /\ (forall be' p',
        PyStr.encodable (p' ++ "_" ++ mtime_text be' p') = true ->
        (generate_filename be' p' fmt = generate_filename be p fmt
         <-> file_hash p' (mtime_text be' p') = file_hash p (mtime_text be p))).
Proof.
  intros Henc.
  split; [now apply generate_filename_eq|].
  split; [apply file_hash_length|].
  split; [apply file_hash_hex|].
  split; [|split].
  - intros be' E. rewrite !generate_filename_eq by (rewrite ?E; assumption).
    now rewrite E.
  - intros be' p' Hm Hm' Hne E.
    apply hash_input_injective in E; [|assumption..].
    destruct E as [-> E]. destruct Hne as [Hne | Hne]; now apply Hne.
  - intros be' p' Henc'. rewrite !generate_filename_eq by assumption. split.
    + intros E. injection E as E.
      apply append_same_length_inj in E; [tauto|].
      now rewrite !file_hash_length.
    + now intros ->.
Qed.

Lemma generate_filename_deterministic_witness :
  generate_filename Fixtures.be Fixtures.upload "JPEG" = Ok "img_a58703425487.jpg".
Proof.
  rewrite (proj1 (generate_filename_deterministic Fixtures.be Fixtures.upload "JPEG"
                    eq_refl)).
  vm_compute. reflexivity.
Defined.

(** C4, as stated, fails: two different files written in the same second get
    the same name, and so does one file before and after it is rewritten. *)
Lemma distinct_sources_share_a_name :
  Fixtures.scan_a <> Fixtures.scan_b /\
  mtime_text Fixtures.two_scans Fixtures.scan_a = "1700000000.0" /\
  mtime_text Fixtures.two_scans Fixtures.scan_b = "1700000000.0" /\
  generate_filename Fixtures.two_scans Fixtures.scan_a "webp"
    = Ok "img_b5d1db0b27bd.webp" /\
  generate_filename Fixtures.two_scans Fixtures.scan_b "webp"
    = Ok "img_b5d1db0b27bd.webp" /\
  mtime_text Fixtures.scan_before Fixtures.scan = "1712122834.0" /\
  mtime_text Fixtures.scan_after Fixtures.scan = "1730410848.0" /\
  generate_filename Fixtures.scan_before Fixtures.scan "webp"
    = Ok "img_97ebfc59109c.webp" /\
  generate_filename Fixtures.scan_after Fixtures.scan "webp"
    = Ok "img_97ebfc59109c.webp".
Proof.
  split; [discriminate|].
  repeat split; vm_compute; reflexivity.
Qed.

(** C10 (amended). generate_filename returns a name for every path whose
    text can be encoded as UTF-8, on the disk or not, and raises
    UnicodeEncodeError for every path that holds a lone surrogate (as the
    name of a file that is not UTF-8 does). For a path that can be encoded
    and does not exist it hashes the path, an underscore and an empty
    modification time; the name is 'img_', 12 hexadecimal characters, a dot
    and the extension, and it is the same on every machine where the path
    does not exist. *)
Theorem generate_filename_total_on_text be p fmt :
  (PyStr.encodable p = true ->
   PyStr.encodable (mtime_text be p) = true ->
   exists name, generate_filename be p fmt = Ok name) /\
  (PyStr.encodable p = false ->
   exists message, generate_filename be p fmt = Raise (UnicodeEncodeError message)) /\
  (os_stat be p = None ->
   PyStr.encodable p = true ->
   generate_filename be p fmt
   = Ok ("img_" ++ PyStr.take 12 (MD5.hexdigest (PyStr.utf8 (p ++ "_" ++ "")))
         ++ "." ++ (if String.eqb (PyStr.lower fmt) "jpeg" then "jpg"
                    else PyStr.lower fmt))%string
   /\ String.length (PyStr.take 12 (MD5.hexdigest (PyStr.utf8 (p ++ "_" ++ ""))))
      = 12%nat
   /\ PyStr.all_hex (PyStr.take 12 (MD5.hexdigest (PyStr.utf8 (p ++ "_" ++ ""))))
      = true
   /\ forall be', os_stat be' p = None ->
                  generate_filename be' p fmt = generate_filename be p fmt).
Proof.
  assert (S : forall m, PyStr.encodable (p ++ "_" ++ m)
                        = PyStr.encodable p && PyStr.encodable m)
    by (intros m; now apply (encodable_sep "_")).
  split; [|split].
  - intros Hp Hm. rewrite generate_filename_eq; [eexists; reflexivity|].
    now rewrite S, Hp, Hm.
  - intros Hp.
    destruct (generate_filename_cases be p fmt) as [[E _] | [_ H]]; [|exact H].
    rewrite S, Hp in E. discriminate.
  - intros Hnone Hp.
    assert (Hm : mtime_text be p = "") by (unfold mtime_text; now rewrite Hnone).
    assert (He : forall be', os_stat be' p = None ->
                 PyStr.encodable (p ++ "_" ++ mtime_text be' p) = true).
    { intros be' H. unfold mtime_text. now rewrite H, S, Hp. }
    repeat split.
    + rewrite generate_filename_eq, Hm by now apply He. reflexivity.
    + apply (file_hash_length p "").
    + apply (file_hash_hex p "").
    + intros be' Hnone'. rewrite !generate_filename_eq by now apply He.
      unfold mtime_text. now rewrite Hnone, Hnone'.
Qed.

Lemma generate_filename_total_on_text_witness :
  generate_filename Fixtures.be "/nowhere/at/all.tiff" "WebP"
  = Ok "img_9115704ee113.webp".
Proof.
  destruct (generate_filename_total_on_text Fixtures.be "/nowhere/at/all.tiff" "WebP")
    as (_ & _ & H).
  destruct (H eq_refl eq_refl) as [E _]. rewrite E. vm_compute. reflexivity.
Defined.

(** C10, as stated, fails: the name of a file that is not UTF-8 reaches
    Python with a lone surrogate in it, and generate_filename raises on such
    a path, whether the file exists or not. *)
Lemma generate_filename_raises_on_surrogate :
  os_stat Fixtures.be (String "255" "") = None /\
  generate_filename Fixtures.be (String "255" "") "webp"
  = Raise (UnicodeEncodeError
      "'utf-8' codec can't encode character '\udcff' in position 0: surrogates not allowed") /\
  os_stat Fixtures.latin1_disk Fixtures.latin1_name
  = Some (mkStat true 4096 "1700000000.0") /\
  generate_filename Fixtures.latin1_disk Fixtures.latin1_name "webp"
  = Raise (UnicodeEncodeError
      "'utf-8' codec can't encode character '\udce9' in position 12: surrogates not allowed").
Proof.
  repeat split; vm_compute; reflexivity.
Qed.

End NamingClaims.

(** ** Metadata: [create_image_metadata] *)

Section Metadata.
Import MetadataExtractor.

Lemma validated_errors {A} model errors (v : A) :
  errors <> [] -> validated model errors v = Raise (ValidationError model errors).
Proof.
  destruct errors; [congruence | reflexivity].
Qed.

Lemma validated_ok {A} model errors (v w : A) :
  validated model errors v = Ok w -> errors = [] /\ w = v.
Proof.
  destruct errors; simpl; [|discriminate].
  intros H. injection H as <-. split; reflexivity.
Qed.

(** A metadata value that was constructed has positive sizes. *)
Lemma ImageMetadata_new_positive w h m f s t x md :
  ImageMetadata.new w h m f s t x = Ok md ->
  0 < ImageMetadata.width md /\ 0 < ImageMetadata.height md /\
  0 < ImageMetadata.file_size md.
Proof.
  unfold ImageMetadata.new, ImageMetadata.validate_positive.
  intros H. apply validated_ok in H as [He ->]. simpl.
  destruct (w <=? 0) eqn:Ew; [discriminate|].
  destruct (h <=? 0) eqn:Eh; [discriminate|].
  destruct f; [|discriminate].
  destruct (s <=? 0) eqn:Es; [discriminate|].
  apply Z.leb_gt in Ew, Eh, Es. auto.
Qed.

(** The minimal metadata carries [file_size = 0], which the model's own
    validator refuses: the fallback raises for every image. *)
Lemma minimal_metadata_raises image :
  exists fields, minimal_metadata image = Raise (ValidationError "ImageMetadata" fields).
Proof.
  unfold minimal_metadata, ImageMetadata.new.
  eexists. apply validated_errors.
  intros E. apply (f_equal (@List.length (string * string * string))) in E.
  rewrite !length_app in E. simpl in E. lia.
Qed.

(** C1. When the extraction raises, the fallback raises too, and the error
    leaves [create_image_metadata]; for a decoded 2 x 2 image and a path that
    is not on the disk the call ends in a validation error on [file_size]. *)
Theorem metadata_fallback_raises :
  (forall be cfg image file_path processed_size e,
      create_image_metadata_try be cfg image file_path processed_size = Raise e ->
      exists fields,
        create_image_metadata be cfg image file_path processed_size
        = Raise (ValidationError "ImageMetadata" fields)) /\
  create_image_metadata Fixtures.be default_config (Fixtures.photo "RGB")
    "/data/in/gone.png" None
  = Raise (ValidationError "ImageMetadata"
             [("file_size", "Giá trị phải lớn hơn 0", "value_error")]).
Proof.
  split.
  - intros be cfg image file_path processed_size e H.
    unfold create_image_metadata. rewrite H. simpl.
    apply minimal_metadata_raises.
  - vm_compute. reflexivity.
Qed.

End Metadata.

(** ** Documents: [Document] and [create_document] *)

Section Documents.
Import Pipeline.

Lemma has_non_space_truthy s : PyStr.has_non_space s = true -> PyStr.truthy s = true.
Proof.
  destruct s; [discriminate | reflexivity].
Qed.

(** A document that was constructed counts its pages. *)
Lemma Document_new_count be id title fp n pages st md d :
  Document.new be id title fp n pages st md = Ok d ->
  Document.num_pages d = Z.of_nat (List.length (Document.pages d)) /\
  Document.num_pages d = n /\ Document.pages d = pages /\ Document.status d = st.
Proof.
  unfold Document.new. intros H.
  apply validated_ok in H as [He ->]. simpl.
  repeat split.
  apply app_eq_nil in He as [_ He]. apply app_eq_nil in He as [Hn Hp].
  unfold Document.validate_num_pages in *.
  destruct (n <=? 0); [discriminate|].
  simpl in Hp. destruct (Z.of_nat (List.length pages) =? n) eqn:E.
  - apply Z.eqb_eq in E. congruence.
  - discriminate.
Qed.

Lemma update_page_references_count d :
  Document.num_pages (Document.update_page_references d) = Document.num_pages d /\
  List.length (Document.pages (Document.update_page_references d))
  = List.length (Document.pages d) /\
  Document.status (Document.update_page_references d) = Document.status d /\
  Document.id (Document.update_page_references d) = Document.id d.
Proof.
  unfold Document.update_page_references. simpl.
  now rewrite length_map.
Qed.

(** What [create_document] returns, when it returns. *)
Lemma create_document_inv be page fp did d :
  create_document be page fp did = Ok d ->
  exists d0,
    Document.new be
      (Some (str_or did ("doc_img_" ++ PyStr.of_int (time_time be))%string))
      (PyPath.name fp) (Page.image_path page) 1 [page] COMPLETED
      [ ("original_file", fp);
        ("processor", "ImageProcessor");
        ("created_at", time_strftime be);
        ("file_size", PyStr.of_int (ImageMetadata.file_size (Page.metadata page)));
        ("image_format", ImageMetadata.format (Page.metadata page));
        ("dimensions",
         (PyStr.of_int (ImageMetadata.width (Page.metadata page)) ++ "x"
          ++ PyStr.of_int (ImageMetadata.height (Page.metadata page)))%string) ]
    = Ok d0 /\
    d = Document.update_page_references d0.
Proof.
  unfold create_document.
  match goal with |- context [Document.new ?a ?b ?c ?e ?f ?g ?h ?i] =>
    destruct (Document.new a b c e f g h i) as [d0|e0] eqn:E end; simpl.
  - intros H. injection H as <-. exists d0. split; reflexivity.
  - discriminate.
Qed.

(** [create_document] returns whenever the file's name is not blank. *)
Lemma create_document_returns be page fp did :
  PyStr.has_non_space (PyPath.name fp) = true ->
  exists d, create_document be page fp did = Ok d.
Proof.
  intros Ht. unfold create_document, Document.new, Document.validate_title.
  rewrite Ht, (has_non_space_truthy _ Ht). simpl. eexists. reflexivity.
Qed.

(** C9 (amended). When the caller supplies no document_id, or an empty one,
    the id the orchestrator assigns is 'doc_img_' followed by the Unix time
    in whole seconds, in decimal; when the caller supplies a non-empty one,
    that exact id is used. *)
Theorem document_id_assignment be page fp did :
  PyStr.has_non_space (PyPath.name fp) = true ->
  exists d,
    create_document be page fp did = Ok d /\
    Document.id d =
      match did with
      | Some given =>
          if PyStr.truthy given then given
          else ("doc_img_" ++ PyStr.of_int (time_time be))%string
      | None => ("doc_img_" ++ PyStr.of_int (time_time be))%string
      end.
Proof.
  intros Ht.
  destruct (create_document_returns be page fp did Ht) as [d Hd].
  exists d. split; [assumption|].
  apply create_document_inv in Hd as (d0 & Hnew & ->).
  unfold Document.new in Hnew. apply validated_ok in Hnew as [_ ->].
  reflexivity.
Qed.

Lemma document_id_assignment_witness :
  (exists d,
      create_document Fixtures.be Fixtures.page Fixtures.upload (Some "invoice-7") = Ok d /\
      Document.id d = "invoice-7") /\
  (exists d,
      create_document Fixtures.be Fixtures.page Fixtures.upload None = Ok d /\
      Document.id d = "doc_img_1700000000").
Proof.
  split.
  - apply (document_id_assignment Fixtures.be Fixtures.page Fixtures.upload
             (Some "invoice-7") eq_refl).
  - apply (document_id_assignment Fixtures.be Fixtures.page Fixtures.upload
             None eq_refl).
Defined.

(** C9, as stated, fails: without a document_id the id is built from the
    clock, and what follows 'doc_' is not a hexadecimal token. *)
Lemma generated_id_is_a_timestamp :
  exists d,
    create_document Fixtures.be Fixtures.page Fixtures.upload None = Ok d /\
    Document.id d = "doc_img_1700000000" /\
    is_doc_hex_token (Document.id d) = false /\
    is_doc_hex_token (Document.default_id Fixtures.be) = true.
Proof.
  eexists. split; [vm_compute; reflexivity|].
  repeat split.
Qed.

End Documents.

(** ** The orchestrator *)

Section Runs.

Lemma outcome_bindR {A B} (m : run A) (k : A -> run B) :
  outcome (bindR m k)
  = match outcome m with Ok a => outcome (k a) | Raise e => Raise e end.
Proof.
  destruct m as [t [a|e]]; simpl; [|reflexivity].
  destruct (k a); reflexivity.
Qed.

Lemma steps_bindR {A B} (m : run A) (k : A -> run B) :
  steps (bindR m k)
  = steps m ++ match outcome m with Ok a => steps (k a) | Raise _ => [] end.
Proof.
  destruct m as [t [a|e]]; simpl.
  - destruct (k a); reflexivity.
  - now rewrite app_nil_r.
Qed.

Lemma outcome_catchR {A} (m : run A) (h : exn -> run A) :
  outcome (catchR m h)
  = match outcome m with Ok a => Ok a | Raise e => outcome (h e) end.
Proof.
  destruct m as [t [a|e]]; simpl; [reflexivity|].
  destruct (h e); reflexivity.
Qed.

Lemma steps_catchR {A} (m : run A) (h : exn -> run A) :
  steps (catchR m h)
  = steps m ++ match outcome m with Ok _ => [] | Raise e => steps (h e) end.
Proof.
  destruct m as [t [a|e]]; simpl.
  - now rewrite app_nil_r.
  - destruct (h e); reflexivity.
Qed.

Lemma outcome_call {A} s (r : result A) : outcome (call s r) = r.
Proof. reflexivity. Qed.

Lemma reraise_or_wrap_raises {A} fp e :
  exists e', outcome (@Pipeline.reraise_or_wrap A fp e) = Raise e'.
Proof.
  destruct e; simpl; eexists; reflexivity.
Qed.

End Runs.

Section Orchestrator.
Import Pipeline.

(** A document the pipeline returns was built by [create_document]. *)
Lemma process_with_inv pi be cfg fp ws fmt did d :
  outcome (process_with pi be cfg fp ws fmt did) = Ok d ->
  exists page, create_document be page fp did = Ok d.
Proof.
  unfold process_with. rewrite outcome_catchR.
  match goal with |- context [outcome ?m] => destruct (outcome m) as [d'|e] eqn:E end.
  - intros H. injection H as ->.
    rewrite outcome_bindR, outcome_call in E.
    destruct (ImageProcessor.validate_file be cfg fp); [|discriminate].
    rewrite outcome_bindR, outcome_call in E.
    destruct (ensure_directories be cfg ws); [|discriminate].
    rewrite outcome_bindR in E.
    destruct (outcome (pi be cfg fp ws fmt)) as [[[page sp] tp]|]; [|discriminate].
    rewrite outcome_bindR, outcome_call in E.
    exists page.
    destruct (create_document be page fp did); [|discriminate].
    simpl in E. assumption.
  - destruct (@reraise_or_wrap_raises Document.t fp e) as [e' ->]. discriminate.
Qed.

Lemma create_document_count be page fp did d :
  create_document be page fp did = Ok d ->
  Document.num_pages d = 1 /\ List.length (Document.pages d) = 1%nat /\
  Document.status d = COMPLETED.
Proof.
  intros H. apply create_document_inv in H as (d0 & Hnew & ->).
  apply Document_new_count in Hnew as (_ & Hn & Hp & Hs).
  destruct (update_page_references_count d0) as (-> & -> & -> & _).
  rewrite Hn, Hp, Hs. repeat split.
Qed.

(** C8. A Document can only be constructed with num_pages equal to the
    length of its pages list, and every Document the pipeline returns, from
    process or from process_sync, has num_pages = 1 and exactly one page. *)
Theorem document_counts_its_pages :
  (forall be id title fp n pages st md d,
      Document.new be id title fp n pages st md = Ok d ->
      Document.num_pages d = Z.of_nat (List.length (Document.pages d))) /\
  (forall be cfg fp ws fmt did d,
      outcome (process_sync be cfg fp ws fmt did) = Ok d \/
      outcome (process be cfg fp ws fmt did) = Ok d ->
      Document.num_pages d = 1 /\
      Document.num_pages d = Z.of_nat (List.length (Document.pages d))).
Proof.
  split.
  - intros be id title fp n pages st md d H.
    now apply Document_new_count in H.
  - intros be cfg fp ws fmt did d [H | H];
      apply process_with_inv in H as [page H];
      apply create_document_count in H as (Hn & Hl & _);
      rewrite Hn, Hl; split; reflexivity.
Qed.

Lemma document_counts_its_pages_witness :
  exists d,
    outcome (process_sync Fixtures.be default_config Fixtures.upload None None None)
    = Ok d /\
    Document.num_pages d = 1 /\
    Document.num_pages d = Z.of_nat (List.length (Document.pages d)).
Proof.
  eexists. split; [vm_compute; reflexivity|].
  apply (proj2 document_counts_its_pages Fixtures.be default_config
           Fixtures.upload None None None).
  left. vm_compute. reflexivity.
Defined.

End Orchestrator.

(** ** Thumbnails *)

Section Thumbnails.
Import Pipeline.

Ltac run_step H := rewrite outcome_bindR, outcome_call, H; cbv beta iota.

(** [create_thumbnail] never raises. *)
Lemma create_thumbnail_returns be cfg image name ws :
  exists r, ImageStorage.create_thumbnail be cfg image name ws = Ok r.
Proof.
  unfold ImageStorage.create_thumbnail.
  destruct (enable_thumbnails cfg); simpl; [|eexists; reflexivity].
  destruct (ImageStorage.create_thumbnail_try be cfg image name ws);
    simpl; eexists; reflexivity.
Qed.

(** A failure inside it becomes the value [None]. *)
Lemma create_thumbnail_absorbs be cfg image name ws e :
  ImageStorage.create_thumbnail_try be cfg image name ws = Raise e ->
  ImageStorage.create_thumbnail be cfg image name ws = Ok None.
Proof.
  intros H. unfold ImageStorage.create_thumbnail.
  destruct (enable_thumbnails cfg); simpl; [|reflexivity].
  now rewrite H.
Qed.

(** An ASCII character is part of no white space character of several
    bytes. *)
Lemma is_space2_ascii_l c d : (N_of_ascii c < 128)%N -> PyStr.is_space2 c d = false.
Proof.
  intros H. unfold PyStr.is_space2.
  replace (N_of_ascii c =? 194)%N with false by (symmetry; apply N.eqb_neq; lia).
  apply andb_false_r.
Qed.

Lemma is_space2_ascii_r c d : (N_of_ascii d < 128)%N -> PyStr.is_space2 c d = false.
Proof.
  intros H. unfold PyStr.is_space2. cbv zeta.
  replace (N_of_ascii d =? 133)%N with false by (symmetry; apply N.eqb_neq; lia).
  replace (N_of_ascii d =? 160)%N with false by (symmetry; apply N.eqb_neq; lia).
  reflexivity.
Qed.

Lemma is_space3_ascii_1 c c2 c3 :
  (N_of_ascii c < 128)%N -> PyStr.is_space3 c c2 c3 = false.
Proof.
  intros H. unfold PyStr.is_space3. cbv zeta.
  replace (N_of_ascii c =? 225)%N with false by (symmetry; apply N.eqb_neq; lia).
  replace (N_of_ascii c =? 226)%N with false by (symmetry; apply N.eqb_neq; lia).
  replace (N_of_ascii c =? 227)%N with false by (symmetry; apply N.eqb_neq; lia).
  btauto.
Qed.

Lemma is_space3_ascii_2 c1 c c3 :
  (N_of_ascii c < 128)%N -> PyStr.is_space3 c1 c c3 = false.
Proof.
  intros H. unfold PyStr.is_space3. cbv zeta.
  replace (N_of_ascii c =? 154)%N with false by (symmetry; apply N.eqb_neq; lia).
  replace (N_of_ascii c =? 128)%N with false by (symmetry; apply N.eqb_neq; lia).
  replace (N_of_ascii c =? 129)%N with false by (symmetry; apply N.eqb_neq; lia).
  btauto.
Qed.

Lemma is_space3_ascii_3 c1 c2 c :
  (N_of_ascii c < 128)%N -> PyStr.is_space3 c1 c2 c = false.
Proof.
  intros H. unfold PyStr.is_space3. cbv zeta.
  replace (128 <=? N_of_ascii c)%N with false by (symmetry; apply N.leb_gt; lia).
  reflexivity.
Qed.

(** A text that goes on with an ASCII character other than white space is
    not blank. *)
Lemma has_non_space_before_ascii_upto c n a b :
  (N_of_ascii c < 128)%N -> PyStr.is_space c = false ->
  (String.length a <= n)%nat ->
  PyStr.has_non_space (a ++ String c b) = true.
Proof.
  intros Hc Hs. revert a. induction n as [|n IH]; intros a Hn.
  - destruct a; [|simpl in Hn; lia].
    cbn [String.append PyStr.has_non_space].
    rewrite Hs.
    destruct b as [|c2 [|c3 r]]; try reflexivity;
      rewrite is_space2_ascii_l by assumption; try reflexivity.
    now rewrite is_space3_ascii_1.
  - destruct a as [|c1 a]; [apply (IH EmptyString); simpl; lia|].
    simpl in Hn. cbn [String.append PyStr.has_non_space].
    destruct (PyStr.is_space c1); [apply IH; lia|].
    destruct a as [|c2 a]; cbn [String.append].
    + rewrite is_space2_ascii_r by assumption.
      destruct b as [|c3 r]; [reflexivity|].
      now rewrite is_space3_ascii_2.
    + simpl in Hn.
      destruct (PyStr.is_space2 c1 c2); [apply IH; lia|].
      destruct a as [|c3 a]; cbn [String.append].
      * now rewrite is_space3_ascii_3.
      * simpl in Hn.
        destruct (PyStr.is_space3 c1 c2 c3); [apply IH; lia | reflexivity].
Qed.

Lemma has_non_space_before_ascii c a b :
  (N_of_ascii c < 128)%N -> PyStr.is_space c = false ->
  PyStr.has_non_space (a ++ String c b) = true.
Proof.
  intros Hc Hs. now apply (has_non_space_before_ascii_upto c (String.length a)).
Qed.

Lemma split_first c r :
  Ascii.eqb c "/" = false ->
  exists x l, PyPath.split (String c r) = String c x :: l.
Proof.
  intros H. cbn [PyPath.split]. rewrite H.
  destruct (PyPath.split r) as [|x l]; eexists; eexists; reflexivity.
Qed.

Lemma sep_join_mid l1 x l2 :
  exists a b, PyPath.sep_join (l1 ++ x :: l2) = (a ++ x ++ b)%string.
Proof.
  induction l1 as [|y l1 (a & b & IH)].
  - exists "". destruct l2 as [|z l2].
    + exists "". cbn. now rewrite append_empty_r.
    + eexists. cbn [app]. rewrite sep_join_cons. reflexivity.
  - destruct (l1 ++ x :: l2) as [|z l] eqn:E.
    + destruct l1; discriminate.
    + exists (y ++ "/" ++ a)%string, b.
      change ((y :: l1) ++ x :: l2) with (y :: (l1 ++ x :: l2)).
      rewrite E, sep_join_cons, IH. now rewrite !append_assoc.
Qed.

(** The text of [dir / file] holds the first character of a [file] that
    starts with a letter. *)
Lemma join_holds_first dir c r :
  Ascii.eqb c "/" = false -> Ascii.eqb c "." = false ->
  exists a b, PyPath.join dir (String c r) = (a ++ String c b)%string.
Proof.
  intros Hs Hd. unfold PyPath.join.
  destruct (split_first c r Hs) as (x & l & E).
  assert (P : PyPath.parse (String c r)
              = PyPath.mk "" (String c x :: filter PyPath.kept l)).
  { unfold PyPath.parse, PyPath.splitroot. cbn [PyStr.starts_with].
    rewrite Ascii.eqb_sym, Hs. cbn [andb]. cbv iota. rewrite E.
    cbn [filter]. unfold PyPath.kept at 1. cbn [PyStr.truthy String.eqb andb].
    rewrite Hd. reflexivity. }
  rewrite P. unfold PyPath.div, PyPath.to_str. cbn [PyPath.root PyPath.parts PyStr.truthy].
  destruct (sep_join_mid (PyPath.parts (PyPath.parse dir)) (String c x)
              (filter PyPath.kept l)) as (a & b & ->).
  rewrite <- append_assoc. cbn [String.append].
  rewrite truthy_append_r by reflexivity.
  eexists. eexists. reflexivity.
Qed.

(** The path of a saved artifact is not blank. *)
Lemma save_image_path be cfg image fp ws fmt sp sz :
  ImageStorage.save_image be cfg image fp ws fmt = Ok (sp, sz) ->
  PyStr.has_non_space sp = true.
Proof.
  unfold ImageStorage.save_image.
  destruct (ensure_directories be cfg ws); cbn [bind]; [|discriminate].
  destruct (ImageStorage.generate_filename be fp fmt) as [name|] eqn:G; cbn [bind];
    [|discriminate].
  apply generate_filename_inv in G as [_ ->].
  match goal with |- context [let '(_, _) := ?c in _] =>
    destruct c as [kw sf] end.
  match goal with |- context [Image_save be image ?p ?f ?k] =>
    destruct (Image_save be image p f k) end; cbn [bind try_except];
    [|discriminate].
  intros H. injection H as <- _.
  cbn [String.append].
  match goal with |- context [PyPath.join ?d (String "i" ?r)] =>
    destruct (join_holds_first d "i" r eq_refl eq_refl) as (pre & post & ->) end.
  now apply has_non_space_before_ascii.
Qed.

(** C6. Thumbnail failure is not fatal. When validation, decoding,
    normalization and the save of the main artifact succeed and the creation
    of the thumbnail raises, create_thumbnail returns None, and, the metadata
    being extracted and the file's name not being blank, process_sync returns
    a completed Document whose single page has thumbnail_path = None and
    points to the saved artifact. *)
Theorem thumbnail_failure_is_not_fatal
    be cfg fp ws fmt did img opt saved_path file_size e md :
  ImageProcessor.validate_file be cfg fp = Ok tt ->
  ensure_directories be cfg ws = Ok tt ->
  ImageProcessor.load_image be fp = Ok img ->
  ImageProcessor.optimize_image be cfg img = Ok opt ->
  ImageStorage.save_image be cfg opt fp ws (str_or fmt (default_output_format cfg))
    = Ok (saved_path, file_size) ->
  enable_thumbnails cfg = true ->
  ImageStorage.create_thumbnail_try be cfg opt (PyPath.name saved_path) ws = Raise e ->
  MetadataExtractor.create_image_metadata be cfg img fp (Some (PIL.size opt)) = Ok md ->
  PyStr.has_non_space (PyPath.name fp) = true ->
  ImageStorage.create_thumbnail be cfg opt (PyPath.name saved_path) ws = Ok None /\
  exists d p,
    outcome (process_sync be cfg fp ws fmt did) = Ok d /\
    Document.status d = COMPLETED /\
    Document.pages d = [p] /\
    Page.thumbnail_path p = None /\
    Page.image_path p = saved_path /\
    Document.file_path d = saved_path.
Proof.
  intros Hval Hdirs Hload Hopt Hsave Hen Hthumb Hmeta Htitle.
  pose proof (create_thumbnail_absorbs _ _ _ _ _ _ Hthumb) as Hnone.
  split; [assumption|].
  pose proof (save_image_path _ _ _ _ _ _ _ _ Hsave) as Hpath.
  set (page := Page.mk 1 None saved_path None
                 (ImageMetadata.set_file_size md file_size) None None).
  assert (Hsync : outcome (process_image_sync be cfg fp ws fmt)
                  = Ok (page, saved_path, None)).
  { unfold process_image_sync. rewrite outcome_catchR.
    run_step Hload. run_step Hopt. run_step Hsave.
    rewrite Hen. run_step Hnone. run_step Hmeta.
    rewrite outcome_bindR, outcome_call.
    unfold Page.new, Page.validate_image_path.
    rewrite Hpath, (has_non_space_truthy _ Hpath). reflexivity. }
  destruct (create_document_returns be page fp did Htitle) as [d Hd].
  pose proof Hd as Hinv.
  apply create_document_inv in Hinv as (d0 & Hnew & ->).
  apply Document_new_count in Hnew as Hcount.
  destruct Hcount as (_ & _ & Hp & Hs).
  unfold Document.new in Hnew. apply validated_ok in Hnew as [_ ->].
  eexists. eexists.
  split.
  - unfold process_sync, process_with. rewrite outcome_catchR.
    run_step Hval. run_step Hdirs.
    rewrite outcome_bindR, Hsync. cbv beta iota.
    run_step Hd. reflexivity.
  - simpl. repeat split.
Qed.

Lemma thumbnail_failure_is_not_fatal_witness :
  exists d p,
    outcome (process_sync Fixtures.be_no_thumbnail default_config Fixtures.upload
               None None None) = Ok d /\
    Document.status d = COMPLETED /\
    Document.pages d = [p] /\
    Page.thumbnail_path p = None /\
    Page.image_path p = "workspace_X/PlanoraAgent/image_store/img_a58703425487.webp" /\
    Document.file_path d = "workspace_X/PlanoraAgent/image_store/img_a58703425487.webp".
Proof.
  refine (proj2 (thumbnail_failure_is_not_fatal
            Fixtures.be_no_thumbnail default_config Fixtures.upload None None None
            (PIL.copy (Fixtures.photo "RGBA"))
            (ImageProcessor.to_rgb (PIL.copy (Fixtures.photo "RGBA")))
            "workspace_X/PlanoraAgent/image_store/img_a58703425487.webp" 1234
            (OSError "No space left on device")
            (ImageMetadata.mk 2 2 "RGBA" "Unknown" 4096 true None)
            _ _ _ _ _ _ _ _ _));
    vm_compute; reflexivity.
Defined.

End Thumbnails.

(** ** Output formats *)

Section OutputFormats.
Import Pipeline.

(** C5 (amended). The HTTP endpoint process_image rejects a requested
    output format other than exactly 'webp' or 'jpeg' (so 'jpg' as well) with
    an HTTP error before any step runs: the upload is not written and nothing
    is decoded, normalized or persisted. (The core ImageProcessor has no such
    check.) *)
Theorem endpoint_rejects_other_formats be cfg file ws fmt did :
  fmt <> Some "webp" ->
  fmt <> Some "jpeg" ->
  steps (Api.process_image be cfg file ws fmt did) = [] /\
  exists status detail,
    outcome (Api.process_image be cfg file ws fmt did)
    = Raise (HTTPException status detail) /\
    (status = 400 \/ status = 500).
Proof.
  intros Hw Hj.
  assert (Hfmt : forall f, fmt = Some f -> PyStr.mem f Api.supported_output = false).
  { intros f ->. unfold Api.supported_output, PyStr.mem. simpl.
    destruct (String.eqb_spec f "webp") as [->|_]; [congruence|].
    destruct (String.eqb_spec f "jpeg") as [->|_]; [congruence|].
    reflexivity. }
  unfold Api.process_image, Api.temp_file_path, Api.checks.
  destruct (Api.filename file) as [n|]; [destruct (PyStr.truthy n)|];
    try (split; [reflexivity | exists 400; eexists; split; [reflexivity | now left]]).
  destruct (Api.size file) as [sz|]; [destruct (sz =? 0)|];
    try (split; [reflexivity | exists 500; eexists; split; [reflexivity | now right]]);
    (destruct fmt as [f|]; [rewrite (Hfmt f eq_refl)|]);
    split; try reflexivity; exists 400; eexists; split; try reflexivity; now left.
Qed.

Lemma endpoint_rejects_other_formats_witness :
  steps (Api.process_image Fixtures.be default_config
           (Api.mkUpload (Some "photo.png") None (Done [])) None (Some "png") None) = [] /\
  exists status detail,
    outcome (Api.process_image Fixtures.be default_config
               (Api.mkUpload (Some "photo.png") None (Done [])) None (Some "png") None)
    = Raise (HTTPException status detail) /\
    (status = 400 \/ status = 500).
Proof.
  apply endpoint_rejects_other_formats; discriminate.
Defined.

(** C5, as stated, fails: asked for 'png', the pipeline validates the file,
    decodes it, normalizes it, saves it under the name of that format and
    returns a Document. *)
Lemma pipeline_accepts_any_output_format :
  PyStr.mem "png" ["webp"; "jpeg"; "jpg"] = false /\
  steps (process_sync Fixtures.be default_config Fixtures.upload None (Some "png") None)
  = [ Validate Fixtures.upload; EnsureDirectories; Decode Fixtures.upload;
      Normalize; PersistMain "png"; PersistThumbnail; ExtractMetadata;
      AssemblePage; AssembleDocument ] /\
  exists d,
    outcome (process_sync Fixtures.be default_config Fixtures.upload None
               (Some "png") None) = Ok d /\
    Document.file_path d = "workspace_X/PlanoraAgent/image_store/img_a58703425487.png".
Proof.
  split; [reflexivity|]. split; [vm_compute; reflexivity|].
  eexists. split; vm_compute; reflexivity.
Qed.

End OutputFormats.

(** * Further properties of the code *)

(** ** Validation: [validate_file] *)

Section Validation.
Import ImageProcessor.

(** validate_file accepts a path exactly when the path is not empty, names
    (as pathlib spells it) an existing regular file whose size is not zero,
    and has a supported extension. *)
Theorem validate_file_accepts be cfg fp :
  validate_file be cfg fp = Ok tt <->
  PyStr.truthy fp = true /\
  exists st,
    os_stat be (PyPath.str fp) = Some st /\ st_is_file st = true /\
    st_size st <> 0 /\
    is_supported_format cfg fp = true.
Proof.
  unfold validate_file. cbv zeta. split.
  - destruct (PyStr.truthy fp); cbn [negb]; cbv iota; [|discriminate].
    destruct (os_stat be (PyPath.str fp)) as [st|]; [|discriminate].
    destruct (st_is_file st) eqn:Ef; cbn [negb]; cbv iota; [|discriminate].
    destruct (st_size st =? 0) eqn:Es; [discriminate|].
    destruct (is_supported_format cfg fp) eqn:Ex; cbn [negb]; cbv iota;
      [|discriminate].
    intros _. split; [reflexivity|]. exists st.
    apply Z.eqb_neq in Es. auto.
  - intros (Ht & st & Hs & Hf & Hz & Hx).
    rewrite Ht, Hs, Hf, Hx. cbn [negb]. cbv iota.
    apply Z.eqb_neq in Hz. now rewrite Hz.
Qed.

Lemma validate_file_accepts_witness :
  validate_file Fixtures.be default_config Fixtures.upload = Ok tt.
Proof.
  apply (proj2 (validate_file_accepts Fixtures.be default_config Fixtures.upload)).
  split; [reflexivity|].
  exists (mkStat true 4096 "1700000000.0").
  repeat split. discriminate.
Defined.

Lemma validate_file_raise_inv be cfg fp e :
  validate_file be cfg fp = Raise e ->
  exists message,
    e = ImageProcessingError message
          (if PyStr.truthy fp then Some fp else None).
Proof.
  unfold validate_file. cbv zeta.
  destruct (PyStr.truthy fp); cbn [negb]; cbv iota.
  - destruct (os_stat be (PyPath.str fp)) as [st|].
    + destruct (st_is_file st); cbn [negb]; cbv iota.
      * destruct (st_size st =? 0).
        -- intros H. injection H as <-. eexists. reflexivity.
        -- destruct (is_supported_format cfg fp); cbn [negb]; cbv iota;
             [discriminate|].
           intros H. injection H as <-. eexists. reflexivity.
      * intros H. injection H as <-. eexists. reflexivity.
    + intros H. injection H as <-. eexists. reflexivity.
  - intros H. injection H as <-. eexists. reflexivity.
Qed.

(** Every refusal of validate_file is an ImageProcessingError, and it carries
    the offending path unless the path is empty. *)
Theorem validate_file_error_carries_path be cfg fp e :
  validate_file be cfg fp = Raise e ->
  exists message,
    e = ImageProcessingError message
          (if PyStr.truthy fp then Some fp else None).
Proof. exact (validate_file_raise_inv be cfg fp e). Qed.

Lemma validate_file_error_carries_path_witness :
  exists message,
    ImageProcessingError "File not found: /data/in/gone.png" (Some "/data/in/gone.png")
    = ImageProcessingError message (Some "/data/in/gone.png").
Proof.
  apply (validate_file_error_carries_path Fixtures.be default_config
           "/data/in/gone.png" _ eq_refl).
Defined.

End Validation.

(** ** Normalization: what [optimize_image] returns *)

Section NormalizationMore.
Import ImageProcessor.

Lemma Image_resize_inv be im sz flt out :
  Image_resize be im sz flt = Ok out ->
  1 <= fst sz /\ 1 <= snd sz /\
  PIL.width out = fst sz /\ PIL.height out = snd sz /\ PIL.mode out = PIL.mode im.
Proof.
  unfold Image_resize.
  destruct (fst sz <? 1) eqn:Ew; simpl; [discriminate|].
  destruct (snd sz <? 1) eqn:Eh; simpl; [discriminate|].
  intros H. injection H as <-. simpl.
  apply Z.ltb_ge in Ew, Eh. auto.
Qed.

(** Whatever optimize_image returns is in mode RGB, and an image that has at
    least one pixel in each direction still has after normalization. *)
Theorem optimize_image_yields_rgb be cfg image out :
  1 <= PIL.width image ->
  1 <= PIL.height image ->
  optimize_image be cfg image = Ok out ->
  PIL.mode out = "RGB" /\ 1 <= PIL.width out /\ 1 <= PIL.height out.
Proof.
  intros Hw Hh. rewrite optimize_image_unfold.
  destruct ((PIL.width image >? max_width cfg) || (PIL.height image >? max_height cfg)).
  - destruct (scaled_size _ _ _ _) as [sz|]; simpl; [|discriminate].
    destruct (Image_resize be (to_rgb image) sz PIL.LANCZOS) as [r|] eqn:E;
      simpl; [|discriminate].
    intros H. injection H as <-.
    apply Image_resize_inv in E as (H1 & H2 & -> & -> & ->).
    now rewrite to_rgb_mode.
  - simpl. intros H. injection H as <-.
    now rewrite to_rgb_mode, to_rgb_width, to_rgb_height.
Qed.

Lemma optimize_image_yields_rgb_witness :
  PIL.mode (PIL.mkImage "RGB" 5 3 None false []
              (resample Fixtures.be (to_rgb Fixtures.wide) (5, 3) PIL.LANCZOS)) = "RGB" /\
  1 <= 5 /\ 1 <= 3.
Proof.
  apply (optimize_image_yields_rgb Fixtures.be Fixtures.small_config Fixtures.wide);
    [simpl; lia | simpl; lia | vm_compute; reflexivity].
Defined.

(** Every failure of optimize_image is an ImageProcessingError without a
    file path. *)
Theorem optimize_image_error_is_typed be cfg image e :
  optimize_image be cfg image = Raise e ->
  exists message, e = ImageProcessingError message None.
Proof.
  unfold optimize_image.
  match goal with |- try_except ?b _ = _ -> _ => destruct b end; simpl.
  - discriminate.
  - intros H. injection H as <-. eexists. reflexivity.
Qed.

Lemma optimize_image_error_is_typed_witness :
  exists message,
    ImageProcessingError "Failed to optimize image: height and width must be > 0" None
    = ImageProcessingError message None.
Proof.
  apply (optimize_image_error_is_typed Fixtures.be default_config
           (PIL.mkImage "RGB" 5000 1 None false [] [])).
  vm_compute. reflexivity.
Defined.

Lemma to_rgb_idempotent image : to_rgb (to_rgb image) = to_rgb image.
Proof.
  unfold to_rgb at 1. rewrite to_rgb_mode. reflexivity.
Qed.

(** Normalizing twice is normalizing once, for an image within the bounds. *)
Theorem optimize_image_idempotent_within_bounds be cfg image :
  PIL.width image <= max_width cfg ->
  PIL.height image <= max_height cfg ->
  exists out,
    optimize_image be cfg image = Ok out /\
    optimize_image be cfg out = Ok out.
Proof.
  intros Hw Hh.
  assert (Hin : forall im,
             PIL.width im <= max_width cfg -> PIL.height im <= max_height cfg ->
             optimize_image be cfg im = Ok (to_rgb im)).
  { intros im Hw' Hh'. rewrite optimize_image_unfold.
    replace (PIL.width im >? max_width cfg) with false
      by (symmetry; rewrite Z.gtb_ltb; apply Z.ltb_ge; lia).
    replace (PIL.height im >? max_height cfg) with false
      by (symmetry; rewrite Z.gtb_ltb; apply Z.ltb_ge; lia).
    reflexivity. }
  exists (to_rgb image). split; [now apply Hin|].
  rewrite Hin by (now rewrite ?to_rgb_width, ?to_rgb_height).
  now rewrite to_rgb_idempotent.
Qed.

Lemma optimize_image_idempotent_within_bounds_witness :
  exists out,
    optimize_image Fixtures.be default_config (Fixtures.photo "P") = Ok out /\
    optimize_image Fixtures.be default_config out = Ok out.
Proof.
  apply (optimize_image_idempotent_within_bounds Fixtures.be default_config
           (Fixtures.photo "P")); simpl; lia.
Defined.

Lemma div255_exact i : 0 <= i <= 255 -> PIL.div255 (i * 255) = i.
Proof.
  intros H.
  assert (All : forallb (fun k => PIL.div255 (Z.of_nat k * 255) =? Z.of_nat k)
                        (seq 0 256) = true) by (vm_compute; reflexivity).
  rewrite forallb_forall in All.
  specialize (All (Z.to_nat i)).
  rewrite Z2Nat.id in All by lia.
  apply Z.eqb_eq, All, in_seq. lia.
Qed.

Lemma blend_opaque o i : 0 <= i <= 255 -> PIL.blend 255 o i = i.
Proof.
  intros H. unfold PIL.blend.
  replace (o * (255 - 255) + i * 255) with (i * 255) by lia.
  now apply div255_exact.
Qed.

(** Flattening an RGBA image within the bounds: a fully transparent pixel
    becomes white, and a fully opaque pixel keeps its colour. *)
Theorem rgba_flattening_extremes be cfg image k p :
  PIL.mode image = "RGBA" ->
  PIL.width image <= max_width cfg ->
  PIL.height image <= max_height cfg ->
  List.length (PIL.pixels image) = Z.to_nat (PIL.width image * PIL.height image) ->
  nth_error (PIL.pixels image) k = Some p ->
  0 <= PIL.red p <= 255 -> 0 <= PIL.green p <= 255 -> 0 <= PIL.blue p <= 255 ->
  exists out,
    optimize_image be cfg image = Ok out /\
    (PIL.alpha p = 0 -> nth_error (PIL.pixels out) k = Some PIL.white) /\
    (PIL.alpha p = 255 ->
     nth_error (PIL.pixels out) k = Some (PIL.Px (PIL.red p) (PIL.green p) (PIL.blue p) 255)).
Proof.
  intros Hm Hw Hh Hlen Hk Hr Hg Hb.
  exists (to_rgb image). split.
  - rewrite optimize_image_unfold.
    replace (PIL.width image >? max_width cfg) with false
      by (symmetry; rewrite Z.gtb_ltb; apply Z.ltb_ge; lia).
    replace (PIL.height image >? max_height cfg) with false
      by (symmetry; rewrite Z.gtb_ltb; apply Z.ltb_ge; lia).
    reflexivity.
  - split; intros Ha.
    + now apply (to_rgb_rgba_outside_mask image k p).
    + rewrite to_rgb_rgba by assumption.
      rewrite nth_error_map, Hk. simpl.
      unfold PIL.blend_px. rewrite Ha, !blend_opaque by assumption.
      reflexivity.
Qed.

Lemma rgba_flattening_extremes_witness :
  exists out,
    optimize_image Fixtures.be default_config (Fixtures.photo "RGBA") = Ok out /\
    (PIL.alpha (PIL.Px 10 20 30 255) = 0 -> nth_error (PIL.pixels out) 0 = Some PIL.white) /\
    (PIL.alpha (PIL.Px 10 20 30 255) = 255 ->
     nth_error (PIL.pixels out) 0 = Some (PIL.Px 10 20 30 255)).
Proof.
  apply (rgba_flattening_extremes Fixtures.be default_config (Fixtures.photo "RGBA")
           0%nat (PIL.Px 10 20 30 255));
    try reflexivity; simpl; lia.
Defined.

End NormalizationMore.

(** ** Paths of the artifacts *)

Section PathFacts.

Lemma rfind_dot_none s : has_char "." s = false -> PyPath.rfind_dot s = None.
Proof.
  induction s as [|c s IH]; simpl; [reflexivity|].
  intros H. apply orb_false_iff in H as [Hc Hs].
  now rewrite IH, Hc.
Qed.

Lemma rfind_dot_last a e :
  has_char "." e = false ->
  PyPath.rfind_dot (a ++ String "." e) = Some (String.length a).
Proof.
  intros He. induction a as [|c a IH]; simpl.
  - now rewrite rfind_dot_none.
  - now rewrite IH.
Qed.

Lemma substring_prefix a b : substring 0 (String.length a) (a ++ b) = a.
Proof.
  induction a as [|c a IH]; simpl.
  - destruct b; reflexivity.
  - now rewrite IH.
Qed.

(** The stem of [base.ext], for a non-empty base and a non-empty extension
    that holds no dot. *)
Lemma stem_of_base_ext base e :
  has_char "/" base = false -> has_char "/" e = false ->
  has_char "." e = false ->
  PyStr.truthy base = true -> PyStr.truthy e = true ->
  PyPath.stem (base ++ String "." e) = base.
Proof.
  intros Hb He Hd Tb Te. unfold PyPath.stem.
  rewrite name_plain.
  2:{ rewrite has_char_append; simpl; now rewrite Hb, He. }
  2:{ destruct base as [|c [|c' base]]; [discriminate| |]; discriminate. }
  rewrite rfind_dot_last by assumption.
  rewrite length_append. simpl String.length.
  destruct base as [|c base]; [discriminate|].
  destruct e as [|d e]; [discriminate|].
  replace ((0 <? String.length (String c base))%nat) with true by reflexivity.
  replace ((String.length (String c base)
            <? String.length (String c base) + S (String.length (String d e)) - 1)%nat)
    with true by (symmetry; apply Nat.ltb_lt; simpl; lia).
  simpl andb. cbv iota. apply substring_prefix.
Qed.

Lemma all_hex_no_char c s :
  PyStr.is_hex_digit c = false -> PyStr.all_hex s = true -> has_char c s = false.
Proof.
  intros Hc. induction s as [|d s IH]; simpl; [reflexivity|].
  intros H. apply andb_true_iff in H as [Hd Hs].
  rewrite IH by assumption.
  destruct (Ascii.eqb_spec d c) as [->|_]; [congruence | reflexivity].
Qed.

End PathFacts.

(** ** Storage: [save_image], [generate_thumbnail_filename], [create_thumbnail] *)

Section StorageMore.
Import ImageStorage.

Lemma generated_name_plain p m e :
  has_char "/" e = false ->
  has_char "/" ("img_" ++ file_hash p m ++ String "." e) = false.
Proof.
  intros He. cbn [String.append has_char Ascii.eqb Bool.eqb orb].
  rewrite has_char_append.
  rewrite (all_hex_no_char "/" _ eq_refl (file_hash_hex p m)).
  simpl. exact He.
Qed.

Lemma extension_plain c fmt :
  has_char c "jpg" = false ->
  has_char c (PyStr.lower fmt) = false ->
  has_char c (if String.eqb (PyStr.lower fmt) "jpeg" then "jpg" else PyStr.lower fmt)
  = false.
Proof.
  intros Hj Hf. now destruct (String.eqb (PyStr.lower fmt) "jpeg").
Qed.

(** 'jpg', 'jpeg' and their spellings in other letter cases name one
    artifact: the same file name, the JPEG encoder and the JPEG quality. *)
Theorem save_image_jpeg_alias be cfg image p ws fmt :
  PyStr.mem (PyStr.lower fmt) ["jpeg"; "jpg"] = true ->
  save_image be cfg image p ws fmt = save_image be cfg image p ws "jpeg".
Proof.
  intros H. unfold save_image.
  destruct (ensure_directories be cfg ws); cbn [bind]; [|reflexivity].
  rewrite !generate_filename_unfold.
  destruct (PyStr.encode _); cbn [bind]; [|reflexivity].
  rewrite H.
  assert (E : (if String.eqb (PyStr.lower fmt) "jpeg" then "jpg" else PyStr.lower fmt)
              = "jpg").
  { unfold PyStr.mem in H. cbn [existsb] in H.
    destruct (String.eqb (PyStr.lower fmt) "jpeg"); [reflexivity|].
    simpl in H. rewrite orb_false_r in H. now apply String.eqb_eq in H. }
  rewrite E. reflexivity.
Qed.

Lemma save_image_jpeg_alias_witness :
  save_image Fixtures.be default_config (Fixtures.photo "RGB") Fixtures.upload None "JPG"
  = save_image Fixtures.be default_config (Fixtures.photo "RGB") Fixtures.upload None "jpeg".
Proof.
  apply (save_image_jpeg_alias Fixtures.be default_config (Fixtures.photo "RGB")
           Fixtures.upload None "JPG" eq_refl).
Defined.

(** A saved artifact lies in the image store under the generated file
    name, which is what [Path(saved_path).name] gives back. *)
Theorem save_image_result be cfg image p ws fmt sp sz :
  has_char "/" (PyStr.lower fmt) = false ->
  save_image be cfg image p ws fmt = Ok (sp, sz) ->
  exists name,
    generate_filename be p fmt = Ok name /\
    sp = PyPath.join (get_image_store_path cfg ws) name /\
    PyPath.name sp = name.
Proof.
  intros Hf. unfold save_image.
  destruct (ensure_directories be cfg ws); cbn [bind]; [|discriminate].
  destruct (generate_filename be p fmt) as [name|] eqn:G; cbn [bind];
    [|discriminate].
  destruct (generate_filename_inv _ _ _ _ G) as [_ ->].
  match goal with |- context [let '(_, _) := ?c in _] =>
    destruct c as [kw sf] end.
  match goal with |- context [Image_save be image ?q ?f ?k] =>
    destruct (Image_save be image q f k) end; cbn [bind try_except];
    [|discriminate].
  intros H. injection H as <- _.
  eexists. split; [reflexivity|]. split; [reflexivity|].
  apply name_join; [|reflexivity|discriminate].
  apply generated_name_plain, extension_plain; [reflexivity | assumption].
Qed.

Lemma save_image_result_witness :
  exists name,
    generate_filename Fixtures.be Fixtures.upload "webp" = Ok name /\
    "workspace_X/PlanoraAgent/image_store/img_a58703425487.webp"
    = PyPath.join (get_image_store_path default_config None) name /\
    PyPath.name "workspace_X/PlanoraAgent/image_store/img_a58703425487.webp" = name.
Proof.
  apply (save_image_result Fixtures.be default_config (Fixtures.photo "RGB")
           Fixtures.upload None "webp" _ 1234 eq_refl).
  vm_compute. reflexivity.
Defined.

(** The thumbnail's file name depends on the source only: whatever the
    output format (one that holds no dot and no slash), the thumbnail of a
    generated name is 'thumb_img_', the 12 hash characters and '.jpg'. *)
Theorem thumbnail_name_ignores_format be p fmt name :
  has_char "/" (PyStr.lower fmt) = false ->
  has_char "." (PyStr.lower fmt) = false ->
  PyStr.truthy (PyStr.lower fmt) = true ->
  generate_filename be p fmt = Ok name ->
  generate_thumbnail_filename name
  = ("thumb_img_" ++ file_hash p (mtime_text be p) ++ ".jpg")%string.
Proof.
  intros Hs Hd Ht H. apply generate_filename_inv in H as [_ ->].
  change (("thumb_"
           ++ PyPath.stem
                (("img_" ++ file_hash p (mtime_text be p))
                 ++ String "."
                      (if String.eqb (PyStr.lower fmt) "jpeg" then "jpg"
                       else PyStr.lower fmt))
           ++ ".jpg")%string
          = ("thumb_img_" ++ file_hash p (mtime_text be p) ++ ".jpg")%string).
  rewrite stem_of_base_ext.
  - reflexivity.
  - cbn [String.append has_char Ascii.eqb Bool.eqb orb].
    apply (all_hex_no_char "/" _ eq_refl (file_hash_hex _ _)).
  - now apply extension_plain.
  - now apply extension_plain.
  - reflexivity.
  - now destruct (String.eqb (PyStr.lower fmt) "jpeg").
Qed.

Lemma thumbnail_name_ignores_format_witness :
  generate_thumbnail_filename "img_a58703425487.jpg"
  = ("thumb_img_" ++ file_hash Fixtures.upload (mtime_text Fixtures.be Fixtures.upload)
     ++ ".jpg")%string.
Proof.
  apply (thumbnail_name_ignores_format Fixtures.be Fixtures.upload "JPEG"
           "img_a58703425487.jpg" eq_refl eq_refl eq_refl).
  vm_compute. reflexivity.
Defined.

Lemma thumbnail_to_rgb_mode thumbnail :
  PyStr.mem (PIL.mode (thumbnail_to_rgb thumbnail)) ["RGBA"; "LA"; "P"] = false.
Proof.
  unfold thumbnail_to_rgb.
  destruct (PyStr.mem (PIL.mode thumbnail) ["RGBA"; "LA"; "P"]) eqn:E;
    [|assumption].
  destruct (String.eqb (PIL.mode thumbnail) "RGBA"); reflexivity.
Qed.

(** A thumbnail that was created: thumbnails are enabled, the image was
    shrunk into the square box with the Lanczos filter, it was handed to the
    JPEG encoder at quality 85 in a mode that is none of RGBA, LA and P, and
    the path returned is 'thumb_' + stem + '.jpg' in the thumbnail folder. *)
Theorem create_thumbnail_result be cfg image name ws t :
  create_thumbnail be cfg image name ws = Ok (Some t) ->
  enable_thumbnails cfg = true /\
  t = PyPath.join (get_thumbnail_path cfg ws)
        ("thumb_" ++ PyPath.stem name ++ ".jpg")%string /\
  exists thumb written,
    Image_thumbnail be (PIL.copy image) (thumbnail_size cfg, thumbnail_size cfg)
      PIL.LANCZOS = Ok thumb /\
    Image_save be (thumbnail_to_rgb thumb) t "JPEG" [("quality", 85); ("optimize", 1)]
    = Ok written /\
    PyStr.mem (PIL.mode (thumbnail_to_rgb thumb)) ["RGBA"; "LA"; "P"] = false.
Proof.
  unfold create_thumbnail, create_thumbnail_try.
  destruct (enable_thumbnails cfg); cbn [negb]; cbv iota; [|discriminate].
  destruct (mkdir be (get_thumbnail_path cfg ws)); cbn [bind try_except];
    [|discriminate].
  destruct (Image_thumbnail be (PIL.copy image) _ PIL.LANCZOS) as [thumb|] eqn:Et;
    cbn [bind try_except]; [|discriminate].
  match goal with |- context [Image_save be ?i ?q ?f ?k] =>
    destruct (Image_save be i q f k) as [w|] eqn:Es end;
    cbn [bind try_except]; [|discriminate].
  intros H. injection H as <-.
  split; [reflexivity|]. split; [reflexivity|].
  exists thumb, w. split; [reflexivity|]. split; [exact Es|].
  apply thumbnail_to_rgb_mode.
Qed.

Lemma create_thumbnail_result_witness :
  enable_thumbnails default_config = true /\
  "workspace_X/PlanoraAgent/image_store/thumbnails/thumb_img_a58703425487.jpg"
  = PyPath.join (get_thumbnail_path default_config None)
      ("thumb_" ++ PyPath.stem "img_a58703425487.webp" ++ ".jpg")%string /\
  exists thumb written,
    Image_thumbnail Fixtures.be (PIL.copy (Fixtures.photo "RGBA"))
      (thumbnail_size default_config, thumbnail_size default_config) PIL.LANCZOS
    = Ok thumb /\
    Image_save Fixtures.be (thumbnail_to_rgb thumb)
      "workspace_X/PlanoraAgent/image_store/thumbnails/thumb_img_a58703425487.jpg"
      "JPEG" [("quality", 85); ("optimize", 1)]
    = Ok written /\
    PyStr.mem (PIL.mode (thumbnail_to_rgb thumb)) ["RGBA"; "LA"; "P"] = false.
Proof.
  apply (create_thumbnail_result Fixtures.be default_config (Fixtures.photo "RGBA")
           "img_a58703425487.webp" None).
  vm_compute. reflexivity.
Defined.

End StorageMore.

(** ** Metadata: what is extracted, and when *)

Section MetadataMore.
Import MetadataExtractor.

Lemma extract_basic_metadata_eq be image fp :
  extract_basic_metadata be image fp
  = mkBasic (PIL.width image) (PIL.height image) (PIL.mode image)
      (match PIL.format image with
       | Some f => if PyStr.truthy f then f else "Unknown"
       | None => "Unknown"
       end)
      (match os_stat be fp with Some st => st_size st | None => 0 end)
      (_check_transparency image).
Proof.
  unfold extract_basic_metadata, os_path_exists, os_path_getsize, PIL.size.
  destruct (os_stat be fp); reflexivity.
Qed.

Lemma ImageMetadata_new_ok w h m f s t x :
  0 < w -> 0 < h -> 0 < s ->
  ImageMetadata.new w h m (Some f) s t x = Ok (ImageMetadata.mk w h m f s t x).
Proof.
  intros Hw Hh Hs. unfold ImageMetadata.new, ImageMetadata.validate_positive.
  apply Z.leb_gt in Hw, Hh, Hs. now rewrite Hw, Hh, Hs.
Qed.

Lemma create_image_metadata_ok_inv be cfg image fp w h md :
  create_image_metadata be cfg image fp (Some (w, h)) = Ok md ->
  0 < w /\ 0 < h /\
  exists st,
    os_stat be fp = Some st /\ 0 < st_size st /\
    md = ImageMetadata.mk w h (PIL.mode image)
           (match PIL.format image with
            | Some f => if PyStr.truthy f then f else "Unknown"
            | None => "Unknown"
            end)
           (st_size st) (_check_transparency image) (extract_exif_data cfg image).
Proof.
  unfold create_image_metadata, create_image_metadata_try.
  rewrite extract_basic_metadata_eq. cbn [b_mode b_format b_file_size b_has_transparency].
  destruct (ImageMetadata.new w h _ _ _ _ _) as [m0|e0] eqn:E; simpl.
  - intros H. injection H as ->.
    pose proof (ImageMetadata_new_positive _ _ _ _ _ _ _ _ E) as (Hw & Hh & Hs).
    unfold ImageMetadata.new in E. apply validated_ok in E as [_ ->].
    simpl in Hw, Hh, Hs.
    split; [assumption|]. split; [assumption|].
    destruct (os_stat be fp) as [st|]; [|lia].
    exists st. auto.
  - destruct (minimal_metadata_raises image) as [fields ->]. discriminate.
Qed.

(** create_image_metadata, given the processed size, returns exactly when
    both dimensions are positive and the original file is on the disk with a
    positive size; the value then reports the processed size, the mode and
    the transparency of the original image, and the size of the original
    file. *)
Theorem create_image_metadata_returns be cfg image fp w h md :
  create_image_metadata be cfg image fp (Some (w, h)) = Ok md <->
  0 < w /\ 0 < h /\
  exists st,
    os_stat be fp = Some st /\ 0 < st_size st /\
    md = ImageMetadata.mk w h (PIL.mode image)
           (match PIL.format image with
            | Some f => if PyStr.truthy f then f else "Unknown"
            | None => "Unknown"
            end)
           (st_size st) (_check_transparency image) (extract_exif_data cfg image).
Proof.
  split; [apply create_image_metadata_ok_inv|].
  unfold create_image_metadata, create_image_metadata_try.
  rewrite extract_basic_metadata_eq. cbn [b_mode b_format b_file_size b_has_transparency].
  intros (Hw & Hh & st & Hst & Hs & ->). rewrite Hst.
  now rewrite ImageMetadata_new_ok.
Qed.

Lemma create_image_metadata_returns_witness :
  create_image_metadata Fixtures.be default_config (Fixtures.photo "RGBA")
    Fixtures.upload (Some (2, 2))
  = Ok (ImageMetadata.mk 2 2 "RGBA" "PNG" 4096 true None).
Proof.
  apply (proj2 (create_image_metadata_returns Fixtures.be default_config
                  (Fixtures.photo "RGBA") Fixtures.upload 2 2 _)).
  split; [lia|]. split; [lia|].
  exists (mkStat true 4096 "1700000000.0").
  split; [reflexivity|]. split; [simpl; lia | reflexivity].
Defined.

Lemma tag_eqb_eq a b : tag_eqb a b = true -> a = b.
Proof.
  destruct a as [x|], b as [y|]; simpl; try discriminate; [|reflexivity].
  intros H. apply String.eqb_eq in H. now subst.
Qed.

Lemma dict_get_in {V} k (d : list (option string * V)) v :
  dict_get tag_eqb k d = Some v -> In (k, v) d.
Proof.
  induction d as [|[k' v'] d IH]; cbn [dict_get]; [discriminate|].
  destruct (dict_get tag_eqb k d) as [v0|].
  - intros H. injection H as ->. right. now apply IH.
  - destruct (tag_eqb k k') eqn:E; [|discriminate].
    apply tag_eqb_eq in E as ->.
    intros H. injection H as ->. now left.
Qed.

(** The keys collected along a list of distinct fields are distinct. *)
Lemma useful_keys {V} field_list (d : list (option string * V)) :
  NoDup field_list ->
  let l := flat_map (fun field =>
                       match dict_get tag_eqb (Some field) d with
                       | Some v => [(field, v)]
                       | None => []
                       end) field_list in
  NoDup (map fst l) /\
  forall k v, In (k, v) l -> In k field_list /\ dict_get tag_eqb (Some k) d = Some v.
Proof.
  induction 1 as [|f fs Hnot Hnd IH]; simpl.
  - split; [constructor | contradiction].
  - destruct IH as [IHn IHi]. split.
    + destruct (dict_get tag_eqb (Some f) d) as [v|]; simpl; [|assumption].
      constructor; [|assumption].
      intros Hin. apply in_map_iff in Hin as ([k v'] & Hk & Hin).
      simpl in Hk. subst k. apply IHi in Hin. tauto.
    + intros k v Hin. apply in_app_or in Hin as [Hin | Hin].
      * destruct (dict_get tag_eqb (Some f) d) as [v0|] eqn:E; simpl in Hin;
          [|contradiction].
        destruct Hin as [Hin | []]. inversion Hin; subst. auto.
      * apply IHi in Hin. tauto.
Qed.

Lemma useful_fields_distinct : NoDup useful_fields.
Proof.
  unfold useful_fields.
  repeat (constructor; [simpl; intuition discriminate|]). constructor.
Qed.

(** What the first loop keeps of the table. *)
Lemma exif_kept tag v (exif_dict : list (option string * PIL.exif_value)) :
  In (tag, v)
     (flat_map (fun kv =>
                  let '(tag_name, value) := kv in
                  let value := exif_text value in
                  if exif_skipped value then [] else [(tag_name, value)])
               exif_dict) ->
  exists v0,
    In (tag, v0) exif_dict /\ v = exif_text v0 /\ exif_skipped v = false.
Proof.
  intros H. apply in_flat_map in H as ([t v0] & Hin & H).
  cbv zeta in H. destruct (exif_skipped (exif_text v0)) eqn:E; [contradiction|].
  destruct H as [H | []]. inversion H; subst. exists v0. auto.
Qed.

Lemma exif_text_not_bytes v b : exif_text v <> PIL.ExifBytes b.
Proof.
  destruct v as [s0|b0|n|o]; simpl; try discriminate.
  destruct (PyStr.encodable b0); discriminate.
Qed.

(** The EXIF mapping is never empty: extract_exif_data returns None when the
    extraction is disabled, and what it returns has at least one entry and
    only keys of the allow-list, each once. Each value is a value the image's
    own table holds under that name, a bytes value turned into text; a text
    kept is at most 200 characters long, whatever its size in bytes, and a
    value of another type is kept as it is. *)
Theorem extract_exif_data_shape cfg image l :
  extract_exif_data cfg image = Some l ->
  enable_exif_extraction cfg = true /\
  l <> [] /\
  NoDup (map fst l) /\
  forall k v,
    In (k, v) l ->
    In k useful_fields /\
    (exists v0, In (Some k, v0) (PIL.exif image) /\ v = exif_text v0) /\
    (forall s, v = PIL.ExifStr s -> (PyStr.len s <= 200)%nat) /\
    (forall b, v <> PIL.ExifBytes b).
Proof.
  unfold extract_exif_data.
  destruct (enable_exif_extraction cfg); cbn [negb]; cbv iota; [|discriminate].
  destruct (PIL.exif image) as [|kv d] eqn:Ex; [discriminate|].
  rewrite <- Ex.
  match goal with
  | |- context [dict_get tag_eqb _ ?data] =>
      pose proof (useful_keys useful_fields data useful_fields_distinct) as [Hn Hi]
  end.
  cbv zeta in Hn, Hi.
  destruct (flat_map _ useful_fields) as [|x l0] eqn:El; cbv iota;
    [discriminate|].
  intros H. injection H as <-.
  split; [reflexivity|]. split; [discriminate|]. split; [assumption|].
  intros k v Hin. apply Hi in Hin as [Hk Hg].
  apply dict_get_in, exif_kept in Hg as (v0 & Hin & -> & Hskip).
  split; [assumption|]. split; [now exists v0|]. split.
  - intros s0 E. rewrite E in Hskip. simpl in Hskip.
    apply Nat.ltb_ge in Hskip. exact Hskip.
  - intros b. apply exif_text_not_bytes.
Qed.

Lemma extract_exif_data_shape_witness :
  enable_exif_extraction default_config = true /\
  Fixtures.tagged_exif <> [] /\
  NoDup (map fst Fixtures.tagged_exif) /\
  forall k v,
    In (k, v) Fixtures.tagged_exif ->
    In k useful_fields /\
    (exists v0, In (Some k, v0) (PIL.exif Fixtures.tagged) /\ v = exif_text v0) /\
    (forall s, v = PIL.ExifStr s -> (PyStr.len s <= 200)%nat) /\
    (forall b, v <> PIL.ExifBytes b).
Proof.
  apply (extract_exif_data_shape default_config Fixtures.tagged).
  vm_compute. reflexivity.
Defined.

(** A text of 150 characters that takes 300 bytes is kept, and one of 201
    characters is not. *)
Example exif_length_in_characters :
  PyStr.len Fixtures.long_make = 150%nat /\
  String.length Fixtures.long_make = 300%nat /\
  PyStr.len (Fixtures.times 201 "a") = 201%nat /\
  extract_exif_data default_config Fixtures.tagged = Some Fixtures.tagged_exif.
Proof.
  repeat split; vm_compute; reflexivity.
Qed.

End MetadataMore.

Section Advice.
Import ImageProcessor MetadataAdvice.

(** The recommendations agree with the normalization: when optimize_image
    returns, either the image exceeds the bounds, needs_resize is set and
    new_width and new_height are the very dimensions of the normalized image,
    or it is within the bounds, needs_resize is not set and the normalized
    image has the dimensions of the original. *)
Theorem recommendations_agree_with_optimize be cfg image out :
  optimize_image be cfg image = Ok out ->
  (needs_resize (get_processing_recommendations cfg image) = true /\
   new_width (get_processing_recommendations cfg image) = Some (PIL.width out) /\
   new_height (get_processing_recommendations cfg image) = Some (PIL.height out) /\
   (PIL.width image > max_width cfg \/ PIL.height image > max_height cfg))
  \/
  (needs_resize (get_processing_recommendations cfg image) = false /\
   new_width (get_processing_recommendations cfg image) = None /\
   new_height (get_processing_recommendations cfg image) = None /\
   PIL.width out = PIL.width image /\ PIL.height out = PIL.height image /\
   PIL.width image <= max_width cfg /\ PIL.height image <= max_height cfg).
Proof.
  rewrite optimize_image_unfold.
  unfold get_processing_recommendations, PIL.size.
  destruct ((PIL.width image >? max_width cfg) || (PIL.height image >? max_height cfg))
    eqn:G.
  - destruct (scaled_size _ _ _ _) as [sz|]; cbn [bind try_except]; [|discriminate].
    destruct (Image_resize be (to_rgb image) sz PIL.LANCZOS) as [r|] eqn:E;
      cbn [try_except]; [|discriminate].
    intros H. injection H as <-.
    apply Image_resize_inv in E as (_ & _ & -> & -> & _).
    left.
    destruct (PyStr.mem (PIL.mode image) ["RGBA"; "LA"; "P"]); cbn;
      (repeat split; try reflexivity);
      apply orb_true_iff in G; rewrite !Z.gtb_ltb, !Z.ltb_lt in G; lia.
  - cbn [bind try_except]. intros H. injection H as <-.
    right. rewrite to_rgb_width, to_rgb_height.
    apply orb_false_iff in G. rewrite !Z.gtb_ltb, !Z.ltb_ge in G.
    destruct (PyStr.mem (PIL.mode image) ["RGBA"; "LA"; "P"]); cbn;
      repeat split; try reflexivity; lia.
Qed.

Lemma recommendations_agree_with_optimize_witness :
  needs_resize (get_processing_recommendations Fixtures.small_config Fixtures.wide)
  = true /\
  new_width (get_processing_recommendations Fixtures.small_config Fixtures.wide)
  = Some 5 /\
  new_height (get_processing_recommendations Fixtures.small_config Fixtures.wide)
  = Some 3.
Proof.
  destruct (recommendations_agree_with_optimize Fixtures.be Fixtures.small_config
              Fixtures.wide
              (PIL.mkImage "RGB" 5 3 None false []
                 (resample Fixtures.be (to_rgb Fixtures.wide) (5, 3) PIL.LANCZOS)))
    as [(H1 & H2 & H3 & _) | (H1 & _)].
  - vm_compute. reflexivity.
  - repeat split; assumption.
  - vm_compute in H1. discriminate.
Defined.

End Advice.

Section Copies.
Import ImageStorage.

(** copy_original_file never raises. It returns None when the source (as
    pathlib spells it) is not on the disk, and a path it returns is that of a copy made in the
    image store under the source's own file name prefixed 'original_'. *)
Theorem copy_original_file_result be copy2 cfg src ws :
  (exists r, copy_original_file be copy2 cfg src ws = Ok r) /\
  (os_stat be (PyPath.str src) = None ->
   copy_original_file be copy2 cfg src ws = Ok None) /\
  (forall dest,
      copy_original_file be copy2 cfg src ws = Ok (Some dest) ->
      os_stat be (PyPath.str src) <> None /\
      copy2 src dest = Ok tt /\
      dest = PyPath.join (get_image_store_path cfg ws)
               ("original_" ++ PyPath.name src)%string /\
      PyPath.name dest = ("original_" ++ PyPath.name src)%string).
Proof.
  unfold copy_original_file, os_path_exists. cbv zeta.
  destruct (ensure_directories be cfg ws) as [u|]; cbn [bind try_except].
  - destruct (os_stat be (PyPath.str src)) as [st|]; cbn [negb]; cbv iota.
    + destruct (copy2 src _) as [[]|] eqn:Ec; cbn [bind try_except].
      * split; [eexists; reflexivity|]. split; [discriminate|].
        intros dest H. injection H as <-.
        split; [discriminate|]. split; [exact Ec|]. split; [reflexivity|].
        apply name_join; [|reflexivity|discriminate].
        cbn [String.append has_char Ascii.eqb Bool.eqb orb].
        apply name_no_slash.
      * split; [eexists; reflexivity|]. split; [discriminate|]. discriminate.
    + split; [eexists; reflexivity|]. split; [reflexivity|]. discriminate.
  - split; [eexists; reflexivity|]. split; [reflexivity|]. discriminate.
Qed.

Lemma copy_original_file_result_witness :
  copy_original_file Fixtures.be (fun _ _ => Ok tt) default_config
    "/data/in/gone.png" None = Ok None /\
  copy_original_file Fixtures.be (fun _ _ => Ok tt) default_config
    Fixtures.upload None
  = Ok (Some "workspace_X/PlanoraAgent/image_store/original_photo.png").
Proof.
  split.
  - apply (proj1 (proj2 (copy_original_file_result Fixtures.be (fun _ _ => Ok tt)
                           default_config "/data/in/gone.png" None))).
    reflexivity.
  - vm_compute. reflexivity.
Defined.

End Copies.

(** ** The orchestrator: order, errors and result *)

Section OrchestratorMore.
Import Pipeline.

Lemma steps_call {A} s (r : result A) : steps (call s r) = [s].
Proof. reflexivity. Qed.

Lemma process_with_error_is_typed pi be cfg fp ws fmt did e :
  outcome (process_with pi be cfg fp ws fmt did) = Raise e ->
  exists message path, e = ImageProcessingError message path.
Proof.
  unfold process_with. rewrite outcome_catchR.
  match goal with |- context [outcome ?m] => destruct (outcome m) as [d|e0] end;
    [discriminate|].
  destruct e0; simpl; intros H; injection H as <-; eexists; eexists; reflexivity.
Qed.

(** Every failure of process and of process_sync is an
    ImageProcessingError. *)
Theorem pipeline_error_is_typed be cfg fp ws fmt did e :
  outcome (process_sync be cfg fp ws fmt did) = Raise e \/
  outcome (process be cfg fp ws fmt did) = Raise e ->
  exists message path, e = ImageProcessingError message path.
Proof.
  intros [H | H]; eapply process_with_error_is_typed; exact H.
Qed.

Lemma pipeline_error_is_typed_witness :
  exists message path,
    ImageProcessingError "File not found: /data/in/gone.png" (Some "/data/in/gone.png")
    = ImageProcessingError message path.
Proof.
  apply (pipeline_error_is_typed Fixtures.be default_config "/data/in/gone.png"
           None None None).
  left. vm_compute. reflexivity.
Defined.

(** What a stage-by-stage reading of process_image_sync gives. *)
Lemma process_image_sync_cases be cfg fp ws fmt :
  let f := str_or fmt (default_output_format cfg) in
  let thumb := if enable_thumbnails cfg then [PersistThumbnail] else [] in
  let m := process_image_sync be cfg fp ws fmt in
  (exists e, ImageProcessor.load_image be fp = Raise e /\
     steps m = [Decode fp] /\ is_ok (outcome m) = false) \/
  (exists img, ImageProcessor.load_image be fp = Ok img /\
   ((exists e, ImageProcessor.optimize_image be cfg img = Raise e /\
       steps m = [Decode fp; Normalize] /\ is_ok (outcome m) = false) \/
    (exists opt, ImageProcessor.optimize_image be cfg img = Ok opt /\
     ((exists e, ImageStorage.save_image be cfg opt fp ws f = Raise e /\
         steps m = [Decode fp; Normalize; PersistMain f] /\
         is_ok (outcome m) = false) \/
      (exists sp sz tp,
         ImageStorage.save_image be cfg opt fp ws f = Ok (sp, sz) /\
         (if enable_thumbnails cfg
          then ImageStorage.create_thumbnail be cfg opt (PyPath.name sp) ws
          else Ok None) = Ok tp /\
         ((exists e,
             MetadataExtractor.create_image_metadata be cfg img fp
               (Some (PIL.size opt)) = Raise e /\
             steps m = [Decode fp; Normalize; PersistMain f] ++ thumb
                       ++ [ExtractMetadata] /\
             is_ok (outcome m) = false) \/
          (exists md,
             MetadataExtractor.create_image_metadata be cfg img fp
               (Some (PIL.size opt)) = Ok md /\
             steps m = [Decode fp; Normalize; PersistMain f] ++ thumb
                       ++ [ExtractMetadata; AssemblePage] /\
             outcome m
             = Ok (Page.mk 1 None sp tp (ImageMetadata.set_file_size md sz)
                     None None, sp, tp)))))))).
Proof.
  cbv zeta. unfold process_image_sync.
  rewrite steps_catchR, outcome_catchR.
  rewrite steps_bindR, outcome_bindR, steps_call, outcome_call.
  destruct (ImageProcessor.load_image be fp) as [img|e1]; cbv beta iota.
  2:{ left. exists e1. repeat split. }
  right. exists img. split; [reflexivity|].
  rewrite steps_bindR, outcome_bindR, steps_call, outcome_call.
  destruct (ImageProcessor.optimize_image be cfg img) as [opt|e2]; cbv beta iota.
  2:{ left. exists e2. repeat split. }
  right. exists opt. split; [reflexivity|].
  rewrite steps_bindR, outcome_bindR, steps_call, outcome_call.
  destruct (ImageStorage.save_image be cfg opt fp ws _) as [[sp sz]|e3] eqn:Es;
    cbv beta iota.
  2:{ left. exists e3. repeat split. }
  right.
  rewrite steps_bindR, outcome_bindR.
  assert (Ht : exists tp,
             (if enable_thumbnails cfg
              then ImageStorage.create_thumbnail be cfg opt (PyPath.name sp) ws
              else Ok None) = Ok tp /\
             steps (if enable_thumbnails cfg
                    then call PersistThumbnail
                           (ImageStorage.create_thumbnail be cfg opt (PyPath.name sp) ws)
                    else ret None)
             = (if enable_thumbnails cfg then [PersistThumbnail] else []) /\
             outcome (if enable_thumbnails cfg
                      then call PersistThumbnail
                             (ImageStorage.create_thumbnail be cfg opt (PyPath.name sp) ws)
                      else ret None)
             = Ok tp).
  { destruct (enable_thumbnails cfg).
    - destruct (create_thumbnail_returns be cfg opt (PyPath.name sp) ws) as [tp Htp].
      exists tp. rewrite Htp. repeat split.
    - exists None. repeat split. }
  destruct Ht as (tp & Htp & Hsteps & Hout).
  rewrite Hsteps, Hout. cbv beta iota.
  exists sp, sz, tp. split; [reflexivity|]. split; [exact Htp|].
  rewrite steps_bindR, outcome_bindR, steps_call, outcome_call.
  destruct (MetadataExtractor.create_image_metadata be cfg img fp _) as [md|e4];
    cbv beta iota.
  2:{ left. exists e4. split; [reflexivity|].
      split; [|reflexivity].
      destruct (enable_thumbnails cfg); reflexivity. }
  right. exists md. split; [reflexivity|].
  assert (Hp : Page.new 1 None sp tp (ImageMetadata.set_file_size md sz)
               = Ok (Page.mk 1 None sp tp (ImageMetadata.set_file_size md sz) None None)).
  { pose proof (save_image_path _ _ _ _ _ _ _ _ Es) as Hpath.
    unfold Page.new, Page.validate_image_path.
    now rewrite Hpath, (has_non_space_truthy _ Hpath). }
  rewrite steps_bindR, outcome_bindR, steps_call, outcome_call, Hp.
  cbv beta iota. split; [|reflexivity].
  destruct (enable_thumbnails cfg); reflexivity.
Qed.

End OrchestratorMore.

Section OrchestratorOrder.
Import Pipeline.

Lemma steps_reraise_or_wrap {A} fp e : steps (@reraise_or_wrap A fp e) = [].
Proof. destruct e; reflexivity. Qed.

(** The steps and the outcome of process_sync, from those of
    process_image_sync. *)
Lemma process_sync_steps be cfg fp ws fmt did :
  steps (process_sync be cfg fp ws fmt did)
  = match ImageProcessor.validate_file be cfg fp with
    | Raise _ => [Validate fp]
    | Ok _ =>
        match ensure_directories be cfg ws with
        | Raise _ => [Validate fp; EnsureDirectories]
        | Ok _ =>
            [Validate fp; EnsureDirectories]
            ++ steps (process_image_sync be cfg fp ws fmt)
            ++ (if is_ok (outcome (process_image_sync be cfg fp ws fmt))
                then [AssembleDocument] else [])
        end
    end.
Proof.
  unfold process_sync, process_with.
  rewrite steps_catchR.
  match goal with |- _ ++ ?h = _ =>
    assert (Hh : h = []) end.
  { match goal with |- context [outcome ?m] => destruct (outcome m) end;
      [reflexivity | apply steps_reraise_or_wrap]. }
  rewrite Hh, app_nil_r. clear Hh.
  rewrite steps_bindR, steps_call, outcome_call.
  destruct (ImageProcessor.validate_file be cfg fp); [|reflexivity].
  rewrite steps_bindR, steps_call, outcome_call.
  destruct (ensure_directories be cfg ws); [|reflexivity].
  rewrite steps_bindR.
  destruct (outcome (process_image_sync be cfg fp ws fmt)) as [[[page sp] tp]|];
    cbv beta iota; cbn [is_ok].
  - rewrite steps_bindR, steps_call, outcome_call.
    destruct (create_document be page fp did); cbn [app steps ret fst];
      rewrite ?app_nil_r; reflexivity.
  - reflexivity.
Qed.

Lemma process_sync_outcome_ok be cfg fp ws fmt did d :
  outcome (process_sync be cfg fp ws fmt did) = Ok d <->
  ImageProcessor.validate_file be cfg fp = Ok tt /\
  ensure_directories be cfg ws = Ok tt /\
  exists page sp tp,
    outcome (process_image_sync be cfg fp ws fmt) = Ok (page, sp, tp) /\
    create_document be page fp did = Ok d.
Proof.
  unfold process_sync, process_with. rewrite outcome_catchR.
  rewrite outcome_bindR, outcome_call.
  destruct (ImageProcessor.validate_file be cfg fp) as [[]|e1].
  2:{ destruct (@reraise_or_wrap_raises Document.t fp e1) as [e' ->].
      split; [discriminate | intros [H _]; discriminate]. }
  rewrite outcome_bindR, outcome_call.
  destruct (ensure_directories be cfg ws) as [[]|e2].
  2:{ destruct (@reraise_or_wrap_raises Document.t fp e2) as [e' ->].
      split; [discriminate | intros (_ & H & _); discriminate]. }
  rewrite outcome_bindR.
  destruct (outcome (process_image_sync be cfg fp ws fmt)) as [[[page sp] tp]|e3].
  2:{ destruct (@reraise_or_wrap_raises Document.t fp e3) as [e' ->].
      split; [discriminate | intros (_ & _ & pg & s & t & H & _); discriminate]. }
  rewrite outcome_bindR, outcome_call.
  destruct (create_document be page fp did) as [d0|e4] eqn:Ed.
  - cbn [outcome ret snd]. split.
    + intros H. injection H as <-. repeat split. exists page, sp, tp. auto.
    + intros (_ & _ & pg & s & t & H & Hd). injection H as <- <- <-.
      rewrite Ed in Hd. exact Hd.
  - destruct (@reraise_or_wrap_raises Document.t fp e4) as [e' ->].
    split; [discriminate|].
    intros (_ & _ & pg & s & t & H & Hd). injection H as <- <- <-.
    rewrite Ed in Hd. discriminate.
Qed.

(** The stages run in one fixed order: the steps of every run of
    process_sync are an initial part of validate, ensure directories, decode,
    normalize, persist the main artifact, persist the thumbnail (when
    enabled), extract metadata, assemble the page, assemble the document; a
    run that returns a Document went through all of them. *)
Theorem pipeline_steps_in_order be cfg fp ws fmt did :
  exists rest,
    pipeline_order cfg fp fmt = steps (process_sync be cfg fp ws fmt did) ++ rest /\
    (is_ok (outcome (process_sync be cfg fp ws fmt did)) = true -> rest = []).
Proof.
  rewrite process_sync_steps. unfold pipeline_order.
  destruct (outcome (process_sync be cfg fp ws fmt did)) as [d|e] eqn:Eo; cbn [is_ok].
  - apply process_sync_outcome_ok in Eo as (-> & -> & page & sp & tp & Hs & _).
    rewrite Hs. cbn [is_ok].
    exists []. split; [|reflexivity].
    destruct (process_image_sync_cases be cfg fp ws fmt)
      as [(e & _ & _ & H) | (img & _ & [(e & _ & _ & H) | (opt & _ &
           [(e & _ & _ & H) | (sp' & sz & tp' & _ & _ &
             [(e & _ & _ & H) | (md & _ & Hst & _)])])])];
      try (rewrite Hs in H; discriminate).
    rewrite Hst. destruct (enable_thumbnails cfg); reflexivity.
  - destruct (ImageProcessor.validate_file be cfg fp);
      [|eexists; split; [reflexivity | discriminate]].
    destruct (ensure_directories be cfg ws);
      [|eexists; split; [reflexivity | discriminate]].
    destruct (process_image_sync_cases be cfg fp ws fmt)
      as [(e0 & _ & Hst & H) | (img & _ & [(e0 & _ & Hst & H) | (opt & _ &
           [(e0 & _ & Hst & H) | (sp' & sz & tp' & _ & _ &
             [(e0 & _ & Hst & H) | (md & _ & Hst & H)])])])];
      rewrite Hst; try rewrite H; try (rewrite H; cbn [is_ok]);
      destruct (enable_thumbnails cfg);
      (eexists; split; [cbn; reflexivity | discriminate]).
Qed.

End OrchestratorOrder.

Section OrchestratorResult.
Import Pipeline.

Lemma load_image_ok be fp img :
  ImageProcessor.load_image be fp = Ok img ->
  exists raw, Image_open be fp = Ok raw /\ img = PIL.copy raw.
Proof.
  unfold ImageProcessor.load_image.
  destruct (Image_open be fp) as [raw|e].
  - intros H. injection H as <-. exists raw. auto.
  - destruct e; discriminate.
Qed.

(** The main artifact is written only after the file was validated, decoded
    and normalized: a run in which one of these stages fails has no
    PersistMain step. *)
Theorem nothing_persisted_before_normalization be cfg fp ws fmt did f :
  In (PersistMain f) (steps (process_sync be cfg fp ws fmt did)) ->
  ImageProcessor.validate_file be cfg fp = Ok tt /\
  exists img opt,
    ImageProcessor.load_image be fp = Ok img /\
    ImageProcessor.optimize_image be cfg img = Ok opt.
Proof.
  rewrite process_sync_steps.
  destruct (ImageProcessor.validate_file be cfg fp) as [[]|].
  2:{ simpl. intros [H | []]. discriminate. }
  destruct (ensure_directories be cfg ws).
  2:{ simpl. intros [H | [H | []]]; discriminate. }
  intros Hin. split; [reflexivity|].
  destruct (process_image_sync_cases be cfg fp ws fmt)
    as [(e0 & _ & Hst & H) | (img & Hl & [(e0 & _ & Hst & H) | (opt & Ho & _)])].
  - rewrite Hst, H in Hin. simpl in Hin.
    destruct Hin as [E | [E | [E | []]]]; discriminate.
  - rewrite Hst, H in Hin. simpl in Hin.
    destruct Hin as [E | [E | [E | [E | []]]]]; discriminate.
  - exists img, opt. auto.
Qed.

Lemma nothing_persisted_before_normalization_witness :
  ImageProcessor.validate_file Fixtures.be default_config Fixtures.upload = Ok tt /\
  exists img opt,
    ImageProcessor.load_image Fixtures.be Fixtures.upload = Ok img /\
    ImageProcessor.optimize_image Fixtures.be default_config img = Ok opt.
Proof.
  apply (nothing_persisted_before_normalization Fixtures.be default_config
           Fixtures.upload None None None "webp").
  vm_compute. tauto.
Defined.

Lemma process_sync_ok_inv be cfg fp ws fmt did d :
  outcome (process_sync be cfg fp ws fmt did) = Ok d ->
  exists raw opt sp sz tp,
    Image_open be fp = Ok raw /\
    ImageProcessor.optimize_image be cfg (PIL.copy raw) = Ok opt /\
    ImageStorage.save_image be cfg opt fp ws (str_or fmt (default_output_format cfg))
    = Ok (sp, sz) /\
    (if enable_thumbnails cfg
     then ImageStorage.create_thumbnail be cfg opt (PyPath.name sp) ws
     else Ok None) = Ok tp /\
    Document.title d = PyPath.name fp /\
    Document.file_path d = sp /\
    Document.status d = COMPLETED /\
    Document.id d = str_or did ("doc_img_" ++ PyStr.of_int (time_time be))%string /\
    Document.pages d =
      [ Page.mk 1 None sp tp
          (ImageMetadata.mk (PIL.width opt) (PIL.height opt) (PIL.mode raw) "Unknown"
             sz (MetadataExtractor._check_transparency raw)
             (MetadataExtractor.extract_exif_data cfg raw))
          (Some (PyPath.name fp)) (Some (Document.id d)) ].
Proof.
  intros H.
  apply process_sync_outcome_ok in H as (_ & _ & page & sp & tp & Hs & Hd).
  destruct (process_image_sync_cases be cfg fp ws fmt)
    as [(e & _ & _ & H) | (img & Hl & [(e & _ & _ & H) | (opt & Ho &
         [(e & _ & _ & H) | (sp' & sz & tp' & Hsave & Hth &
           [(e & _ & _ & H) | (md & Hmd & _ & Hout)])])])];
    try (rewrite Hs in H; discriminate).
  rewrite Hs in Hout. injection Hout as -> <- <-.
  apply load_image_ok in Hl as (raw & Hraw & ->).
  apply create_image_metadata_ok_inv in Hmd as (_ & _ & st & _ & _ & ->).
  apply create_document_inv in Hd as (d0 & Hnew & ->).
  unfold Document.new in Hnew. apply validated_ok in Hnew as [_ ->].
  exists raw, opt, sp, sz, tp.
  repeat (split; [first [assumption | reflexivity]|]).
  reflexivity.
Qed.

(** What a returned Document holds: its title is the base name of the
    original file and its file_path the saved artifact; its status is
    completed; its single page is page 1, without text, labelled with the
    document's title and id; the page's metadata gives the dimensions of the
    normalized image, the mode and the transparency of the decoded original,
    the format 'Unknown' (the decoded copy carries none) and the size of the
    saved artifact. *)
Theorem process_sync_result be cfg fp ws fmt did d :
  outcome (process_sync be cfg fp ws fmt did) = Ok d ->
  exists raw opt sp sz tp,
    Image_open be fp = Ok raw /\
    ImageProcessor.optimize_image be cfg (PIL.copy raw) = Ok opt /\
    ImageStorage.save_image be cfg opt fp ws (str_or fmt (default_output_format cfg))
    = Ok (sp, sz) /\
    (if enable_thumbnails cfg
     then ImageStorage.create_thumbnail be cfg opt (PyPath.name sp) ws
     else Ok None) = Ok tp /\
    Document.title d = PyPath.name fp /\
    Document.file_path d = sp /\
    Document.status d = COMPLETED /\
    Document.id d = str_or did ("doc_img_" ++ PyStr.of_int (time_time be))%string /\
    Document.pages d =
      [ Page.mk 1 None sp tp
          (ImageMetadata.mk (PIL.width opt) (PIL.height opt) (PIL.mode raw) "Unknown"
             sz (MetadataExtractor._check_transparency raw)
             (MetadataExtractor.extract_exif_data cfg raw))
          (Some (PyPath.name fp)) (Some (Document.id d)) ].
Proof. exact (process_sync_ok_inv be cfg fp ws fmt did d). Qed.

Lemma process_sync_result_witness :
  exists raw opt sp sz tp,
    Image_open Fixtures.be Fixtures.upload = Ok raw /\
    ImageProcessor.optimize_image Fixtures.be default_config (PIL.copy raw) = Ok opt /\
    ImageStorage.save_image Fixtures.be default_config opt Fixtures.upload None
      (str_or None (default_output_format default_config)) = Ok (sp, sz) /\
    (if enable_thumbnails default_config
     then ImageStorage.create_thumbnail Fixtures.be default_config opt
            (PyPath.name sp) None
     else Ok None) = Ok tp.
Proof.
  destruct (process_sync_result Fixtures.be default_config Fixtures.upload
              None None None
              (Document.update_page_references
                 (Document.mk "doc_img_1700000000" "photo.png"
                    "workspace_X/PlanoraAgent/image_store/img_a58703425487.webp" 1
                    [Page.mk 1 None
                       "workspace_X/PlanoraAgent/image_store/img_a58703425487.webp"
                       (Some "workspace_X/PlanoraAgent/image_store/thumbnails/thumb_img_a58703425487.jpg")
                       (ImageMetadata.mk 2 2 "RGBA" "Unknown" 1234 true None)
                       None None]
                    COMPLETED
                    [("original_file", "/data/in/photo.png");
                     ("processor", "ImageProcessor");
                     ("created_at", "2023-11-14T22:13:20");
                     ("file_size", "1234"); ("image_format", "Unknown");
                     ("dimensions", "2x2")]
                    "2023-11-14T22:13:20")))
    as (raw & opt & sp & sz & tp & H1 & H2 & H3 & H4 & _).
  - vm_compute. reflexivity.
  - exists raw, opt, sp, sz, tp. auto.
Defined.

End OrchestratorResult.

(** ** The data model: construction, labels and lookup *)

Section ModelsMore.

(** A Document is constructed exactly when its title is not blank,
    num_pages is positive and equals the number of pages given; so no
    Document without a page is ever constructed. *)
Theorem Document_new_accepts be id title fp n pages st md d :
  Document.new be id title fp n pages st md = Ok d <->
  PyStr.has_non_space title = true /\ 0 < n /\
  Z.of_nat (List.length pages) = n /\ pages <> [] /\
  d = Document.mk (match id with Some i => i | None => Document.default_id be end)
        title fp n pages st md (time_strftime be).
Proof.
  unfold Document.new, Document.validate_title, Document.validate_num_pages,
    Document.validate_pages_count.
  split.
  - intros H. apply validated_ok in H as [He ->].
    destruct (PyStr.truthy title) eqn:Et; [|discriminate].
    destruct (PyStr.has_non_space title) eqn:Es; [|discriminate].
    destruct (n <=? 0) eqn:En; [discriminate|].
    simpl in He.
    destruct (Z.of_nat (List.length pages) =? n) eqn:El; [|discriminate].
    apply Z.leb_gt in En. apply Z.eqb_eq in El.
    repeat split; try assumption. intros ->. simpl in El. lia.
  - intros (Hs & Hn & Hl & _ & ->).
    rewrite Hs, (has_non_space_truthy _ Hs).
    apply Z.leb_gt in Hn. rewrite Hn. simpl.
    apply Z.eqb_eq in Hl. now rewrite Hl.
Qed.

(** A Page is constructed exactly when its number is positive and its
    image path is not blank. *)
Theorem Page_new_accepts n text path thumb md p :
  Page.new n text path thumb md = Ok p <->
  0 < n /\ PyStr.has_non_space path = true /\
  p = Page.mk n text path thumb md None None.
Proof.
  unfold Page.new, Page.validate_page_number, Page.validate_image_path.
  split.
  - intros H. apply validated_ok in H as [He ->].
    destruct (n <=? 0) eqn:En; [discriminate|].
    destruct (PyStr.truthy path); [|discriminate].
    destruct (PyStr.has_non_space path); [|discriminate].
    apply Z.leb_gt in En. auto.
  - intros (Hn & Hs & ->).
    apply Z.leb_gt in Hn. now rewrite Hn, Hs, (has_non_space_truthy _ Hs).
Qed.

(** update_page_references labels every page with the document's title and
    id, changes nothing else of a page, keeps the pages in order, and doing it
    again changes nothing; looking a page up by its number after the update
    finds the labelled copy of the page found before. *)
Theorem update_page_references_labels d :
  Document.pages (Document.update_page_references d)
  = map (relabel (Document.title d) (Document.id d)) (Document.pages d) /\
  (forall p, In p (Document.pages (Document.update_page_references d)) ->
             Page.document_name p = Some (Document.title d) /\
             Page.document_id p = Some (Document.id d)) /\
  Document.update_page_references (Document.update_page_references d)
  = Document.update_page_references d /\
  forall n,
    Document.get_page (Document.update_page_references d) n
    = option_map (relabel (Document.title d) (Document.id d)) (Document.get_page d n).
Proof.
  split; [reflexivity|]. split; [|split].
  - intros p Hin. simpl in Hin. apply in_map_iff in Hin as (q & <- & _).
    split; reflexivity.
  - unfold Document.update_page_references. simpl. f_equal.
    rewrite map_map. reflexivity.
  - intros n. unfold Document.get_page. simpl.
    induction (Document.pages d) as [|q l IH]; simpl; [reflexivity|].
    destruct (Page.page_number q =? n); [reflexivity | exact IH].
Qed.

End ModelsMore.

Section PipelineLookup.
Import Pipeline.

(** In a Document the pipeline returns, page 1 is found by get_page and no
    other number is; the page carries the document's id and title. *)
Theorem get_page_of_pipeline_document be cfg fp ws fmt did d :
  outcome (process_sync be cfg fp ws fmt did) = Ok d ->
  exists p,
    Document.pages d = [p] /\
    Document.get_page d 1 = Some p /\
    (forall n, n <> 1 -> Document.get_page d n = None) /\
    Page.document_id p = Some (Document.id d) /\
    Page.document_name p = Some (Document.title d).
Proof.
  intros H.
  apply process_sync_ok_inv in H
    as (raw & opt & sp & sz & tp & _ & _ & _ & _ & Ht & _ & _ & _ & Hp).
  eexists. split; [exact Hp|].
  unfold Document.get_page. rewrite Hp. cbn [find Page.page_number].
  split; [reflexivity|]. split.
  - intros n Hn. destruct (1 =? n) eqn:E; [|reflexivity].
    apply Z.eqb_eq in E. congruence.
  - cbn [Page.document_id Page.document_name]. now rewrite Ht.
Qed.

Lemma get_page_of_pipeline_document_witness :
  exists d p,
    outcome (process_sync Fixtures.be default_config Fixtures.upload None None None)
    = Ok d /\
    Document.pages d = [p] /\
    Document.get_page d 1 = Some p /\
    Page.document_id p = Some "doc_img_1700000000".
Proof.
  eexists.
  match goal with |- exists p, ?o = Ok ?d /\ _ =>
    assert (E : o = Ok d) by (vm_compute; reflexivity) end.
  destruct (get_page_of_pipeline_document _ _ _ _ _ _ _ E)
    as (p & Hp & Hg & _ & Hi & _).
  exists p. repeat split; assumption.
Defined.

End PipelineLookup.

(** ** The endpoint [POST /process_image/] *)

Section Endpoint.
Import Pipeline.

Lemma outcome_finallyR {A} (m : run A) c : outcome (finallyR m c) = outcome m.
Proof. reflexivity. Qed.

Lemma steps_finallyR {A} (m : run A) c : steps (finallyR m c) = steps m ++ c.
Proof. reflexivity. Qed.

Lemma outcome_ret {A} (a : A) : outcome (ret a) = Ok a.
Proof. reflexivity. Qed.

Lemma steps_ret {A} (a : A) : steps (ret a) = [].
Proof. reflexivity. Qed.

Ltac run_outcome :=
  repeat (rewrite ?outcome_bindR, ?outcome_finallyR, ?outcome_call, ?outcome_ret;
          cbv beta iota).

Ltac run_steps :=
  repeat (rewrite ?steps_bindR, ?steps_finallyR, ?steps_call, ?steps_ret,
            ?outcome_bindR, ?outcome_finallyR, ?outcome_call, ?outcome_ret;
          cbv beta iota).

Lemma process_error_is_typed be cfg fp ws fmt did e :
  outcome (process be cfg fp ws fmt did) = Raise e ->
  exists message path, e = ImageProcessingError message path.
Proof.
  intros H. eapply process_with_error_is_typed; exact H.
Qed.

Lemma bindR_ret {A B} (a : A) (k : A -> run B) : bindR (ret a) k = k a.
Proof. unfold bindR, ret. now destruct (k a). Qed.

Lemma bindR_call_ok {A B} s (a : A) (k : A -> run B) :
  bindR (call s (Ok a)) k = (s :: steps (k a), outcome (k a)).
Proof. unfold bindR, call, steps, outcome. now destruct (k a). Qed.

Lemma os_path_exists_with_file be p content :
  os_path_exists (with_file be p content) p = true.
Proof.
  unfold os_path_exists, with_file, names_file. cbn [os_stat].
  now rewrite String.eqb_refl.
Qed.

(** Either a check of the endpoint refuses the request, or all of them
    pass. *)
Lemma checks_cases file fmt :
  (exists e status detail,
     Api.checks file fmt = raise e /\
     @Api.to_http Api.ProcessImageResponse e = raise (HTTPException status detail) /\
     (status = 400 \/ status = 500)) \/
  (exists name f,
     Api.filename file = Some name /\ PyStr.truthy name = true /\
     (Api.size file = None \/ Api.size file = Some 0) /\
     fmt = Some f /\ PyStr.mem f Api.supported_output = true /\
     Api.checks file fmt = ret name).
Proof.
  unfold Api.checks.
  destruct (Api.filename file) as [name|] eqn:En.
  2:{ left. do 3 eexists. split; [reflexivity|]. split; [reflexivity | now left]. }
  destruct (PyStr.truthy name) eqn:Et.
  2:{ left. do 3 eexists. split; [reflexivity|]. split; [reflexivity | now left]. }
  assert (Hsz : Api.size file = None \/ Api.size file = Some 0 \/
                exists n, Api.size file = Some n /\ (n =? 0) = false).
  { destruct (Api.size file) as [n|]; [|now left].
    destruct (n =? 0) eqn:E; [apply Z.eqb_eq in E; subst; auto|].
    right. right. exists n. auto. }
  destruct Hsz as [Hs | [Hs | (n & Hs & Hz)]]; rewrite Hs; try rewrite Hz.
  3:{ left. do 3 eexists. split; [reflexivity|]. split; [reflexivity | now right]. }
  all: destruct fmt as [f|];
    [destruct (PyStr.mem f Api.supported_output) eqn:Ef|];
    try (left; do 3 eexists; split; [reflexivity|];
         split; [reflexivity | now left]);
    right; exists name, f; auto 10.
Qed.

(** A request that a check refuses: nothing is written. *)
Lemma process_image_refused be cfg file ws fmt did e :
  Api.checks file fmt = raise e ->
  Api.process_image be cfg file ws fmt did = Api.to_http e.
Proof.
  intros H. unfold Api.process_image, Api.temp_file_path. rewrite H.
  destruct e; reflexivity.
Qed.

(** The ways through the endpoint once the checks have passed. *)
Lemma process_image_cases be cfg file ws fmt did name :
  Api.checks file fmt = ret name ->
  (exists m,
     NamedTemporaryFile be (Api.file_extension name) = Failed m /\
     Api.process_image be cfg file ws fmt did
     = ([CreateUpload (Api.file_extension name)],
        Raise (HTTPException 500 ("Internal server error: " ++ m)))) \/
  (exists tmp,
     NamedTemporaryFile be (Api.file_extension name) = Done tmp /\
     ((exists m,
         Api.read file = Failed m /\
         Api.process_image be cfg file ws fmt did
         = ([CreateUpload (Api.file_extension name); ReadUpload]
            ++ (if PyStr.truthy tmp then [RemoveUpload tmp] else []),
            Raise (HTTPException 500 ("Internal server error: " ++ m)))) \/
      (exists content,
         Api.read file = Done content /\
         ((exists m,
             file_write be tmp content = Failed m /\
             Api.process_image be cfg file ws fmt did
             = ([CreateUpload (Api.file_extension name); ReadUpload; WriteUpload tmp]
                ++ (if PyStr.truthy tmp then [RemoveUpload tmp] else []),
                Raise (HTTPException 500 ("Internal server error: " ++ m)))) \/
          (file_write be tmp content = Done tt /\
           steps (Api.process_image be cfg file ws fmt did)
           = CreateUpload (Api.file_extension name) :: ReadUpload :: WriteUpload tmp
             :: steps (process (with_file be tmp content) cfg tmp ws fmt did)
             ++ (if PyStr.truthy tmp then [RemoveUpload tmp] else []) /\
           outcome (Api.process_image be cfg file ws fmt did)
           = match outcome (process (with_file be tmp content) cfg tmp ws fmt did) with
             | Ok d => Ok (Api.mkResponse true (Some d) None)
             | Raise e => Raise (HTTPException 422 (exn_str e))
             end))))).
Proof.
  intros Hc. unfold Api.process_image, Api.temp_file_path. rewrite Hc.
  rewrite bindR_ret. cbn [outcome ret snd].
  destruct (NamedTemporaryFile be (Api.file_extension name)) as [tmp|m] eqn:Ec.
  2:{ left. exists m. split; reflexivity. }
  right. exists tmp. split; [reflexivity|].
  rewrite os_path_exists_with_file, andb_true_r.
  cbn [of_io]. rewrite bindR_call_ok. cbv beta.
  destruct (Api.read file) as [content|m] eqn:Er.
  2:{ left. exists m. split; reflexivity. }
  right. exists content. split; [reflexivity|].
  cbn [of_io]. rewrite bindR_call_ok. cbv beta.
  destruct (file_write be tmp content) as [[]|m] eqn:Ew.
  2:{ left. exists m. split; reflexivity. }
  right. split; [reflexivity|].
  cbn [of_io]. rewrite bindR_call_ok. cbv beta.
  split.
  - rewrite steps_finallyR, steps_catchR. cbn [steps outcome fst snd].
    rewrite steps_bindR, outcome_bindR.
    destruct (outcome (process _ cfg tmp ws fmt did)) as [d|e0] eqn:E.
    + cbn [steps ret fst app]. now rewrite !app_nil_r.
    + apply process_error_is_typed in E as (m & p & ->).
      cbn [app steps raise Api.to_http fst]. now rewrite !app_nil_r.
  - rewrite outcome_finallyR, outcome_catchR. cbn [steps outcome fst snd].
    rewrite outcome_bindR.
    destruct (outcome (process _ cfg tmp ws fmt did)) as [d|e0] eqn:E.
    + reflexivity.
    + apply process_error_is_typed in E as (m & p & ->). reflexivity.
Qed.

(** Once the request passed the endpoint's own checks and the upload was
    written to its temporary file, the endpoint answers as the pipeline does
    on that file: a Document becomes a response with success = true, and a
    processing error becomes HTTP 422 with the error's message. When the
    temporary file cannot be created, read into or written, the answer is
    HTTP 500 with the error's message. *)
Theorem endpoint_maps_pipeline_outcome be cfg file ws f did name :
  Api.filename file = Some name ->
  PyStr.truthy name = true ->
  Api.size file = None \/ Api.size file = Some 0 ->
  PyStr.mem f Api.supported_output = true ->
  (forall tmp content,
      NamedTemporaryFile be (PyStr.lower (PyPath.suffix name)) = Done tmp ->
      Api.read file = Done content ->
      file_write be tmp content = Done tt ->
      outcome (Api.process_image be cfg file ws (Some f) did)
      = match outcome (process (with_file be tmp content) cfg tmp ws (Some f) did) with
        | Ok d => Ok (Api.mkResponse true (Some d) None)
        | Raise e => Raise (HTTPException 422 (exn_str e))
        end) /\
  (forall message,
      NamedTemporaryFile be (PyStr.lower (PyPath.suffix name)) = Failed message \/
      (exists tmp,
          NamedTemporaryFile be (PyStr.lower (PyPath.suffix name)) = Done tmp /\
          (Api.read file = Failed message \/
           exists content,
             Api.read file = Done content /\
             file_write be tmp content = Failed message)) ->
      outcome (Api.process_image be cfg file ws (Some f) did)
      = Raise (HTTPException 500 ("Internal server error: " ++ message))).
Proof.
  intros Hn Ht Hs Hf.
  assert (Hc : Api.checks file (Some f) = ret name).
  { unfold Api.checks. rewrite Hn, Ht, Hf.
    destruct Hs as [-> | ->]; reflexivity. }
  pose proof (process_image_cases be cfg file ws (Some f) did name Hc) as C.
  unfold Api.file_extension in C.
  split.
  - intros tmp content Ec Er Ew.
    destruct C as [(m & E & _) | (tmp' & E & C)]; [congruence|].
    rewrite Ec in E. injection E as <-.
    destruct C as [(m & E & _) | (content' & E & C)]; [congruence|].
    rewrite Er in E. injection E as <-.
    destruct C as [(m & E & _) | (_ & _ & H)]; [congruence | exact H].
  - intros message H.
    destruct C as [(m & E & ->) | (tmp' & E & C)].
    + destruct H as [H | (tmp & H & _)]; [|congruence].
      rewrite E in H. now injection H as ->.
    + destruct H as [H | (tmp & Ec & H)]; [congruence|].
      rewrite E in Ec. injection Ec as <-.
      destruct C as [(m & Er & ->) | (content' & Er & C)].
      * destruct H as [H | (content & H & _)]; [|congruence].
        rewrite Er in H. now injection H as ->.
      * destruct H as [H | (content & Er' & Ew)]; [congruence|].
        rewrite Er in Er'. injection Er' as <-.
        destruct C as [(m & E' & ->) | (E' & _)]; [|congruence].
        rewrite Ew in E'. now injection E' as ->.
Qed.

Lemma endpoint_maps_pipeline_outcome_witness :
  exists d,
    outcome (Api.process_image Fixtures.be default_config
               (Api.mkUpload (Some "photo.PNG") None (Done [137; 80; 78; 71]))
               None (Some "webp") None)
    = Ok (Api.mkResponse true (Some d) None) /\
    Document.title d = "upload_k3j2.png" /\
    Document.status d = COMPLETED.
Proof.
  destruct (endpoint_maps_pipeline_outcome Fixtures.be default_config
              (Api.mkUpload (Some "photo.PNG") None (Done [137; 80; 78; 71]))
              None "webp" None "photo.PNG"
              eq_refl eq_refl (or_introl eq_refl) eq_refl) as [H _].
  rewrite (H "/tmp/upload_k3j2.png" [137; 80; 78; 71] eq_refl eq_refl eq_refl).
  eexists. split; [vm_compute; reflexivity|]. split; reflexivity.
Defined.

(** An upload whose size is reported and not zero is answered with HTTP 500
    before anything is written or processed: the size check reads
    config.max_file_size, a field the configuration does not have. *)
Theorem sized_upload_is_refused be cfg file ws fmt did name n :
  Api.filename file = Some name ->
  PyStr.truthy name = true ->
  Api.size file = Some n ->
  n <> 0 ->
  steps (Api.process_image be cfg file ws fmt did) = [] /\
  exists detail,
    outcome (Api.process_image be cfg file ws fmt did)
    = Raise (HTTPException 500 detail).
Proof.
  intros Hn Ht Hs Hz.
  unfold Api.process_image, Api.temp_file_path, Api.checks.
  rewrite Hn, Ht, Hs. apply Z.eqb_neq in Hz. rewrite Hz.
  split; [reflexivity|]. eexists. reflexivity.
Qed.

Lemma sized_upload_is_refused_witness :
  steps (Api.process_image Fixtures.be default_config
           (Api.mkUpload (Some "photo.png") (Some 4096) (Done []))
           None (Some "webp") None) = [] /\
  exists detail,
    outcome (Api.process_image Fixtures.be default_config
               (Api.mkUpload (Some "photo.png") (Some 4096) (Done []))
               None (Some "webp") None)
    = Raise (HTTPException 500 detail).
Proof.
  apply (sized_upload_is_refused Fixtures.be default_config
           (Api.mkUpload (Some "photo.png") (Some 4096) (Done []))
           None (Some "webp") None
           "photo.png" 4096 eq_refl eq_refl eq_refl).
  discriminate.
Defined.

(** Whatever goes wrong, the endpoint raises only HTTP errors, with status
    400, 422 or 500. *)
Theorem endpoint_raises_http_errors_only be cfg file ws fmt did e :
  outcome (Api.process_image be cfg file ws fmt did) = Raise e ->
  exists status detail,
    e = HTTPException status detail /\
    (status = 400 \/ status = 422 \/ status = 500).
Proof.
  destruct (checks_cases file fmt)
    as [(e0 & st & dt & Hc & Hh & Hst) | (name & f & _ & _ & _ & _ & _ & Hc)].
  - rewrite (process_image_refused _ _ _ _ _ _ _ Hc), Hh.
    intros H. injection H as <-. exists st, dt. split; [reflexivity|].
    destruct Hst; auto.
  - destruct (process_image_cases be cfg file ws fmt did name Hc)
      as [(m & _ & ->) | (tmp & _ & [(m & _ & ->) | (content & _ &
           [(m & _ & ->) | (_ & _ & ->)])])];
      try (intros H; injection H as <-; exists 500; eexists; auto).
    destruct (outcome (process _ cfg tmp ws fmt did)); [discriminate|].
    intros H. injection H as <-. exists 422. eexists. auto.
Qed.

Lemma endpoint_raises_http_errors_only_witness :
  exists status detail,
    HTTPException 400 "No file provided" = HTTPException status detail /\
    (status = 400 \/ status = 422 \/ status = 500).
Proof.
  apply (endpoint_raises_http_errors_only Fixtures.be default_config
           (Api.mkUpload None None (Done [])) None None None).
  reflexivity.
Defined.

(** The endpoint either refuses the request before it creates anything, or
    fails to create the temporary file, or creates it and, on every way out
    (the upload cannot be read, it cannot be written, the pipeline fails, the
    pipeline returns), ends by removing it. *)
Theorem upload_is_always_removed be cfg file ws fmt did :
  steps (Api.process_image be cfg file ws fmt did) = [] \/
  exists name,
    Api.filename file = Some name /\
    ((exists message,
         NamedTemporaryFile be (PyStr.lower (PyPath.suffix name)) = Failed message /\
         steps (Api.process_image be cfg file ws fmt did)
         = [CreateUpload (PyStr.lower (PyPath.suffix name))]) \/
     (exists tmp middle,
         NamedTemporaryFile be (PyStr.lower (PyPath.suffix name)) = Done tmp /\
         steps (Api.process_image be cfg file ws fmt did)
         = CreateUpload (PyStr.lower (PyPath.suffix name)) :: ReadUpload
           :: middle ++ (if PyStr.truthy tmp then [RemoveUpload tmp] else []) /\
         ((exists message, Api.read file = Failed message /\ middle = []) \/
          (exists content,
              Api.read file = Done content /\
              ((exists message,
                   file_write be tmp content = Failed message /\
                   middle = [WriteUpload tmp]) \/
               (file_write be tmp content = Done tt /\
                middle = WriteUpload tmp
                         :: steps (process (with_file be tmp content) cfg tmp
                                     ws fmt did))))))).
Proof.
  destruct (checks_cases file fmt)
    as [(e0 & st & dt & Hc & Hh & _) | (name & f & Hn & _ & _ & _ & _ & Hc)].
  - left. now rewrite (process_image_refused _ _ _ _ _ _ _ Hc), Hh.
  - right. exists name. split; [assumption|].
    pose proof (process_image_cases be cfg file ws fmt did name Hc) as C.
    unfold Api.file_extension in C.
    destruct C as [(m & Ec & ->) | (tmp & Ec & C)].
    + left. exists m. split; [assumption | reflexivity].
    + right. exists tmp.
      destruct C as [(m & Er & ->) | (content & Er & [(m & Ew & ->) | (Ew & Hs & _)])].
      * exists []. split; [assumption|]. split; [reflexivity|].
        left. exists m. auto.
      * exists [WriteUpload tmp]. split; [assumption|]. split; [reflexivity|].
        right. exists content. split; [assumption|]. left. exists m. auto.
      * exists (WriteUpload tmp
                :: steps (process (with_file be tmp content) cfg tmp ws fmt did)).
        split; [assumption|]. split; [exact Hs|].
        right. exists content. split; [assumption|]. right. auto.
Qed.

(** A run of the endpoint on a picture: the upload is created, read,
    written, processed and removed. *)
Example endpoint_run :
  steps (Api.process_image Fixtures.be default_config
           (Api.mkUpload (Some "photo.PNG") None (Done [137; 80; 78; 71]))
           None (Some "jpeg") None)
  = [ CreateUpload ".png"; ReadUpload; WriteUpload "/tmp/upload_k3j2.png";
      Validate "/tmp/upload_k3j2.png"; EnsureDirectories;
      Decode "/tmp/upload_k3j2.png"; Normalize; PersistMain "jpeg";
      PersistThumbnail; ExtractMetadata; AssemblePage; AssembleDocument;
      RemoveUpload "/tmp/upload_k3j2.png" ].
Proof. vm_compute. reflexivity. Qed.

End Endpoint.

(** ** Which errors carry the path *)

Section ErrorPaths.
Import Pipeline.

Lemma process_sync_outcome be cfg fp ws fmt did :
  outcome (process_sync be cfg fp ws fmt did)
  = match ImageProcessor.validate_file be cfg fp with
    | Raise e => outcome (@reraise_or_wrap Document.t fp e)
    | Ok _ =>
        match ensure_directories be cfg ws with
        | Raise e => outcome (@reraise_or_wrap Document.t fp e)
        | Ok _ =>
            match outcome (process_image_sync be cfg fp ws fmt) with
            | Raise e => outcome (@reraise_or_wrap Document.t fp e)
            | Ok (page, _, _) =>
                match create_document be page fp did with
                | Ok d => Ok d
                | Raise e => outcome (@reraise_or_wrap Document.t fp e)
                end
            end
        end
    end.
Proof.
  unfold process_sync, process_with. rewrite outcome_catchR.
  rewrite outcome_bindR, outcome_call.
  destruct (ImageProcessor.validate_file be cfg fp); [|reflexivity].
  rewrite outcome_bindR, outcome_call.
  destruct (ensure_directories be cfg ws); [|reflexivity].
  rewrite outcome_bindR.
  destruct (outcome (process_image_sync be cfg fp ws fmt)) as [[[page sp] tp]|];
    [|reflexivity].
  rewrite outcome_bindR, outcome_call.
  destruct (create_document be page fp did); reflexivity.
Qed.

Lemma process_image_sync_error be cfg fp ws fmt e :
  outcome (process_image_sync be cfg fp ws fmt) = Raise e ->
  exists message, e = ImageProcessingError message (Some fp).
Proof.
  unfold process_image_sync. rewrite outcome_catchR.
  match goal with |- context [outcome ?m] => destruct (outcome m) end;
    [discriminate|].
  intros H. injection H as <-. eexists. reflexivity.
Qed.

Lemma create_document_error be page fp did e :
  create_document be page fp did = Raise e ->
  PyStr.has_non_space (PyPath.name fp) = false /\
  exists message, e = ImageProcessingError message None.
Proof.
  intros H. split.
  - destruct (PyStr.has_non_space (PyPath.name fp)) eqn:E; [|reflexivity].
    destruct (create_document_returns be page fp did E) as [d Hd]. congruence.
  - unfold create_document in H.
    match type of H with try_except ?b _ = _ => destruct b end;
      [discriminate|].
    simpl in H. injection H as <-. eexists. reflexivity.
Qed.

Lemma truthy_false s : PyStr.truthy s = false -> s = "".
Proof. destruct s; [reflexivity | discriminate]. Qed.

(** On a machine whose mkdir fails with errors of its own, an error of
    process_sync carries the path of the file, with two exceptions: the
    refusal of an empty path, and a document whose creation failed because
    the file's name is blank. *)
Theorem pipeline_error_carries_path be cfg fp ws fmt did e :
  (forall p e0 message path,
      mkdir be p = Raise e0 -> e0 <> ImageProcessingError message path) ->
  outcome (process_sync be cfg fp ws fmt did) = Raise e ->
  exists message,
    e = ImageProcessingError message (Some fp) \/
    (fp = "" /\ e = ImageProcessingError message None) \/
    (PyStr.has_non_space (PyPath.name fp) = false /\
     e = ImageProcessingError message None).
Proof.
  intros Hmk. rewrite process_sync_outcome.
  destruct (ImageProcessor.validate_file be cfg fp) as [u|e1] eqn:Ev.
  2:{ apply validate_file_raise_inv in Ev as [m ->]. simpl.
      intros H. injection H as <-. exists m.
      destruct (PyStr.truthy fp) eqn:Et; [now left|].
      right. left. split; [now apply truthy_false | reflexivity]. }
  destruct (ensure_directories be cfg ws) as [u'|e2] eqn:Ee.
  2:{ assert (Hn : forall message path, e2 <> ImageProcessingError message path).
      { unfold ensure_directories in Ee.
        destruct (mkdir be (get_image_store_path cfg ws)) eqn:E1; simpl in Ee.
        - intros m q. eapply Hmk. exact Ee.
        - injection Ee as <-. intros m q. eapply Hmk. exact E1. }
      destruct e2; simpl; intros H; injection H as <-;
        try (eexists; left; reflexivity).
      exfalso. eapply Hn. reflexivity. }
  destruct (outcome (process_image_sync be cfg fp ws fmt)) as [[[page sp] tp]|e3] eqn:Ep.
  2:{ apply process_image_sync_error in Ep as [m ->]. simpl.
      intros H. injection H as <-. exists m. now left. }
  destruct (create_document be page fp did) as [d|e4] eqn:Ed; [discriminate|].
  apply create_document_error in Ed as (Hb & m & ->). simpl.
  intros H. injection H as <-. exists m. right. right. auto.
Qed.

Lemma pipeline_error_carries_path_witness :
  exists message,
    ImageProcessingError
      "Image processing failed: Failed to load image: No such file or directory"
      (Some "/data/in/other.png")
    = ImageProcessingError message (Some "/data/in/other.png") \/
    ("/data/in/other.png" = "" /\
     ImageProcessingError
       "Image processing failed: Failed to load image: No such file or directory"
       (Some "/data/in/other.png")
     = ImageProcessingError message None) \/
    (PyStr.has_non_space (PyPath.name "/data/in/other.png") = false /\
     ImageProcessingError
       "Image processing failed: Failed to load image: No such file or directory"
       (Some "/data/in/other.png")
     = ImageProcessingError message None).
Proof.
  apply (pipeline_error_carries_path
           (Fixtures.with_files [("/data/in/other.png", mkStat true 10 "1.0")])
           default_config "/data/in/other.png" None None None).
  - intros p e0 message path H. discriminate.
  - vm_compute. reflexivity.
Defined.

End ErrorPaths.

(** ** Storage information: what the two counts count *)

Section StorageInfo.
Import ImageStorage.

Lemma last_char_cons c s :
  PyStr.truthy s = true -> last_char (String c s) = last_char s.
Proof. destruct s; [discriminate | reflexivity]. Qed.

Lemma last_char_truthy s c : last_char s = Some c -> PyStr.truthy s = true.
Proof. destruct s; [discriminate | reflexivity]. Qed.

Lemma last_char_append a b :
  PyStr.truthy b = true -> last_char (a ++ b) = last_char b.
Proof.
  intros Hb. induction a as [|c a IH]; [reflexivity|].
  cbn [String.append]. rewrite last_char_cons; [exact IH|].
  now apply truthy_append_r.
Qed.

Lemma last_char_in s c : last_char s = Some c -> has_char c s = true.
Proof.
  induction s as [|d s IH]; [discriminate|].
  cbn [last_char has_char]. destruct s as [|e s].
  - intros H. injection H as ->. now rewrite Ascii.eqb_refl.
  - intros H. rewrite (IH H). apply orb_true_r.
Qed.

(** A name matched by a pattern that ends in an ordinary character ends in
    that character. *)
Lemma fnmatch_last pattern c :
  last_char pattern = Some c ->
  Ascii.eqb c "*" = false -> Ascii.eqb c "?" = false ->
  forall name, Glob.fnmatch pattern name = true -> last_char name = Some c.
Proof.
  intros Hl Hs Hq. revert Hl.
  induction pattern as [|x rest IH]; [discriminate|].
  intros Hl name. cbn [Glob.fnmatch].
  destruct (Ascii.eqb x "*") eqn:Ex.
  - assert (Hrest : last_char rest = Some c).
    { destruct rest as [|y rest']; [|exact Hl].
      cbn in Hl. injection Hl as ->. congruence. }
    induction name as [|d name IHn].
    + rewrite orb_false_r. now apply IH.
    + intros H. apply orb_true_iff in H as [H | H]; [now apply IH|].
      specialize (IHn H).
      rewrite last_char_cons; [exact IHn | now apply (last_char_truthy _ c)].
  - destruct name as [|d name]; [discriminate|].
    intros H. apply andb_true_iff in H as [Hc Hm].
    destruct rest as [|y rest'].
    + cbn in Hl. injection Hl as ->.
      destruct name; [|discriminate].
      rewrite Hq in Hc. simpl in Hc. apply Ascii.eqb_eq in Hc. now subst.
    + specialize (IH Hl name Hm).
      rewrite last_char_cons; [exact IH | now apply (last_char_truthy _ c)].
Qed.

(** After a star, what follows may match any end of the name. *)
Lemma fnmatch_star_skip rest a t :
  Glob.fnmatch rest t = true ->
  Glob.fnmatch (String "*" rest) (a ++ t) = true.
Proof.
  intros H. cbn [Glob.fnmatch]. rewrite Ascii.eqb_refl.
  induction a as [|c a IH]; cbn [String.append].
  - destruct t; now rewrite H.
  - rewrite IH. apply orb_true_r.
Qed.

Lemma generated_name_end be p fmt name :
  has_char "}" (PyStr.lower fmt) = false ->
  generate_filename be p fmt = Ok name ->
  Glob.fnmatch "img_*.{webp,jpg,jpeg,png}" name = false.
Proof.
  intros Hf H. apply generate_filename_inv in H as [_ ->].
  set (ext := if String.eqb (PyStr.lower fmt) "jpeg" then "jpg" else PyStr.lower fmt).
  set (h := file_hash p (mtime_text be p)).
  destruct (Glob.fnmatch _ _) eqn:E; [|reflexivity].
  assert (Hp : last_char "img_*.{webp,jpg,jpeg,png}" = Some "}"%char) by reflexivity.
  apply (fnmatch_last _ "}"%char Hp eq_refl eq_refl) in E.
  change (last_char (("img_" ++ h) ++ String "." ext) = Some "}"%char) in E.
  rewrite last_char_append in E by reflexivity.
  apply last_char_in in E. cbn [has_char] in E.
  unfold ext in E.
  rewrite extension_plain in E by (reflexivity || assumption).
  discriminate.
Qed.

Lemma filter_none {A} (f : A -> bool) l :
  (forall x, In x l -> f x = false) -> filter f l = [].
Proof.
  induction l as [|x l IH]; intros H; [reflexivity|].
  simpl. rewrite (H x (or_introl eq_refl)). apply IH.
  intros y Hy. apply H. now right.
Qed.

Lemma filter_all {A} (f : A -> bool) l :
  (forall x, In x l -> f x = true) -> filter f l = l.
Proof.
  induction l as [|x l IH]; intros H; [reflexivity|].
  simpl. rewrite (H x (or_introl eq_refl)). f_equal. apply IH.
  intros y Hy. apply H. now right.
Qed.

(** The image count of get_storage_info misses the artifacts of the
    pipeline: its pattern ends with the text '{webp,jpg,jpeg,png}', which
    Path.glob reads letter by letter, so in a store that holds only files
    named by generate_filename (for formats without a closing brace) the
    count is 0. *)
Theorem image_count_misses_artifacts be listdir cfg ws :
  os_path_exists be (get_image_store_path cfg ws) = true ->
  (forall name,
      In name (listdir (get_image_store_path cfg ws)) ->
      exists be' p fmt,
        has_char "}" (PyStr.lower fmt) = false /\
        generate_filename be' p fmt = Ok name) ->
  image_count (get_storage_info be listdir cfg ws) = Some 0.
Proof.
  intros He Hn. unfold get_storage_info. cbn [image_count]. rewrite He.
  unfold Glob.count. rewrite filter_none; [reflexivity|].
  intros name Hin. destruct (Hn name Hin) as (be' & p & fmt & Hf & Hg).
  now apply (generated_name_end be' p fmt).
Qed.

Lemma image_count_misses_artifacts_witness :
  image_count
    (get_storage_info
       (Fixtures.with_files
          [("workspace_X/PlanoraAgent/image_store", mkStat false 4096 "1.0")])
       (fun _ => ["img_a58703425487.webp"; "img_a58703425487.jpg"])
       default_config None)
  = Some 0.
Proof.
  apply (image_count_misses_artifacts
           (Fixtures.with_files
              [("workspace_X/PlanoraAgent/image_store", mkStat false 4096 "1.0")])
           (fun _ => ["img_a58703425487.webp"; "img_a58703425487.jpg"])
           default_config None eq_refl).
  intros name [<- | [<- | []]].
  - exists Fixtures.be, Fixtures.upload, "webp". split; vm_compute; reflexivity.
  - exists Fixtures.be, Fixtures.upload, "JPEG". split; vm_compute; reflexivity.
Defined.

(** The thumbnail count counts every file that generate_thumbnail_filename
    names: in a thumbnail folder that holds only such files it is the number
    of files. *)
Theorem thumbnail_count_counts_thumbnails be listdir cfg ws :
  os_path_exists be (get_thumbnail_path cfg ws) = true ->
  (forall name,
      In name (listdir (get_thumbnail_path cfg ws)) ->
      exists image_filename, name = generate_thumbnail_filename image_filename) ->
  thumbnail_count (get_storage_info be listdir cfg ws)
  = Some (Z.of_nat (List.length (listdir (get_thumbnail_path cfg ws)))).
Proof.
  intros He Hn. unfold get_storage_info. cbn [thumbnail_count]. rewrite He.
  unfold Glob.count. rewrite filter_all; [reflexivity|].
  intros name Hin. destruct (Hn name Hin) as (f & ->).
  unfold generate_thumbnail_filename.
  change (Glob.fnmatch "thumb_*.jpg" ("thumb_" ++ PyPath.stem f ++ ".jpg"))
    with (Glob.fnmatch (String "*" ".jpg") (PyPath.stem f ++ ".jpg")).
  now apply fnmatch_star_skip.
Qed.

Lemma thumbnail_count_counts_thumbnails_witness :
  thumbnail_count
    (get_storage_info
       (Fixtures.with_files
          [("workspace_X/PlanoraAgent/image_store/thumbnails", mkStat false 4096 "1.0")])
       (fun _ => ["thumb_img_a58703425487.jpg"])
       default_config None)
  = Some 1.
Proof.
  apply (thumbnail_count_counts_thumbnails
           (Fixtures.with_files
              [("workspace_X/PlanoraAgent/image_store/thumbnails",
                mkStat false 4096 "1.0")])
           (fun _ => ["thumb_img_a58703425487.jpg"])
           default_config None eq_refl).
  intros name [<- | []]. exists "img_a58703425487.webp". reflexivity.
Defined.

End StorageInfo.
